(** * compile_fastqc_data: collation of FASTQC reports

    A shallow embedding of [compile_fastqc_data.py] (classes
    [fastqc_collation], [fastqc_report] and [fastqc_module]) together with
    the properties of the parser and of the collation engine.

    Conventions of the embedding:
    - a Python [str] is the [string] of the bytes of its UTF-8 encoding;
      ordering is byte-wise, which on UTF-8 text coincides with Python's
      code-point ordering; white space and the length of a separator are
      those of the characters, read off the bytes;
    - the content of a file is the text it decodes to: text mode would
      refuse bytes that do not decode and would end a line at a carriage
      return as well, so statements about the lines of a text are about
      text that decodes and holds no carriage return;
    - an exception is a value of [exn]; code that may raise returns a
      [result];
    - the file system is an explicit state: a finite map from paths to file
      contents and a set of directories; functions that touch it live in the
      state-and-exception monad [M];
    - a Python [dict] is an association list in insertion order;
    - a pandas [Series] is the ordered list of its (label, value) pairs, a
      [DataFrame] its column labels and its rows;
    - what [os.walk] yields is an input of the constructor;
    - of the failures of the operating system, those of [os.makedirs] on
      the path itself are modelled (the empty path, a regular file on the
      way, a path that exists); access rights, a full disk and a path that
      cannot be opened are not part of the model. *)

From Stdlib Require Import Ascii.
From stdpp Require Import base gmap strings list sorting pretty.

(** ** Exceptions and results *)

Inductive exn : Type :=
  | IndexError
  | NameError
  | TypeError
  | KeyError (what : string)
  | ValueError (what : string)
  | OSError (errno : nat).

Inductive result (A : Type) : Type :=
  | Ok (a : A)
  | Raise (e : exn).
Arguments Ok {A} a.
Arguments Raise {A} e.

Definition rbind {A B} (r : result A) (k : A → result B) : result B :=
  match r with
  | Ok a => k a
  | Raise e => Raise e
  end.

Notation "x ←r e1 ; e2" := (rbind e1 (λ x, e2))
  (at level 100, e1 at next level, e2 at level 200, right associativity,
   format "x  ←r  e1 ;  '/' e2").

(** ** Python string primitives *)

Module Py.

Definition tab : ascii := "009"%char.
Definition newline : ascii := "010"%char.

(** [s[:n]] *)
Definition take (n : nat) (s : string) : string := String.substring 0 n s.

(** [s[n:]] *)
Fixpoint drop (n : nat) (s : string) : string :=
  match n, s with
  | S n', String _ s' => drop n' s'
  | _, _ => s
  end.

(** The white space that [str.strip()] removes, the characters for which
    [str.isspace] holds, each in UTF-8: the bytes 9 to 13 and 28 to 32,
    U+0085, U+00A0, U+1680, U+2000 to U+200A, U+2028, U+2029, U+202F,
    U+205F and U+3000. *)
Definition bytes (l : list nat) : string :=
  foldr (λ n s, String (ascii_of_nat n) s) EmptyString l.

Definition spaces : list string :=
  bytes <$>
    [ [9]; [10]; [11]; [12]; [13]; [28]; [29]; [30]; [31]; [32];
      [194; 133]; [194; 160]; [225; 154; 128];
      [226; 128; 128]; [226; 128; 129]; [226; 128; 130]; [226; 128; 131];
      [226; 128; 132]; [226; 128; 133]; [226; 128; 134]; [226; 128; 135];
      [226; 128; 136]; [226; 128; 137]; [226; 128; 138];
      [226; 128; 168]; [226; 128; 169]; [226; 128; 175];
      [226; 129; 159]; [227; 128; 128] ].

(** What follows the prefix [p] of [s]. *)
Fixpoint after (p s : string) : option string :=
  match p, s with
  | EmptyString, _ => Some s
  | String a p', String b s' => if Ascii.eqb a b then after p' s' else None
  | String _ _, EmptyString => None
  end.

(** What follows a white space character at the head of [s]. *)
Definition space_head (s : string) : option string :=
  foldr (λ w r, match after w s with Some t => Some t | None => r end) None spaces.

(** [s.lstrip()]: at most [len(s)] characters are removed. *)
Fixpoint lstrip_upto (n : nat) (s : string) : string :=
  match n, space_head s with
  | S n', Some t => lstrip_upto n' t
  | _, _ => s
  end.

Definition lstrip (s : string) : string := lstrip_upto (String.length s) s.

(** [s.rstrip()]: the string is cut where what remains is white space
    only. *)
Fixpoint rstrip (s : string) : string :=
  match s with
  | String c s' =>
      match lstrip s with
      | EmptyString => EmptyString
      | _ => String c (rstrip s')
      end
  | EmptyString => EmptyString
  end.

(** [s.strip()] *)
Definition strip (s : string) : string := lstrip (rstrip s).

(** [s.split(sep)] for a one-byte separator: never the empty list. *)
Fixpoint split (sep : ascii) (s : string) : list string :=
  match s with
  | EmptyString => [EmptyString]
  | String c s' =>
      if Ascii.eqb c sep then EmptyString :: split sep s'
      else match split sep s' with
           | x :: xs => String c x :: xs
           | [] => [String c EmptyString]
           end
  end.

(** [sep.join(l)] *)
Fixpoint join (sep : string) (l : list string) : string :=
  match l with
  | [] => EmptyString
  | [x] => x
  | x :: xs => x +:+ sep +:+ join sep xs
  end.

(** [f.readlines()]: the lines of a file, each with its terminator; a line
    ends at a line feed. (For text that decodes and holds no carriage
    return, which text mode would read as a line end too.) *)
Fixpoint readlines (s : string) : list string :=
  match s with
  | EmptyString => []
  | String c s' =>
      if Ascii.eqb c newline then String c EmptyString :: readlines s'
      else match readlines s' with
           | l :: ls => String c l :: ls
           | [] => [String c EmptyString]
           end
  end.

(** [s.startswith(p)] *)
Fixpoint startswith (p s : string) : bool :=
  match p, s with
  | EmptyString, _ => true
  | String a p', String b s' => Ascii.eqb a b && startswith p' s'
  | String _ _, EmptyString => false
  end.

(** [int(s)]: optional surrounding white space, optional sign, decimal
    digits. (The ASCII literals: underscores between digits and the digits
    of other scripts, which [int] reads as well, are refused here.) *)
Fixpoint digits (acc : Z) (s : string) : option Z :=
  match s with
  | EmptyString => Some acc
  | String c s' =>
      match Ascii.is_nat c with
      | Some d => digits (10 * acc + Z.of_nat d)%Z s'
      | None => None
      end
  end.

Definition unsigned (s : string) : option Z :=
  match s with
  | EmptyString => None
  | _ => digits 0%Z s
  end.

Definition int (s : string) : result Z :=
  let r := match strip s with
           | String "-"%char t => Z.opp <$> unsigned t
           | String "+"%char t => unsigned t
           | t => unsigned t
           end in
  match r with
  | Some z => Ok z
  | None => Raise (ValueError "invalid literal for int()")
  end.

(** [os.path.join(a, b)] on a POSIX system. *)
Definition path_join (a b : string) : string :=
  if startswith "/" b then b
  else match String.rev a with
       | EmptyString => b
       | String "/"%char _ => a +:+ b
       | _ => a +:+ "/" +:+ b
       end.

(** The directories on the way to [name], nearest first, as [os.makedirs]
    finds them with [os.path.split]: every prefix of [name] that stands
    before a slash and does not end in one, when a name follows the slash,
    and the slashes that [name] starts with, when a name follows them. *)
Fixpoint has_name (s : string) : bool :=
  match s with
  | String c s' => negb (Ascii.eqb c "/") || has_name s'
  | EmptyString => false
  end.

Fixpoint parents_from (pre : string) (last_slash only_slashes : bool) (s : string)
    : list string :=
  match s with
  | EmptyString => []
  | String c s' =>
      let slash := Ascii.eqb c "/" in
      let here :=
        negb (String.eqb pre EmptyString)
        && (if slash then negb last_slash && has_name s' else only_slashes) in
      let rest := parents_from (pre +:+ String c EmptyString) slash (only_slashes && slash) s' in
      if here then pre :: rest else rest
  end.

Definition parents (name : string) : list string :=
  rev (parents_from EmptyString false true name).

(** A Python [dict] with string keys, in insertion order. *)
Section dict.
Context {V : Type}.

Fixpoint dict_get (k : string) (d : list (string * V)) : option V :=
    match d with
    | [] => None
    | (k', v) :: d' => if String.eqb k' k then Some v else dict_get k d'
    end.

Fixpoint dict_set (k : string) (v : V) (d : list (string * V)) : list (string * V) :=
    match d with
    | [] => [(k, v)]
    | (k', v') :: d' =>
    if String.eqb k' k then (k', v) :: d' else (k', v') :: dict_set k v d'
    end.

Definition dict_keys (d : list (string * V)) : list string := fst <$> d.
End dict.

(** A [str] is held as its UTF-8 bytes. [char_head s] is what follows the
    first character of [s]: one byte below 128, or a lead byte with its
    continuation bytes, as the strict UTF-8 decoder accepts them. *)
Definition byte (c : ascii) : N := N_of_ascii c.

Definition between (lo hi : N) (c : ascii) : bool :=
  (lo <=? byte c)%N && (byte c <=? hi)%N.

Definition cont (c : ascii) : bool := between 128 191 c.

Definition lead3 (a b : ascii) : bool :=
  (between 224 224 a && between 160 191 b)
  || (between 225 236 a && cont b)
  || (between 237 237 a && between 128 159 b)
  || (between 238 239 a && cont b).

Definition lead4 (a b : ascii) : bool :=
  (between 240 240 a && between 144 191 b)
  || (between 241 243 a && cont b)
  || (between 244 244 a && between 128 143 b).

Definition char_head (s : string) : option string :=
  match s with
  | EmptyString => None
  | String a s1 =>
      if between 0 127 a then Some s1
      else
        match s1 with
        | EmptyString => None
        | String b s2 =>
            if between 194 223 a then (if cont b then Some s2 else None)
            else
              match s2 with
              | EmptyString => None
              | String c s3 =>
                  if lead3 a b then (if cont c then Some s3 else None)
                  else
                    match s3 with
                    | EmptyString => None
                    | String d s4 =>
                        if lead4 a b && cont c && cont d then Some s4 else None
                    end
              end
        end
  end.

(** [len(s) == 1] *)
Definition one_char (s : string) : bool :=
  match char_head s with
  | Some EmptyString => true
  | _ => false
  end.

(** Text that decodes: a sequence of characters. *)
Fixpoint utf8_upto (n : nat) (s : string) : bool :=
  match s with
  | EmptyString => true
  | _ =>
      match n, char_head s with
      | S n', Some t => utf8_upto n' t
      | _, _ => false
      end
  end.

Definition utf8 (s : string) : bool := utf8_upto (String.length s) s.

(** [p in s] for strings. *)
Fixpoint occurs (p s : string) : bool :=
  startswith p s
  || match s with
     | String _ s' => occurs p s'
     | EmptyString => false
     end.

(** [c in s] for a byte [c]. *)
Fixpoint mem (c : ascii) (s : string) : bool :=
  match s with
  | String c' s' => Ascii.eqb c' c || mem c s'
  | EmptyString => false
  end.

(** [x in l] for a list of strings. *)
Definition contains (x : string) (l : list string) : bool :=
  existsb (String.eqb x) l.

End Py.

(** Test data are written with explicit separators. *)
Definition TAB : string := String Py.tab "".
Definition NL : string := String Py.newline "".

Definition text (lines : list (list string)) : string :=
  foldr (λ l acc, Py.join TAB l +:+ NL +:+ acc) "" lines.


(** ** The regular expression of the sample stub

    The substitution of [_process_basic_stats]: the pattern is a greedy
    group of any bytes, the literal [.fastq], and a greedy run of any bytes;
    the replacement is the group. It is matched with the backtracking
    semantics of Python's [re]: the dot is any byte but a line feed, the
    leftmost match is taken and the scan resumes after it. *)

Module Re.

Definition dot (c : ascii) : bool := negb (Ascii.eqb c Py.newline).

(** Length consumed by the final greedy run. *)
Fixpoint dotstar (s : string) : nat :=
  match s with
  | String c s' => if dot c then S (dotstar s') else 0
  | EmptyString => 0
  end.

(** The match of the whole pattern anchored at the start of [s]: group 1
    and the length of the match. The group first tries to take one more
    byte and falls back to the literal when the rest does not match. *)
Fixpoint match_fastq (s : string) : option (string * nat) :=
  let literal :=
    if Py.startswith ".fastq" s
    then Some (EmptyString, 6 + dotstar (Py.drop 6 s))
    else None in
  match s with
  | String c s' =>
      if dot c then
        match match_fastq s' with
        | Some (g, n) => Some (String c g, S n)
        | None => literal
        end
      else literal
  | EmptyString => literal
  end.

(** The substitution loop; [skip] counts the bytes of the current match
    that are still to be passed over. *)
Fixpoint sub_from (skip : nat) (s : string) : string :=
  match s with
  | String c s' =>
      match skip with
      | S k => sub_from k s'
      | 0 =>
          match match_fastq s with
          | Some (g, n) => g +:+ sub_from (pred n) s'
          | None => String c (sub_from 0 s')
          end
      end
  | EmptyString => EmptyString
  end.

Definition sub_fastq (s : string) : string := sub_from 0 s.

End Re.


(** ** pandas objects *)

Inductive pandas_data : Type :=
  | Series (items : list (string * string))
  | DataFrame (columns : list string) (rows : list (list string)).

Module Pd.

(** [Series(values, index=labels)] from the first two columns of a
    rectangular array of rows. *)
Definition key_value (r : list string) : string * string :=
  (nth 0 r EmptyString, nth 1 r EmptyString).

(** [numpy.array(lines)] followed by [[:,1]] and [[:,0]]: the rows must
    form a two-dimensional array with at least two columns. *)
Definition Series_init (lines : list (list string)) : result pandas_data :=
  match lines with
  | [] => Raise IndexError
  | r :: rs =>
      if forallb (λ r', length r' =? length r) rs then
        if 2 <=? length r then Ok (Series (key_value <$> lines))
        else Raise IndexError
      else Raise (ValueError "inhomogeneous shape")
  end.

(** [DataFrame(lines, columns=cols)]: short rows are filled with missing
    values (written as empty fields), and the widest row must have as many
    fields as there are column labels. *)
Definition pad (w : nat) (r : list string) : list string :=
  r ++ replicate (w - length r) EmptyString.

Definition DataFrame_init (lines : list (list string)) (cols : list string)
  : result pandas_data :=
  match lines with
  | [] => Ok (DataFrame cols [])
  | _ =>
      let w := max_list (length <$> lines) in
      if w =? length cols then Ok (DataFrame cols (pad w <$> lines))
      else Raise (ValueError "columns passed do not match the data")
  end.

(** [series[k]] read as a scalar: a label that occurs several times
    yields a Series, which neither [int] nor [re.sub] accepts. *)
Definition series_get (k : string) (items : list (string * string)) : result string :=
  match filter (λ kv, kv.1 = k) items with
  | [] => Raise (KeyError k)
  | [(_, v)] => Ok v
  | _ => Raise TypeError
  end.

(** [series[k] = v]: every entry labelled [k] is overwritten, or a new
    entry is appended. *)
Definition series_set (k v : string) (items : list (string * string))
  : list (string * string) :=
  if existsb (λ kv, String.eqb kv.1 k) items
  then (λ kv, if String.eqb kv.1 k then (kv.1, v) else kv) <$> items
  else items ++ [(k, v)].

(** [frame[k] = v] for a scalar [v]. *)
Fixpoint set_cells (k v : string) (cols row : list string) : list string :=
  match cols, row with
  | c :: cs, x :: xs => (if String.eqb c k then v else x) :: set_cells k v cs xs
  | _, _ => row
  end.

Definition frame_set (k v : string) (cols : list string) (rows : list (list string))
  : list string * list (list string) :=
  if Py.contains k cols then (cols, set_cells k v cols <$> rows)
  else (cols ++ [k], (λ r, r ++ [v]) <$> rows).

Definition setitem (k v : string) (d : pandas_data) : pandas_data :=
  match d with
  | Series items => Series (series_set k v items)
  | DataFrame cols rows =>
      let '(cols', rows') := frame_set k v cols rows in DataFrame cols' rows'
  end.

(** The [csv] writer behind [to_csv], with minimal quoting, doubled quotes
    and the line terminator line feed: a field is quoted when it holds the
    delimiter, the quote character or a line feed; a record of a single
    empty field is written as two quotes. *)
Definition quote : ascii := "034"%char.

Fixpoint double_quotes (s : string) : string :=
  match s with
  | String c s' =>
      if Ascii.eqb c quote then String c (String c (double_quotes s'))
      else String c (double_quotes s')
  | EmptyString => EmptyString
  end.

Definition csv_field (sep : string) (f : string) : string :=
  if Py.occurs sep f || Py.mem quote f || Py.mem Py.newline f
  then String quote (double_quotes f +:+ String quote EmptyString)
  else f.

Definition csv_record (sep : string) (fields : list string) : string :=
  match fields with
  | [EmptyString] => String quote (String quote EmptyString)
  | _ => Py.join sep (csv_field sep <$> fields)
  end.

End Pd.


(** ** class fastqc_module *)

Record fastqc_module : Type := Build_module {
  mod_module : string;
  mod_status : string;
  mod_cols : list string;
  mod_data : pandas_data
}.

Definition basic_statistics : string := "Basic Statistics".

Definition fastqc_module_init (module status : string) (cols : list string)
    (lines : list (list string)) : result fastqc_module :=
  data ←r (if String.eqb module basic_statistics
           then Pd.Series_init lines
           else Pd.DataFrame_init lines cols);
  Ok (Build_module module status cols data).

(** ** class fastqc_report *)

Record fastqc_report : Type := Build_report {
  rep_fastqcpath : string;
  rep_modules : list (string * fastqc_module);
  rep_seq_total : Z;
  rep_seq_filtered : Z;
  rep_seq_length : Z;
  rep_seq_gc : Z;
  rep_filename : string;
  rep_filestub : string
}.

(** The variables of the scanning loop of [_process_fastqc_report]:
    [module], [status] and [cols] are unbound until their first assignment,
    [lines] is the row buffer, and [self.modules] collects the result. *)
Record scan : Type := Build_scan {
  sc_module : option string;
  sc_status : option string;
  sc_cols : option (list string);
  sc_lines : list (list string);
  sc_modules : list (string * fastqc_module)
}.

Definition scan_start : scan := Build_scan None None None [] [].

Definition end_module : string := ">>END_MODULE".

(** The tests of the loop body on the stripped line. *)
Definition is_open_line (line : string) : bool :=
  String.eqb (Py.take 2 line) ">>" && negb (String.eqb (Py.take 12 line) end_module).

Definition is_header_line (line : string) : bool :=
  String.eqb (Py.take 1 line) "#".

(** One iteration of the loop body. *)
Definition scan_line (st : scan) (raw : string) : result scan :=
  let line := Py.strip raw in
  if is_open_line line then
    match Py.split Py.tab (Py.drop 2 line) with
    | [module; status] =>
        Ok (Build_scan (Some module) (Some status) (sc_cols st) (sc_lines st) (sc_modules st))
    | _ => Raise (ValueError "unpack")
    end
  else if is_header_line line then
    Ok (Build_scan (sc_module st) (sc_status st) (Some (Py.split Py.tab (Py.drop 1 line)))
          (sc_lines st) (sc_modules st))
  else if String.eqb line end_module then
    match sc_module st, sc_status st, sc_cols st with
    | Some module, Some status, Some cols =>
        m ←r fastqc_module_init module status cols (sc_lines st);
        Ok (Build_scan (sc_module st) (sc_status st) (sc_cols st) []
              (Py.dict_set module m (sc_modules st)))
    | _, _, _ => Raise NameError
    end
  else
    Ok (Build_scan (sc_module st) (sc_status st) (sc_cols st)
          (sc_lines st ++ [Py.split Py.tab line]) (sc_modules st)).

Fixpoint scan_lines (st : scan) (raws : list string) : result scan :=
  match raws with
  | [] => Ok st
  | raw :: rest => st' ←r scan_line st raw; scan_lines st' rest
  end.

(** [_process_fastqc_report] on the content of the report file. *)
Definition _process_fastqc_report (content : string)
    : result (list (string * fastqc_module)) :=
  st ←r scan_lines scan_start (Py.readlines content);
  Ok (sc_modules st).

Definition dict_item {V} (k : string) (d : list (string * V)) : result V :=
  match Py.dict_get k d with
  | Some v => Ok v
  | None => Raise (KeyError k)
  end.

(** [_process_basic_stats] completes the report object. *)
Definition _process_basic_stats (path : string) (modules : list (string * fastqc_module))
    : result fastqc_report :=
  bs ←r dict_item basic_statistics modules;
  match mod_data bs with
  | Series stats =>
      seq_total ←r rbind (Pd.series_get "Total Sequences" stats) Py.int;
      seq_filtered ←r rbind (Pd.series_get "Filtered Sequences" stats) Py.int;
      seq_length ←r rbind (Pd.series_get "Sequence length" stats) Py.int;
      seq_gc ←r rbind (Pd.series_get "%GC" stats) Py.int;
      filename ←r Pd.series_get "Filename" stats;
      Ok (Build_report path modules seq_total seq_filtered seq_length seq_gc
            filename (Re.sub_fastq filename))
  | DataFrame _ _ => Raise TypeError
  end.

(** ** The file system

    The regular files, a finite map from paths to contents, and the set of
    directories. Reading and writing files leaves the directories alone, so
    the code that handles files runs on the map of files. *)

Abbreviation files := (gmap string string).

Record filesystem : Type := Build_fs {
  fs_files : files;
  fs_dirs : gset string
}.

(** [os.path.isfile] *)
Definition isfile (fl : files) (path : string) : bool :=
  bool_decide (is_Some (fl !! path)).

(** The errors with which the code itself says that something was not
    found: the report file that does not exist (l.152) and the module that
    is not in the universe (l.103). *)
Definition not_found_error (e : exn) : bool :=
  match e with
  | ValueError what => String.eqb what "File doesn't exist"
  | KeyError what => String.eqb what "Module not found."
  | _ => false
  end.

(** [fastqc_report(fastqcfile)]: [_check_file_exists], then the two passes. *)
Definition fastqc_report_init (fl : files) (fastqcfile : string)
    : result fastqc_report :=
  match fl !! fastqcfile with
  | None => Raise (ValueError "File doesn't exist")
  | Some content =>
      modules ←r _process_fastqc_report content;
      _process_basic_stats fastqcfile modules
  end.

(** A small report: the key-value module and a table module of two
    rows. *)
Definition sample_basic (name : string) : list (list string) :=
  [ [">>Basic Statistics"; "pass"];
    ["#Measure"; "Value"];
    ["Filename"; name];
    ["Total Sequences"; "1000"];
    ["Filtered Sequences"; "0"];
    ["Sequence length"; "36"];
    ["%GC"; "47"];
    [">>END_MODULE"] ].

Definition sample_table : list (list string) :=
  [ [">>Per base N content"; "pass"];
    ["#Base"; "N-Count"];
    ["1"; "0.0"];
    ["2"; "0.1"];
    [">>END_MODULE"] ].

Definition sample_report (name : string) : string :=
  text (sample_basic name ++ sample_table).

Definition sample_files : files :=
  {[ "/p/A/fastqc_data.txt" := sample_report "sample1.fastq.gz" ]}.


(** ** The state-and-exception monad of the files *)

Definition M (A : Type) : Type := files → files * result A.

Definition mret {A} (a : A) : M A := λ fl, (fl, Ok a).
Definition mraise {A} (e : exn) : M A := λ fl, (fl, Raise e).
Definition mbind' {A B} (c : M A) (k : A → M B) : M B :=
  λ fl, match c fl with
        | (fl', Ok a) => k a fl'
        | (fl', Raise e) => (fl', Raise e)
        end.

Notation "x ←m e1 ; e2" := (mbind' e1 (λ x, e2))
  (at level 100, e1 at next level, e2 at level 200, right associativity,
   format "x  ←m  e1 ;  '/' e2").
Notation "e1 ;;m e2" := (mbind' e1 (λ _, e2))
  (at level 100, e2 at level 200, right associativity,
   format "e1  ;;m  '/' e2").

(** A computation on the files, run on a file system. *)
Definition on_files {A} (c : M A) (fs : filesystem) : filesystem * result A :=
  let '(fl, r) := c (fs_files fs) in (Build_fs fl (fs_dirs fs), r).

Definition ENOENT : nat := 2.
Definition EEXIST : nat := 17.
Definition ENOTDIR : nat := 20.

(** [os.path.exists] *)
Definition exists_path (fs : filesystem) (path : string) : bool :=
  bool_decide (path ∈ fs_dirs fs) || isfile (fs_files fs) path.

(** The directories of [chain], nearest first, up to the first one that
    exists. *)
Fixpoint missing (fs : filesystem) (chain : list string) : list string :=
  match chain with
  | [] => []
  | p :: rest => if exists_path fs p then [] else p :: missing fs rest
  end.

(** The first path of [chain] that exists is a regular file. (A path that
    the model holds both as a file and as a directory counts as a
    directory.) *)
Fixpoint blocked (fs : filesystem) (chain : list string) : bool :=
  match chain with
  | [] => false
  | p :: rest =>
      if exists_path fs p
      then isfile (fs_files fs) p && negb (bool_decide (p ∈ fs_dirs fs))
      else blocked fs rest
  end.

(** [os.makedirs(name)]: the directories that are missing on the way to
    [name] are made, then [name] itself. The empty path cannot be made
    (ENOENT), nothing can be made below a regular file (ENOTDIR), and
    [name] must not exist (EEXIST); in the first two cases nothing has been
    made when the error is raised. Paths are taken as they are written.
    Access rights are not part of the file system of the model. *)
Definition makedirs (name : string) (fs : filesystem) : filesystem * result unit :=
  if String.eqb name EmptyString then (fs, Raise (OSError ENOENT))
  else if blocked fs (Py.parents name) then (fs, Raise (OSError ENOTDIR))
  else
    let made := Build_fs (fs_files fs)
                  (list_to_set (missing fs (Py.parents name)) ∪ fs_dirs fs) in
    if exists_path fs name then (made, Raise (OSError EEXIST))
    else (Build_fs (fs_files fs) ({[ name ]} ∪ fs_dirs made), Ok tt).

(** [os.remove] *)
Definition remove (path : string) : M unit := λ fl, (delete path fl, Ok tt).

(** [open(path, mode)] for the modes [w] and [a], on a path that can be
    opened: the file is made when it is missing and emptied in mode [w]. *)
Definition open_file (path mode : string) : M unit := λ fl,
  if String.eqb mode "w" || negb (isfile fl path)
  then (<[ path := EmptyString ]> fl, Ok tt)
  else (fl, Ok tt).

(** [fh.write(s)] on the file opened at [path]. *)
Definition write (path s : string) : M unit := λ fl,
  match fl !! path with
  | Some content => (<[ path := content +:+ s ]> fl, Ok tt)
  | None => (fl, Ok tt)
  end.

(** Lines, each followed by a line feed. *)
Definition unlines (lines : list string) : string :=
  foldr (λ l acc, l +:+ String Py.newline acc) EmptyString lines.

(** The text of a frame: the header record when asked for, then one record
    per row. *)
Definition csv_text (sep : string) (header : bool) (cols : list string)
    (rows : list (list string)) : string :=
  unlines (Pd.csv_record sep <$> (if header then [cols] else []) ++ rows).

(** [frame.to_csv(out, index=False, sep=sep, header=header, mode=mode)]:
    the file is opened, then the writer is built, which refuses a
    delimiter that is not one character long. *)
Definition to_csv (cols : list string) (rows : list (list string))
    (out sep : string) (header : bool) (mode : string) : M unit :=
  open_file out mode ;;m
  if Py.one_char sep then write out (csv_text sep header cols rows)
  else mraise TypeError.

(** ** class fastqc_collation *)

Record fastqc_collation : Type := Build_collation {
  col_project_root : string;
  col_out_dir : string;
  col_fastqc_filename : string;
  col_sep : string;
  col_fastqcfiles : list string;
  col_modules : list string
}.

(** What [os.walk] yields: (root, dirs, files) for each directory. *)
Definition walk_result : Type := list (string * list string * list string).

(** The two nested loops over the walk. *)
Definition matching (fastqc_filename root : string) (files : list string) : list string :=
  files ≫= λ name, if String.eqb name fastqc_filename
                   then [Py.path_join root fastqc_filename] else [].

Definition collect (fastqc_filename : string) (walk : walk_result) : list string :=
  walk ≫= λ '(root, _, files), matching fastqc_filename root files.

(** [list.sort()] on strings. *)
Definition sort (l : list string) : list string := merge_sort String.le l.

Definition find_fastqcfiles (fastqc_filename : string) (walk : walk_result) : list string :=
  sort (collect fastqc_filename walk).

(** [fastqc_collation(project_root, out_dir, fastqc_filename, sep)], where
    [walk] is what [os.walk(project_root)] yields. *)
Definition fastqc_collation_init (walk : walk_result) (fl : files)
    (project_root : string) (out_dir : option string)
    (fastqc_filename sep : string) : result fastqc_collation :=
  let out_dir := default project_root out_dir in
  let fastqcfiles := find_fastqcfiles fastqc_filename walk in
  match fastqcfiles with
  | [] => Raise IndexError
  | first :: _ =>
      rep ←r fastqc_report_init fl first;
      Ok (Build_collation project_root out_dir fastqc_filename sep fastqcfiles
            (Py.dict_keys (rep_modules rep)))
  end.

Definition _make_sure_path_exists (self : fastqc_collation) (fs : filesystem)
    : filesystem * result unit :=
  match makedirs (col_out_dir self) fs with
  | (fs', Raise (OSError errno)) =>
      if errno =? EEXIST then (fs', Ok tt) else (fs', Raise (OSError errno))
  | r => r
  end.

Definition suffix (self : fastqc_collation) : string :=
  if String.eqb (col_sep self) "," then ".csv" else ".txt".

(** The entry [out_files[module]]. *)
Definition out_file (self : fastqc_collation) (module : string) : string :=
  Py.path_join (col_out_dir self) (module +:+ "_fastqc_collation" +:+ suffix self).

(** The two branches of [_process_mod] that write [data] to [out]. *)
Definition write_data (self : fastqc_collation) (module : string)
    (data : pandas_data) (out mode : string) : M unit :=
  if String.eqb module basic_statistics then
    match data with
    | Series items =>
        open_file out mode ;;m
        (if String.eqb mode "w" then
           write out (Py.join (col_sep self) (fst <$> items)) ;;m
           write out (String Py.newline EmptyString)
         else mret tt) ;;m
        write out (Py.join (col_sep self) (snd <$> items)) ;;m
        write out (String Py.newline EmptyString)
    | DataFrame _ _ => mraise TypeError
    end
  else
    match data with
    | DataFrame cols rows =>
        to_csv cols rows out (col_sep self) (String.eqb mode "w") mode
    | Series _ => mraise TypeError
    end.

(** The module data with the two provenance fields set. *)
Definition annotate (filestub filepath : string) (data : pandas_data) : pandas_data :=
  Pd.setitem "Filepath" filepath (Pd.setitem "Filestub" filestub data).

(** The report object after the data of [module] has been updated in
    place. *)
Definition set_data (qc_report : fastqc_report) (module : string)
    (m : fastqc_module) (data : pandas_data) : fastqc_report :=
  Build_report (rep_fastqcpath qc_report)
    (Py.dict_set module
       (Build_module (mod_module m) (mod_status m) (mod_cols m) data)
       (rep_modules qc_report))
    (rep_seq_total qc_report) (rep_seq_filtered qc_report)
    (rep_seq_length qc_report) (rep_seq_gc qc_report)
    (rep_filename qc_report) (rep_filestub qc_report).

(** [_process_mod]: the report object is returned because its module data
    is updated in place. *)
Definition _process_mod (self : fastqc_collation) (filepath : string)
    (qc_report : fastqc_report) (module out mode : string) : M fastqc_report :=
  if negb (Py.contains module (col_modules self)) then
    mraise (KeyError "Module not found.")
  else if negb (Py.contains mode ["w"; "a"]) then
    mraise (ValueError "Only write (w) and append (a) modes accepted.")
  else
    match Py.dict_get module (rep_modules qc_report) with
    | None => mraise (KeyError module)
    | Some m =>
        let data := annotate (rep_filestub qc_report) filepath (mod_data m) in
        write_data self module data out mode ;;m
        mret (set_data qc_report module m data)
    end.

(** The argument [modules] of [process]: absent, a bare string, or a
    list. *)
Inductive modules_arg : Type :=
  | NoModules
  | OneModule (name : string)
  | ModuleList (names : list string).

Definition requested (self : fastqc_collation) (modules : modules_arg) : list string :=
  match modules with
  | NoModules => col_modules self
  | OneModule name => [name]
  | ModuleList names => names
  end.

(** The first loop of [process]: old files are removed. *)
Fixpoint remove_old (self : fastqc_collation) (modules : list string) : M unit :=
  match modules with
  | [] => mret tt
  | module :: rest =>
      (λ fl, if isfile fl (out_file self module)
             then remove (out_file self module) fl else (fl, Ok tt)) ;;m
      remove_old self rest
  end.

(** The body of the inner loop: the file is appended to when it exists
    and created otherwise. *)
Definition process_one (self : fastqc_collation) (f : string)
    (qc : fastqc_report) (module : string) : M fastqc_report := λ fl,
  if isfile fl (out_file self module)
  then _process_mod self f qc module (out_file self module) "a" fl
  else _process_mod self f qc module (out_file self module) "w" fl.

(** The inner loop over the modules, for one parsed report. *)
Fixpoint process_modules (self : fastqc_collation) (f : string)
    (qc : fastqc_report) (modules : list string) : M fastqc_report :=
  match modules with
  | [] => mret qc
  | module :: rest =>
      qc' ←m process_one self f qc module;
      process_modules self f qc' rest
  end.

(** The outer loop over the report files. *)
Fixpoint process_files (self : fastqc_collation) (fastqcfiles modules : list string)
    : M unit :=
  match fastqcfiles with
  | [] => mret tt
  | f :: rest =>
      qc ←m (λ fl, (fl, fastqc_report_init fl f));
      process_modules self f qc modules ;;m
      process_files self rest modules
  end.

(** The two loops of [process]. *)
Definition collate (self : fastqc_collation) (modules : list string) : M unit :=
  remove_old self modules ;;m
  process_files self (col_fastqcfiles self) modules.

Definition process (self : fastqc_collation) (modules : modules_arg)
    (fs : filesystem) : filesystem * result unit :=
  match _make_sure_path_exists self fs with
  | (fs', Ok _) => on_files (collate self (requested self modules)) fs'
  | (fs', Raise e) => (fs', Raise e)
  end.

(** ** The variant that parses once per module and per file

    The specification describes a second way to run the loops: the report
    file is parsed again for every requested module. These definitions
    follow that description; they are compared with the loops of the
    source, which parse each file once. *)

Fixpoint process_modules_reparse (self : fastqc_collation) (f : string)
    (modules : list string) : M unit :=
  match modules with
  | [] => mret tt
  | module :: rest =>
      qc ←m (λ fl, (fl, fastqc_report_init fl f));
      process_one self f qc module ;;m
      process_modules_reparse self f rest
  end.

Fixpoint process_files_reparse (self : fastqc_collation) (fastqcfiles modules : list string)
    : M unit :=
  match fastqcfiles with
  | [] => mret tt
  | f :: rest =>
      process_modules_reparse self f modules ;;m
      process_files_reparse self rest modules
  end.

Definition collate_reparse (self : fastqc_collation) (modules : list string) : M unit :=
  remove_old self modules ;;m
  process_files_reparse self (col_fastqcfiles self) modules.

Definition process_reparse (self : fastqc_collation) (modules : modules_arg)
    (fs : filesystem) : filesystem * result unit :=
  match _make_sure_path_exists self fs with
  | (fs', Ok _) => on_files (collate_reparse self (requested self modules)) fs'
  | (fs', Raise e) => (fs', Raise e)
  end.

(** ** A project tree with two reports *)

Definition two_walk : walk_result :=
  [ ("/p", ["B"; "A"], ["readme.txt"]);
    ("/p/B", [], ["fastqc_data.txt"]);
    ("/p/A", [], ["fastqc_report.html"; "fastqc_data.txt"]) ].

Definition two_files : files :=
  <[ "/p/B/fastqc_data.txt" := sample_report "sample2.fastq.gz" ]>
    {[ "/p/A/fastqc_data.txt" := sample_report "sample1.fastq.gz" ]}.

Definition project_dirs : gset string := list_to_set ["/p"; "/p/A"; "/p/B"].

Definition two_fs : filesystem := Build_fs two_files project_dirs.

Definition two_collation : fastqc_collation :=
  Build_collation "/p" "/out" "fastqc_data.txt" ","
    ["/p/A/fastqc_data.txt"; "/p/B/fastqc_data.txt"]
    ["Basic Statistics"; "Per base N content"].




Definition sample_qc (path name stub : string) : fastqc_report :=
  Build_report path
    [ ("Basic Statistics",
       Build_module "Basic Statistics" "pass" ["Measure"; "Value"]
         (Series [("Filename", name); ("Total Sequences", "1000");
                  ("Filtered Sequences", "0"); ("Sequence length", "36");
                  ("%GC", "47")]));
      ("Per base N content",
       Build_module "Per base N content" "pass" ["Base"; "N-Count"]
         (DataFrame ["Base"; "N-Count"] [["1"; "0.0"]; ["2"; "0.1"]])) ]
    1000 0 36 47 name stub.

(** Two walks list the same tree when one is a rearrangement of the other,
    the file names of each directory being rearranged as well. *)
Definition same_tree (w1 w2 : walk_result) : Prop :=
  ∃ w, w1 ≡ₚ w ∧ Forall2 (λ a b, a.1.1 = b.1.1 ∧ a.2 ≡ₚ b.2) w w2.

(** ** Predicates of the statements *)

(** A string without a line feed. *)
Definition nonl (s : string) : Prop := Py.mem Py.newline s = false.

(** A string in which [.fastq] occurs. *)
Definition has_fastq (s : string) : Prop := ∃ p q, s = p +:+ ".fastq" +:+ q.

Fixpoint occurs_fastq (s : string) : bool :=
  Py.startswith ".fastq" s
  || match s with
     | String _ s' => occurs_fastq s'
     | EmptyString => false
     end.

(** A line as [readlines] yields it: a line feed can only be the last
    byte. *)
Fixpoint line_shaped (s : string) : bool :=
  match s with
  | String c s' => if Ascii.eqb c Py.newline then String.eqb s' "" else line_shaped s'
  | EmptyString => true
  end.

(** A module object that the constructor builds from rows satisfying
    [Qrow]. *)
Definition built_from (Qrow : list string → Prop) (m : fastqc_module) : Prop :=
  ∃ lines, Forall Qrow lines
           ∧ fastqc_module_init (mod_module m) (mod_status m) (mod_cols m) lines = Ok m.

Definition modules_ok (Qrow Qcols : list string → Prop)
    (modules : list (string * fastqc_module)) : Prop :=
  Forall (λ km, Qcols (mod_cols km.2) ∧ built_from Qrow km.2) modules.

Definition scan_ok (Qrow Qcols : list string → Prop) (st : scan) : Prop :=
  Forall Qrow (sc_lines st)
  ∧ (∀ c, sc_cols st = Some c → Qcols c)
  ∧ modules_ok Qrow Qcols (sc_modules st).

(** Every label and value of a pandas object satisfies [P]. *)
Definition data_fields (P : string → Prop) (d : pandas_data) : Prop :=
  match d with
  | Series items => Forall (λ kv, P kv.1 ∧ P kv.2) items
  | DataFrame cols rows => Forall P cols ∧ Forall (Forall P) rows
  end.

(** ** Whitespace at the ends of a string *)

(** A byte below 128 is a character of its own; the bytes of a longer
    character are all above. *)
Definition low (c : ascii) : bool := Py.between 0 127 c.

Fixpoint high (s : string) : bool :=
  match s with
  | String c s' => negb (low c) && high s'
  | EmptyString => true
  end.

Definition space_shape (w : string) : bool :=
  match w with
  | EmptyString => false
  | String c EmptyString => low c
  | _ => high w
  end.

Definition starts_low (s : string) : bool :=
  match s with
  | String c _ => low c
  | EmptyString => true
  end.

Definition starts_space (s : string) : bool :=
  match Py.space_head s with
  | Some _ => true
  | None => false
  end.

(** [s] is one white space character. *)
Definition one_space (s : string) : bool :=
  match Py.space_head s with
  | Some EmptyString => true
  | _ => false
  end.

Fixpoint ends_space (s : string) : bool :=
  match s with
  | String _ s' => one_space s || ends_space s'
  | EmptyString => false
  end.

Definition all_space (s : string) : bool := String.eqb (Py.lstrip s) EmptyString.

(** A row whose first field has no leading and whose last field has no
    trailing whitespace; a header whose last label has no trailing
    whitespace. *)
Definition row_trimmed (r : list string) : Prop :=
  starts_space (List.hd "" r) = false ∧ ends_space (List.last r "") = false.

Definition cols_trimmed (c : list string) : Prop :=
  ends_space (List.last c "") = false.

Definition data_trimmed (d : pandas_data) : Prop :=
  match d with
  | DataFrame cols rows => cols_trimmed cols ∧ Forall row_trimmed rows
  | Series items => Forall (λ kv, starts_space kv.1 = false) items
  end.

(** The entry of the key-value record that is read off the row [r]: the key
    has no leading white space, and the value, when it is the last field of
    the row, no trailing white space. *)
Definition entry_trimmed (r : list string) : Prop :=
  starts_space (Pd.key_value r).1 = false
  ∧ (length r = 2 → ends_space (Pd.key_value r).2 = false).

(** ** Classification of a line by the scanning loop *)

(** A line that is neither an opening, nor a header, nor the end marker. *)
Definition is_data_line (raw : string) : bool :=
  let line := Py.strip raw in
  negb (is_open_line line) && negb (is_header_line line)
  && negb (String.eqb line end_module).

Definition buffer (st : scan) (row : list string) : scan :=
  Build_scan (sc_module st) (sc_status st) (sc_cols st) (sc_lines st ++ [row])
    (sc_modules st).

(** The rows that a run of lines adds to the buffer. *)
Definition data_rows (raws : list string) : list (list string) :=
  (λ raw, Py.split Py.tab (Py.strip raw)) <$> filter (λ raw, is_data_line raw = true) raws.

(** A report with a stray line between two modules. *)
Definition stray_report : string :=
  text (sample_basic "sample1.fastq.gz" ++ [["stray"; "line"]] ++ sample_table).

Definition stray_segment : list string :=
  [ "stray" +:+ TAB +:+ "line" +:+ NL;
    ">>Per base N content" +:+ TAB +:+ "pass" +:+ NL;
    "#Base" +:+ TAB +:+ "N-Count" +:+ NL;
    "1" +:+ TAB +:+ "0.0" +:+ NL ].

(** A table whose lines carry whitespace at their ends, and a blank
    line. *)
Definition spaced_report : string :=
  text (sample_basic "sample1.fastq.gz"
        ++ [ [">>Per base N content"; "pass"];
             ["#Base"; "N-Count  "];
             ["  1"; "0.0  "];
             ["   "];
             [">>END_MODULE"] ]).

(** The same report without the whitespace at the ends of its lines. *)
Definition unspaced_report : string :=
  text (sample_basic "sample1.fastq.gz"
        ++ [ [">>Per base N content"; "pass"];
             ["#Base"; "N-Count"];
             ["1"; "0.0"];
             [""];
             [">>END_MODULE"] ]).

(** A line of white space only: a space, U+00A0, the byte 31, U+2003 and a
    tab, with its terminator. *)
Definition blank_line : string :=
  Py.bytes [32; 194; 160; 31; 226; 128; 131; 9; 10].

(** The lines of a key-value module with white space at their ends. *)
Definition spaced_statistics : list string :=
  [ ">>Basic Statistics" +:+ TAB +:+ "pass" +:+ NL;
    "#Measure" +:+ TAB +:+ "Value" +:+ NL;
    "  Filename" +:+ TAB +:+ "sample1.fastq.gz  " +:+ NL;
    Py.bytes [194; 160] +:+ "Total Sequences" +:+ TAB +:+ "1000" +:+ Py.bytes [31] +:+ NL ].

(** ** Footprint of a computation on the files *)

(** [c] leaves every file outside [paths] as it is. *)
Definition touches {A} (paths : list string) (c : M A) : Prop :=
  ∀ fl p, p ∉ paths → (c fl).1 !! p = fl !! p.

(** [c] removes no file. *)
Definition keeps {A} (c : M A) : Prop :=
  ∀ fl p, is_Some (fl !! p) → is_Some ((c fl).1 !! p).

(** The output paths of a list of modules. *)
Definition out_files (self : fastqc_collation) (modules : list string) : list string :=
  out_file self <$> modules.

(** The files without the given paths. *)
Definition without (paths : list string) (fl : files) : files :=
  foldl (λ acc p, delete p acc) fl paths.

(** A result without its value. *)
Definition void {A} (r : result A) : result unit :=
  match r with
  | Ok _ => Ok tt
  | Raise e => Raise e
  end.

(** The project tree with stale output files from an earlier run. *)
Definition stale_fs : filesystem :=
  Build_fs (<[ "/out/Basic Statistics_fastqc_collation.csv" := "old data" +:+ NL ]>
              two_files) ({[ "/out" ]} ∪ project_dirs).


Definition basic_statistics_out : string :=
  "Filename,Total Sequences,Filtered Sequences,Sequence length,%GC,Filestub,Filepath" +:+ NL
  +:+ "sample1.fastq.gz,1000,0,36,47,sample1,/p/A/fastqc_data.txt" +:+ NL
  +:+ "sample2.fastq.gz,1000,0,36,47,sample2,/p/B/fastqc_data.txt" +:+ NL.

Definition table_out : string :=
  "Base,N-Count,Filestub,Filepath" +:+ NL
  +:+ "1,0.0,sample1,/p/A/fastqc_data.txt" +:+ NL
  +:+ "2,0.1,sample1,/p/A/fastqc_data.txt" +:+ NL
  +:+ "1,0.0,sample2,/p/B/fastqc_data.txt" +:+ NL
  +:+ "2,0.1,sample2,/p/B/fastqc_data.txt" +:+ NL.

(** ** What a run writes *)

(** The header line and the data lines that [write_data] writes for the
    data of a module. *)
Definition data_lines (self : fastqc_collation) (module : string)
    (data : pandas_data) : result (string * list string) :=
  if String.eqb module basic_statistics then
    match data with
    | Series items =>
        Ok (Py.join (col_sep self) (fst <$> items),
            [Py.join (col_sep self) (snd <$> items)])
    | DataFrame _ _ => Raise TypeError
    end
  else
    match data with
    | DataFrame cols rows =>
        if Py.one_char (col_sep self)
        then Ok (Pd.csv_record (col_sep self) cols, Pd.csv_record (col_sep self) <$> rows)
        else Raise TypeError
    | Series _ => Raise TypeError
    end.


(** The file at an output path after the lines [t] of one more report. *)
Definition appended (cur : option string) (t : string * list string) : option string :=
  Some (match cur with
        | Some old => old +:+ unlines t.2
        | None => unlines (t.1 :: t.2)
        end).




(** ** The remaining methods and the command line *)

(** [fastqc_report.__getitem__]: [self.modules[key].data] *)
Definition report_getitem (qc : fastqc_report) (key : string) : result pandas_data :=
  m ←r dict_item key (rep_modules qc);
  Ok (mod_data m).

(** The body of the command line, after the arguments have been read:
    the collation is constructed and [process()] is called on it. *)
Definition main (walk : walk_result) (project_root : string) (out_dir : option string)
    (fastqc_filename sep : string) (fs : filesystem) : filesystem * result unit :=
  match fastqc_collation_init walk (fs_files fs) project_root out_dir fastqc_filename sep with
  | Ok collation => process collation NoModules fs
  | Raise e => (fs, Raise e)
  end.

(** ** Well-formed report text *)

Definition cr : ascii := "013"%char.

(** Text that [open] reads as it stands: it decodes, and it holds no
    carriage return, which the reader would turn into a line end. *)
Definition readable (s : string) : Prop :=
  Py.mem cr s = false ∧ Py.utf8 s = true.

(** A line of such text, without its terminator. *)
Definition text_line (s : string) : Prop := nonl s ∧ readable s.

(** A field as a report holds it: not empty, without tab or line feed,
    without white space at its ends, and readable. *)
Definition plain (s : string) : Prop :=
  s ≠ "" ∧ Py.mem Py.tab s = false ∧ nonl s
  ∧ starts_space s = false ∧ ends_space s = false
  ∧ readable s.

(** A line that, if it opens a module, holds a name and a status. *)
Definition well_opened (raw : string) : Prop :=
  is_open_line (Py.strip raw) = true →
  length (Py.split Py.tab (Py.drop 2 (Py.strip raw))) = 2.

(** A row of plain fields that does not start like a marker line. *)
Definition plain_row (r : list string) : Prop :=
  r ≠ [] ∧ Forall plain r
  ∧ Py.startswith ">" (List.hd "" r) = false
  ∧ Py.startswith "#" (List.hd "" r) = false.

(** A module as it is written in a report: name, status, column labels and
    rows. *)
Record section_text : Type := Build_section {
  sec_name : string;
  sec_status : string;
  sec_cols : list string;
  sec_rows : list (list string)
}.

Definition plain_section (x : section_text) : Prop :=
  plain (sec_name x) ∧ Py.startswith "END_MODULE" (sec_name x) = false
  ∧ plain (sec_status x)
  ∧ sec_cols x ≠ [] ∧ Forall plain (sec_cols x)
  ∧ Forall plain_row (sec_rows x).

(** The lines of a module, without their terminators, and the text of a
    report. *)
Definition section_lines (x : section_text) : list string :=
  [ ">>" +:+ sec_name x +:+ TAB +:+ sec_status x;
    "#" +:+ Py.join TAB (sec_cols x) ]
  ++ (Py.join TAB <$> sec_rows x)
  ++ [ end_module ].

Definition report_text (xs : list section_text) : string :=
  unlines (xs ≫= section_lines).

(** The rows of a frame have as many fields as there are column labels. *)
Definition rectangular (d : pandas_data) : Prop :=
  match d with
  | Series _ => True
  | DataFrame cols rows => Forall (λ r, length r = length cols) rows
  end.

(** A table module as a report may hold it. *)
Definition gc_section : section_text :=
  Build_section "Per sequence GC content" "warn" ["GC Content"; "Count"]
    [["0"; "12.0"]; ["1"; "30.5"]; ["2"; "48.0"]].

Definition basic_section (name : string) : section_text :=
  Build_section "Basic Statistics" "pass" ["Measure"; "Value"]
    [ ["Filename"; name]; ["Total Sequences"; "1000"]; ["Filtered Sequences"; "0"];
      ["Sequence length"; "36"]; ["%GC"; "47"] ].

(** The rows of a section fit its kind: key and value for the key-value
    module (at least one row), one field per column label otherwise. *)
Definition regular (x : section_text) : Prop :=
  if String.eqb (sec_name x) basic_statistics
  then sec_rows x ≠ [] ∧ Forall (λ r, length r = 2) (sec_rows x)
  else Forall (λ r, length r = length (sec_cols x)) (sec_rows x).

(** The module object that holds a section as it stands. *)
Definition section_module (x : section_text) : fastqc_module :=
  Build_module (sec_name x) (sec_status x) (sec_cols x)
    (if String.eqb (sec_name x) basic_statistics
     then Series (Pd.key_value <$> sec_rows x)
     else DataFrame (sec_cols x) (sec_rows x)).

(** The shape of the module stored under the key [k]: it carries this name;
    the key-value module holds a record with at least one entry, any other
    module a frame under its own column labels, with rows as wide as the
    labels. *)
Definition module_shape (k : string) (m : fastqc_module) : Prop :=
  mod_module m = k
  ∧ if String.eqb k basic_statistics
    then ∃ items, mod_data m = Series items ∧ items ≠ []
    else ∃ rows, mod_data m = DataFrame (mod_cols m) rows
                 ∧ Forall (λ r, length r = length (mod_cols m)) rows.

(** The modules after the sections [xs] have been stored one after the
    other. *)
Definition store_sections (xs : list section_text)
    (modules : list (string * fastqc_module)) : list (string * fastqc_module) :=
  foldl (λ d x, Py.dict_set (sec_name x) (section_module x) d) modules xs.

(** [k in data]: the label [k] is an index label of the record or a column
    label of the frame. *)
Definition has_label (k : string) (d : pandas_data) : bool :=
  match d with
  | Series items => existsb (λ kv, String.eqb kv.1 k) items
  | DataFrame cols _ => Py.contains k cols
  end.

(** Every table of the report has rows as wide as its column labels. *)
Definition report_rectangular (qc : fastqc_report) : Prop :=
  Forall (λ km, rectangular (mod_data km.2)) (rep_modules qc).




(** The collation of the two reports with a separator of two characters. *)
Definition wide_collation : fastqc_collation :=
  Build_collation "/p" "/out" "fastqc_data.txt" "::"
    ["/p/A/fastqc_data.txt"; "/p/B/fastqc_data.txt"]
    ["Basic Statistics"; "Per base N content"].




(** * Evaluation of the embedding on small inputs *)

Example strip_ex : Py.strip ("  a b" +:+ TAB +:+ NL) = "a b".
Proof. reflexivity. Qed.
Example split_ex : Py.split Py.tab ("a" +:+ TAB +:+ "b" +:+ TAB) = ["a"; "b"; ""].
Proof. reflexivity. Qed.
Example split_empty_ex : Py.split Py.tab "" = [""].
Proof. reflexivity. Qed.
Example readlines_ex : Py.readlines ("a" +:+ NL +:+ "b") = ["a" +:+ NL; "b"].
Proof. reflexivity. Qed.
Example int_ex : Py.int " -42 " = Ok (-42)%Z.
Proof. reflexivity. Qed.
Example path_join_ex : Py.path_join "/p/A" "fastqc_data.txt" = "/p/A/fastqc_data.txt".
Proof. reflexivity. Qed.
Example sub_fastq_gz : Re.sub_fastq "sample1.fastq.gz" = "sample1".
Proof. reflexivity. Qed.
Example sub_fastq_twice : Re.sub_fastq "a.fastq.b.fastq.gz" = "a.fastq.b".
Proof. reflexivity. Qed.
Example sub_fastq_none : Re.sub_fastq "reads.fq.gz" = "reads.fq.gz".
Proof. reflexivity. Qed.
Example sub_fastq_lines : Re.sub_fastq ("a.fastq" +:+ NL +:+ "b.fastq.gz") = "a" +:+ NL +:+ "b".
Proof. reflexivity. Qed.
Example csv_record_ex :
  Pd.csv_record "," ["a"; "b,c"; ""] = "a," +:+ String Pd.quote "b,c" +:+ String Pd.quote ",".
Proof. reflexivity. Qed.
Example sample_report_parses :
  fastqc_report_init sample_files "/p/A/fastqc_data.txt" =
  Ok (sample_qc "/p/A/fastqc_data.txt" "sample1.fastq.gz" "sample1").
Proof. vm_compute. reflexivity. Qed.
Example process_two_reports :
  (process two_collation NoModules two_fs).2 = Ok tt
  ∧ fs_files (process two_collation NoModules two_fs).1
      !! "/out/Basic Statistics_fastqc_collation.csv" = Some basic_statistics_out
  ∧ fs_files (process two_collation NoModules two_fs).1
      !! "/out/Per base N content_fastqc_collation.csv" = Some table_out.
Proof. split_and!; vm_compute; reflexivity. Qed.

(** * Strings *)

Lemma sapp_cons c s t : String c s +:+ t = String c (s +:+ t).
Proof. done. Qed.
Lemma sapp_nil_l s : "" +:+ s = s.
Proof. done. Qed.
Lemma sapp_nil_r s : s +:+ "" = s.
Proof. induction s as [|c s IH]; [done|]. by rewrite sapp_cons, IH. Qed.
Lemma sapp_assoc s t u : (s +:+ t) +:+ u = s +:+ t +:+ u.
Proof. induction s as [|c s IH]; [done|]. by rewrite !sapp_cons, IH. Qed.
Lemma slength_app s t : String.length (s +:+ t) = String.length s + String.length t.
Proof. induction s as [|c s IH]; [done|]. rewrite sapp_cons. simpl. by rewrite IH. Qed.

Lemma ascii_eqb_true c d : Ascii.eqb c d = true ↔ c = d.
Proof. apply Ascii.eqb_eq. Qed.
Lemma ascii_eqb_false c d : Ascii.eqb c d = false ↔ c ≠ d.
Proof. apply Ascii.eqb_neq. Qed.

(** ** Strings without a line feed *)

Lemma nonl_nil : nonl "".
Proof. done. Qed.

Lemma nonl_cons c s : nonl (String c s) ↔ c ≠ Py.newline ∧ nonl s.
Proof.
  unfold nonl. simpl. rewrite orb_false_iff, ascii_eqb_false. done.
Qed.

Lemma nonl_app s t : nonl (s +:+ t) ↔ nonl s ∧ nonl t.
Proof.
  induction s as [|c s IH]; [rewrite sapp_nil_l; by intuition|].
  rewrite sapp_cons, !nonl_cons, IH. tauto.
Qed.

(** ** White space *)

Example strip_unicode_ex :
  Py.strip (Py.bytes [194; 160; 32; 97; 32; 98; 31; 226; 128; 131; 10]) = "a b".
Proof. vm_compute. reflexivity. Qed.

Example one_char_ex :
  Py.one_char (Py.bytes [194; 167]) = true ∧ Py.one_char "::" = false
  ∧ Py.one_char "" = false ∧ Py.one_char (Py.bytes [194]) = false.
Proof. vm_compute. done. Qed.

Lemma after_spec p s t : Py.after p s = Some t ↔ s = p +:+ t.
Proof.
  revert s. induction p as [|a p IH]; intros s; simpl.
  { split; [by intros [= ->]|by intros ->]. }
  destruct s as [|b s]; [split; [done|by intros [=]]|].
  destruct (Ascii.eqb_spec a b) as [->|Hne].
  - rewrite IH. split; [by intros ->|by intros [= ->]].
  - split; [done|]. intros [= ? _]. congruence.
Qed.

Lemma forallb_elem_of {A} (f : A → bool) l x : forallb f l = true → x ∈ l → f x = true.
Proof.
  induction l as [|y l IH]; [by intros _ ?%elem_of_nil|]. simpl.
  intros [Hy Hl]%andb_true_iff [->|Hx]%elem_of_cons; auto.
Qed.

Lemma spaces_shape w : w ∈ Py.spaces → space_shape w = true.
Proof. apply (forallb_elem_of space_shape). vm_compute. reflexivity. Qed.

Lemma startswith_comparable w w' t t' :
  w +:+ t = w' +:+ t' → Py.startswith w w' = true ∨ Py.startswith w' w = true.
Proof.
  revert w'. induction w as [|a w IH]; intros [|b w']; simpl; auto.
  rewrite !sapp_cons. intros [= -> H]. rewrite Ascii.eqb_refl. simpl. by apply IH.
Qed.

Lemma spaces_prefix_free w w' t t' :
  w ∈ Py.spaces → w' ∈ Py.spaces → w +:+ t = w' +:+ t' → w = w' ∧ t = t'.
Proof.
  intros Hw Hw' Heq.
  assert (∀ a b, a ∈ Py.spaces → b ∈ Py.spaces → Py.startswith a b = true → a = b) as Hfree.
  { intros a b Ha Hb Hab.
    assert (forallb (λ a, forallb (λ b, implb (Py.startswith a b) (String.eqb a b))
                            Py.spaces) Py.spaces = true) as Hall
      by (vm_compute; reflexivity).
    pose proof (forallb_elem_of _ _ _ Hall Ha) as Hrow. cbv beta in Hrow.
    pose proof (forallb_elem_of _ _ _ Hrow Hb) as Hcell. cbv beta in Hcell.
    rewrite Hab in Hcell. by apply String.eqb_eq. }
  assert (w = w') as <-.
  { destruct (startswith_comparable _ _ _ _ Heq); [|symmetry]; by apply Hfree. }
  split; [done|]. revert Heq. clear. induction w as [|a w IH]; [done|].
  rewrite !sapp_cons. intros [= H]. auto.
Qed.

Lemma space_head_spec s t :
  Py.space_head s = Some t ↔ ∃ w, w ∈ Py.spaces ∧ s = w +:+ t.
Proof.
  unfold Py.space_head. split.
  - generalize Py.spaces. intros l. induction l as [|w l IH]; [done|]. simpl.
    destruct (Py.after w s) as [u|] eqn:E.
    + intros [= ->]. exists w. split; [left|]. by apply after_spec.
    + intros (w' & Hw' & ->)%IH. exists w'. split; [by right|done].
  - intros (w & Hw & ->).
    assert (∀ l, (∀ w', w' ∈ l → w' ∈ Py.spaces) → w ∈ l →
              foldr (λ w0 r, match Py.after w0 (w +:+ t) with
                             | Some t0 => Some t0
                             | None => r
                             end) None l = Some t) as Hfind.
    { intros l. induction l as [|w0 l IH]; intros Hsub Hin; [by apply elem_of_nil in Hin|].
      simpl. destruct (Py.after w0 (w +:+ t)) as [u|] eqn:E.
      - apply after_spec in E.
        destruct (spaces_prefix_free w w0 t u) as [_ ->]; [done|apply Hsub; left|done|done].
      - apply elem_of_cons in Hin as [->|Hin].
        + assert (Py.after w0 (w0 +:+ t) = Some t) as E' by by apply after_spec.
          congruence.
        + apply IH; [|done]. intros w' Hw'. apply Hsub. by right. }
    by apply Hfind.
Qed.

Lemma space_head_length s t : Py.space_head s = Some t → String.length t < String.length s.
Proof.
  intros (w & Hw & ->)%space_head_spec. rewrite slength_app.
  apply spaces_shape in Hw. destruct w; [done|]. simpl. lia.
Qed.

Lemma space_head_nil : Py.space_head "" = None.
Proof. reflexivity. Qed.

Lemma lstrip_upto_enough n m s :
  String.length s ≤ n → String.length s ≤ m → Py.lstrip_upto n s = Py.lstrip_upto m s.
Proof.
  revert m s. induction n as [|n IH]; intros m s Hn Hm.
  - destruct s; [|simpl in Hn; lia]. by destruct m.
  - simpl. destruct (Py.space_head s) as [t|] eqn:E; [|destruct m; simpl; by rewrite ?E].
    pose proof (space_head_length _ _ E). destruct m as [|m]; [lia|].
    simpl. rewrite E. apply IH; lia.
Qed.

Lemma lstrip_unfold s :
  Py.lstrip s = match Py.space_head s with
                | Some t => Py.lstrip t
                | None => s
                end.
Proof.
  unfold Py.lstrip. destruct (String.length s) as [|n] eqn:Hlen.
  { destruct s; [done|discriminate]. }
  simpl. destruct (Py.space_head s) as [t|] eqn:E; [|done].
  pose proof (space_head_length _ _ E). apply lstrip_upto_enough; lia.
Qed.

(** Induction along the white space at the head of a string. *)
Lemma space_ind (P : string → Prop) :
  (∀ s, Py.space_head s = None → P s) →
  (∀ s t, Py.space_head s = Some t → P t → P s) →
  ∀ s, P s.
Proof.
  intros Hnone Hsome s. remember (String.length s) as n eqn:Hn. revert s Hn.
  induction n as [n IH] using lt_wf_ind. intros s ->.
  destruct (Py.space_head s) as [t|] eqn:E; [|by apply Hnone].
  apply (Hsome _ _ E). apply (IH (String.length t)); [by apply space_head_length|done].
Qed.

Lemma lstrip_none s : Py.space_head s = None → Py.lstrip s = s.
Proof. intros H. by rewrite lstrip_unfold, H. Qed.

Lemma lstrip_some s t : Py.space_head s = Some t → Py.lstrip s = Py.lstrip t.
Proof. intros H. by rewrite lstrip_unfold, H. Qed.

Lemma lstrip_suffix s : ∃ p, s = p +:+ Py.lstrip s.
Proof.
  induction s as [s H|s t H [p IH]] using space_ind.
  - exists "". by rewrite lstrip_none.
  - rewrite (lstrip_some _ _ H). apply space_head_spec in H as (w & _ & ->).
    exists (w +:+ p). by rewrite sapp_assoc, <-IH.
Qed.

Lemma rstrip_split s : ∃ q, s = Py.rstrip s +:+ q ∧ Py.lstrip q = "".
Proof.
  induction s as [|c s (q & IH & Hq)]; [by exists ""|]. cbn [Py.rstrip].
  destruct (Py.lstrip (String c s)) as [|d r] eqn:E.
  - by exists (String c s).
  - exists q. by rewrite sapp_cons, <-IH.
Qed.

(** A character of one byte below 128 stands alone. *)
Lemma space_head_low c t u :
  low c = true → Py.space_head (String c t) = Some u → u = t ∧ String c "" ∈ Py.spaces.
Proof.
  intros Hc (w & Hw & Heq)%space_head_spec. pose proof (spaces_shape _ Hw) as Hshape.
  destruct w as [|a [|b w]]; [done| |].
  - rewrite sapp_cons, sapp_nil_l in Heq. by injection Heq as -> ->.
  - rewrite sapp_cons in Heq. injection Heq as -> _. simpl in Hshape.
    by rewrite Hc in Hshape.
Qed.

Lemma space_head_app s t u : Py.space_head s = Some u → Py.space_head (s +:+ t) = Some (u +:+ t).
Proof.
  intros (w & Hw & ->)%space_head_spec. apply space_head_spec. exists w.
  by rewrite sapp_assoc.
Qed.

Lemma high_app s t : high (s +:+ t) = high s && high t.
Proof.
  induction s as [|c s IH]; [done|]. rewrite sapp_cons. simpl. rewrite IH.
  by rewrite andb_assoc.
Qed.

Lemma sapp_inj_l a s1 s2 : a +:+ s1 = a +:+ s2 → s1 = s2.
Proof. induction a as [|c a IH]; [done|]. rewrite !sapp_cons. intros [= H]. auto. Qed.

Lemma high_prefix x y t u :
  high y = true → starts_low t = true → x +:+ t = y +:+ u → ∃ v, x = y +:+ v.
Proof.
  intros Hy Ht. revert y Hy. induction x as [|e x IH]; intros y Hy Hxy.
  - destruct y as [|f y]; [by exists ""|]. rewrite sapp_nil_l, sapp_cons in Hxy.
    subst t. simpl in Ht, Hy. apply andb_true_iff in Hy as [Hf _]. by rewrite Ht in Hf.
  - destruct y as [|f y]; [by exists (String e x)|]. rewrite !sapp_cons in Hxy.
    injection Hxy as -> Hxy. simpl in Hy. apply andb_true_iff in Hy as [_ Hy].
    destruct (IH _ Hy Hxy) as [v ->]. by exists v.
Qed.

Lemma space_head_boundary s t u :
  s ≠ "" → starts_low t = true → Py.space_head (s +:+ t) = Some u →
  ∃ u', Py.space_head s = Some u' ∧ u = u' +:+ t.
Proof.
  intros Hs Ht (w & Hw & Heq)%space_head_spec. pose proof (spaces_shape _ Hw) as Hshape.
  assert (∃ u', s = w +:+ u') as [u' ->].
  { destruct w as [|a [|b w]]; [done| |].
    - destruct s as [|c s']; [done|]. rewrite !sapp_cons in Heq. injection Heq as -> _.
      by exists s'.
    - by apply (high_prefix _ _ t u). }
  exists u'. split; [apply space_head_spec; by exists w|].
  rewrite sapp_assoc in Heq. by apply sapp_inj_l in Heq.
Qed.

Lemma nonl_lstrip s : nonl s → nonl (Py.lstrip s).
Proof.
  intros H. destruct (lstrip_suffix s) as [p Hp]. rewrite Hp in H.
  by apply nonl_app in H as [_ ?].
Qed.

Lemma nonl_drop n s : nonl s → nonl (Py.drop n s).
Proof.
  revert s. induction n as [|n IH]; intros [|c s] H; simpl; try done.
  apply IH. by apply nonl_cons in H as [_ ?].
Qed.

Lemma nonl_split sep s : nonl s → Forall nonl (Py.split sep s).
Proof.
  induction s as [|c s IH]; intros H; simpl.
  { by repeat constructor. }
  apply nonl_cons in H as [Hc Hs]. specialize (IH Hs).
  destruct (Ascii.eqb c sep).
  { by constructor. }
  destruct (Py.split sep s) as [|x xs].
  - repeat constructor. by apply nonl_cons.
  - inv IH. constructor; [|done]. by apply nonl_cons.
Qed.

Lemma nonl_join sep l : nonl sep → Forall nonl l → nonl (Py.join sep l).
Proof.
  intros Hsep. induction 1 as [|x l Hx Hl IH]; [done|]. simpl.
  destruct l as [|y l]; [done|]. rewrite !nonl_app. auto.
Qed.

Lemma readlines_line_shaped s : Forall (λ l, line_shaped l = true) (Py.readlines s).
Proof.
  induction s as [|c s IH]; simpl; [constructor|].
  destruct (Ascii.eqb c Py.newline) eqn:Hc.
  { constructor; [|done]. simpl. by rewrite Hc. }
  destruct (Py.readlines s) as [|l ls].
  - repeat constructor. simpl. by rewrite Hc.
  - inv IH. constructor; [|done]. simpl. by rewrite Hc.
Qed.

Lemma nonl_rstrip s : line_shaped s = true → nonl (Py.rstrip s).
Proof.
  induction s as [|c s IH]; [done|]. cbn [line_shaped Py.rstrip].
  destruct (Ascii.eqb c Py.newline) eqn:Hc.
  - intros ->%String.eqb_eq. apply ascii_eqb_true in Hc as ->. done.
  - intros Hs. specialize (IH Hs). apply ascii_eqb_false in Hc.
    destruct (Py.lstrip (String c s)); [done|]. by apply nonl_cons.
Qed.

Lemma nonl_strip s : line_shaped s = true → nonl (Py.strip s).
Proof. intros H. by apply nonl_lstrip, nonl_rstrip. Qed.

(** * The sample stub *)

Lemma startswith_app p s : Py.startswith p (p +:+ s) = true.
Proof.
  induction p as [|c p IH]; [done|]. rewrite sapp_cons. simpl.
  by rewrite IH, Ascii.eqb_refl.
Qed.

Lemma startswith_inv p s : Py.startswith p s = true → ∃ t, s = p +:+ t.
Proof.
  revert s. induction p as [|c p IH]; intros s H; [by exists s|].
  destruct s as [|d s]; [done|]. simpl in H.
  apply andb_true_iff in H as [->%ascii_eqb_true [t ->]%IH]. by exists t.
Qed.

Lemma drop_app p s : Py.drop (String.length p) (p +:+ s) = s.
Proof. induction p as [|c p IH]; [by destruct s|]. by rewrite sapp_cons. Qed.

Lemma has_fastq_cons c s : has_fastq s → has_fastq (String c s).
Proof. intros (p & q & ->). by exists (String c p), q. Qed.

Lemma has_fastq_app p s : has_fastq s → has_fastq (p +:+ s).
Proof. intros H. induction p as [|c p IH]; [done|]. rewrite sapp_cons. by apply has_fastq_cons. Qed.

(** An occurrence in [fastq ++ q] lies inside [q]: the literal starts with
    a dot, which [fastq] does not hold. *)
Lemma has_fastq_tail q : has_fastq ("fastq" +:+ q) → has_fastq q.
Proof.
  intros (p & q' & E).
  do 5 (destruct p as [|? p]; [discriminate E|]; rewrite sapp_cons in E; injection E as <- E).
  cbn in E. by exists p, q'.
Qed.

Lemma dotstar_nonl s : nonl s → Re.dotstar s = String.length s.
Proof.
  induction s as [|c s IH]; [done|]. intros [Hc Hs]%nonl_cons. simpl.
  unfold Re.dot. apply ascii_eqb_false in Hc as ->. simpl. by rewrite IH.
Qed.

Lemma match_fastq_none s : ¬ has_fastq s → Re.match_fastq s = None.
Proof.
  induction s as [|c s IH]; intros Hno.
  { done. }
  assert (Py.startswith ".fastq" (String c s) = false) as Hlit.
  { destruct (Py.startswith ".fastq" (String c s)) eqn:E; [|done].
    apply startswith_inv in E as [t E]. destruct Hno. by exists "", t. }
  cbn [Re.match_fastq]. rewrite Hlit, IH; [by destruct (Re.dot c)|].
  intros H. by apply Hno, has_fastq_cons.
Qed.

Lemma match_fastq_literal q :
  nonl q → ¬ has_fastq q →
  Re.match_fastq (".fastq" +:+ q) = Some ("", 6 + String.length q).
Proof.
  intros Hnl Hno.
  change (".fastq" +:+ q) with (String "."%char ("fastq" +:+ q)).
  cbn [Re.match_fastq].
  rewrite (match_fastq_none ("fastq" +:+ q)) by (intros H; by apply Hno, has_fastq_tail).
  change (String "."%char ("fastq" +:+ q)) with (".fastq" +:+ q).
  rewrite startswith_app.
  change (Py.drop 6 (".fastq" +:+ q)) with (Py.drop (String.length ".fastq") (".fastq" +:+ q)).
  rewrite drop_app, dotstar_nonl by done. done.
Qed.

Lemma match_fastq_group p s g n :
  nonl p → Re.match_fastq s = Some (g, n) →
  Re.match_fastq (p +:+ s) = Some (p +:+ g, String.length p + n).
Proof.
  intros Hp Hs. induction p as [|c p IH]; [done|].
  apply nonl_cons in Hp as [Hc Hp]. rewrite sapp_cons. cbn [Re.match_fastq].
  unfold Re.dot. apply ascii_eqb_false in Hc as ->. simpl negb. cbv iota.
  by rewrite (IH Hp).
Qed.

Lemma sub_from_skip k s : String.length s ≤ k → Re.sub_from k s = "".
Proof.
  revert k. induction s as [|c s IH]; intros k Hk; [done|].
  simpl in Hk. destruct k as [|k]; [lia|]. simpl. apply IH. lia.
Qed.

(** The substitution on a name without a line feed. *)
Lemma sub_fastq_last p q :
  nonl p → nonl q → ¬ has_fastq q → Re.sub_fastq (p +:+ ".fastq" +:+ q) = p.
Proof.
  intros Hp Hq Hno. unfold Re.sub_fastq.
  pose proof (match_fastq_group p _ _ _ Hp (match_fastq_literal q Hq Hno)) as Hm.
  destruct (p +:+ ".fastq" +:+ q) as [|c s] eqn:E.
  { destruct p; discriminate E. }
  cbn [Re.sub_from]. rewrite Hm, sapp_nil_r.
  rewrite sub_from_skip; [by rewrite sapp_nil_r|].
  apply (f_equal String.length) in E. rewrite !slength_app in E. simpl in E.
  lia.
Qed.

Lemma sub_fastq_unchanged s : ¬ has_fastq s → Re.sub_fastq s = s.
Proof.
  unfold Re.sub_fastq. induction s as [|c s IH]; intros Hno; [done|].
  cbn [Re.sub_from]. rewrite (match_fastq_none _ Hno), IH; [done|].
  intros H. by apply Hno, has_fastq_cons.
Qed.

(** When [.fastq] occurs, it has a last occurrence. *)
Lemma occurs_fastq_spec s : occurs_fastq s = true ↔ has_fastq s.
Proof.
  split.
  - induction s as [|c s IH]; [done|]. cbn [occurs_fastq].
    intros [Hhere|Hlater]%orb_true_iff.
    + apply startswith_inv in Hhere as [t ->]. by exists "", t.
    + by apply has_fastq_cons, IH.
  - intros (p & q & ->). induction p as [|c p IH].
    + destruct q; done.
    + rewrite sapp_cons. cbn [occurs_fastq]. rewrite IH. apply orb_true_r.
Qed.

Lemma last_fastq s :
  has_fastq s → ∃ p q, s = p +:+ ".fastq" +:+ q ∧ ¬ has_fastq q.
Proof.
  induction s as [|c s IH]; intros Hs.
  { destruct Hs as (p & q & E). destruct p; discriminate E. }
  destruct (occurs_fastq s) eqn:Hocc.
  - apply occurs_fastq_spec in Hocc. destruct (IH Hocc) as (p & q & -> & Hq).
    by exists (String c p), q.
  - assert (¬ has_fastq s) as Hno.
    { intros H%occurs_fastq_spec. congruence. }
    destruct Hs as (p & q & E). destruct p as [|d p].
    + exists "", q. split; [done|]. intros Hq. apply Hno.
      injection E as _ ->. by apply (has_fastq_app "fastq").
    + rewrite sapp_cons in E. injection E as _ ->. destruct Hno. by exists p, q.
Qed.

(** * Invariants of the scanning loop *)

Lemma Forall_dict_set {V} (P : string * V → Prop) k v (d : list (string * V)) :
  (∀ k', P (k', v)) → Forall P d → Forall P (Py.dict_set k v d).
Proof.
  intros Hv. induction 1 as [|[k' v'] d Hx Hd IH]; simpl.
  { by repeat constructor. }
  destruct (String.eqb k' k); constructor; auto.
Qed.

Section scan_invariant.
Variables (L : string → Prop) (Qrow Qcols : list string → Prop).
Hypothesis Hrow : ∀ raw, L raw → Qrow (Py.split Py.tab (Py.strip raw)).
Hypothesis Hcols : ∀ raw, L raw → Qcols (Py.split Py.tab (Py.drop 1 (Py.strip raw))).

Lemma scan_line_ok st raw st' :
  L raw → scan_ok Qrow Qcols st → scan_line st raw = Ok st' → scan_ok Qrow Qcols st'.
Proof.
  intros HL (Hlines & Hc & Hmods). unfold scan_line.
  destruct (is_open_line _).
  { destruct (Py.split _ _) as [|module [|status [|? ?]]]; try done.
    intros [= <-]. done. }
  destruct (is_header_line _).
  { intros [= <-]. split_and!; try done. simpl. intros c [= <-]. by apply Hcols. }
  destruct (String.eqb _ end_module).
  - destruct (sc_module st) as [module|]; [|done].
    destruct (sc_status st) as [status|]; [|done].
    destruct (sc_cols st) as [cols|] eqn:Ecols; [|done].
    destruct (fastqc_module_init module status cols (sc_lines st)) as [m|] eqn:Em; [|done].
    simpl. intros [= <-]. split_and!; simpl; [done|done|].
    apply Forall_dict_set; [|done]. intros ?. simpl.
    pose proof Em as Em'. unfold fastqc_module_init in Em'.
    destruct (if String.eqb module basic_statistics then _ else _); [|done].
    cbn [rbind] in Em'. injection Em' as <-. simpl. split; [by apply Hc|].
    exists (sc_lines st). by split.
  - intros [= <-]. split_and!; simpl; try done.
    apply Forall_app. split; [done|]. repeat constructor. by apply Hrow.
Qed.

Lemma scan_lines_ok raws st st' :
  Forall L raws → scan_ok Qrow Qcols st → scan_lines st raws = Ok st' →
  scan_ok Qrow Qcols st'.
Proof.
  intros HL. revert st. induction HL as [|raw raws Hraw _ IH]; intros st Hst; simpl.
  { by intros [= <-]. }
  destruct (scan_line st raw) as [st1|] eqn:E1; [|done]. simpl.
  apply IH. by eapply scan_line_ok.
Qed.

Lemma _process_fastqc_report_ok content modules :
  Forall L (Py.readlines content) →
  _process_fastqc_report content = Ok modules → modules_ok Qrow Qcols modules.
Proof.
  intros HL. unfold _process_fastqc_report.
  destruct (scan_lines _ _) as [st|] eqn:E; [|done]. simpl. intros [= <-].
  eapply scan_lines_ok in E as (_ & _ & ?); [done..|].
  split_and!; [constructor|done|constructor].
Qed.
End scan_invariant.

(** ** No field holds a line feed *)

Lemma Forall_pad (P : string → Prop) w r : P "" → Forall P r → Forall P (Pd.pad w r).
Proof.
  intros H0 Hr. unfold Pd.pad. apply Forall_app. split; [done|].
  by apply Forall_replicate.
Qed.

Lemma Forall_nth_default (P : string → Prop) i r : P "" → Forall P r → P (nth i r "").
Proof.
  intros H0 Hr. revert i. induction Hr as [|x r Hx _ IH]; intros [|i]; simpl; auto.
Qed.

Lemma built_from_fields (P : string → Prop) m :
  P "" → Forall P (mod_cols m) → built_from (Forall P) m → data_fields P (mod_data m).
Proof.
  intros H0 Hcols (lines & Hlines & Hinit). unfold fastqc_module_init in Hinit.
  destruct (String.eqb _ _).
  - unfold Pd.Series_init in Hinit. destruct lines as [|r rs]; [done|].
    destruct (forallb _ _); [|done]. destruct (2 <=? _); [|done].
    cbn [rbind] in Hinit. injection Hinit as Hm.
    apply (f_equal mod_data) in Hm. rewrite <-Hm. cbn [mod_data data_fields].
    change (Forall (λ kv, P kv.1 ∧ P kv.2) (Pd.key_value <$> (r :: rs))).
    apply Forall_fmap. eapply Forall_impl; [exact Hlines|].
    intros r' Hr'. simpl. split; by apply Forall_nth_default.
  - unfold Pd.DataFrame_init in Hinit. destruct lines as [|r rs].
    { cbn [rbind] in Hinit. injection Hinit as Hm.
      apply (f_equal mod_data) in Hm. rewrite <-Hm. simpl. by split. }
    destruct (_ =? _); [|done]. cbn [rbind] in Hinit. injection Hinit as Hm.
    apply (f_equal mod_data) in Hm. rewrite <-Hm.
    cbn [mod_data data_fields]. split; [done|].
    change (Forall (Forall P) (Pd.pad (max_list (length <$> r :: rs)) <$> (r :: rs))).
    apply Forall_fmap. eapply Forall_impl; [exact Hlines|].
    intros r' Hr'. by apply Forall_pad.
Qed.

Lemma parsed_fields_nonl content modules :
  _process_fastqc_report content = Ok modules →
  Forall (λ km, data_fields nonl (mod_data km.2)) modules.
Proof.
  intros Hparse.
  eapply (_process_fastqc_report_ok (λ l, line_shaped l = true)
            (Forall nonl) (Forall nonl)) in Hparse.
  - eapply Forall_impl; [exact Hparse|]. intros [k m] [Hc Hb]. simpl in *.
    by apply built_from_fields.
  - intros raw Hraw. by apply nonl_split, nonl_strip.
  - intros raw Hraw. by apply nonl_split, nonl_drop, nonl_strip.
  - apply readlines_line_shaped.
Qed.

Lemma dict_get_elem_of {V} k (d : list (string * V)) v :
  Py.dict_get k d = Some v → (k, v) ∈ d.
Proof.
  induction d as [|[k' v'] d IH]; [done|]. simpl.
  destruct (String.eqb_spec k' k) as [->|].
  - intros [= ->]. left.
  - intros H. right. auto.
Qed.

Lemma series_get_elem_of k items v : Pd.series_get k items = Ok v → (k, v) ∈ items.
Proof.
  unfold Pd.series_get.
  destruct (filter _ items) as [|[k' v'] [|? ?]] eqn:E; try done.
  intros [= <-].
  assert ((k', v') ∈ filter (λ kv, kv.1 = k) items) as Hin by (rewrite E; left).
  apply list_elem_of_filter in Hin as [Hk Hin]. simpl in Hk. by subst.
Qed.

(** The fields of a report object: what [_process_basic_stats] reads. *)
Lemma _process_basic_stats_inv path modules qc :
  _process_basic_stats path modules = Ok qc →
  rep_modules qc = modules ∧ rep_fastqcpath qc = path
  ∧ rep_filestub qc = Re.sub_fastq (rep_filename qc)
  ∧ ∃ bs stats, Py.dict_get basic_statistics modules = Some bs
                ∧ mod_data bs = Series stats
                ∧ Pd.series_get "Filename" stats = Ok (rep_filename qc).
Proof.
  unfold _process_basic_stats, dict_item.
  destruct (Py.dict_get basic_statistics modules) as [bs|] eqn:Ebs; [|done]. simpl.
  destruct (mod_data bs) as [stats|] eqn:Edata; [|done].
  repeat (match goal with
          | |- context [rbind ?r _] => destruct r eqn:?; simpl; [|done]
          end).
  intros [= <-]. simpl. split_and!; try done. by exists bs, stats.
Qed.

Lemma fastqc_report_init_inv fl path qc :
  fastqc_report_init fl path = Ok qc →
  ∃ content, fl !! path = Some content
             ∧ _process_fastqc_report content = Ok (rep_modules qc)
             ∧ _process_basic_stats path (rep_modules qc) = Ok qc.
Proof.
  unfold fastqc_report_init. destruct (fl !! path) as [content|]; [|done].
  destruct (_process_fastqc_report content) as [modules|] eqn:E; [|done]. simpl.
  intros H. pose proof (_process_basic_stats_inv _ _ _ H) as (-> & _).
  by exists content.
Qed.

Lemma report_fields_nonl fl path qc :
  fastqc_report_init fl path = Ok qc →
  Forall (λ km, data_fields nonl (mod_data km.2)) (rep_modules qc)
  ∧ nonl (rep_filename qc).
Proof.
  intros (content & _ & Hparse & Hstats)%fastqc_report_init_inv.
  pose proof (parsed_fields_nonl _ _ Hparse) as Hall. split; [done|].
  apply _process_basic_stats_inv in Hstats as (_ & _ & _ & bs & stats & Hbs & Hdata & Hget).
  apply dict_get_elem_of in Hbs. apply series_get_elem_of in Hget.
  rewrite Forall_forall in Hall. specialize (Hall _ Hbs). simpl in Hall.
  rewrite Hdata in Hall. simpl in Hall. rewrite Forall_forall in Hall.
  by destruct (Hall _ Hget).
Qed.

(** C5. The sample stub of a parsed report: when [.fastq] occurs in the
    declared file name, the stub is the name cut before the last occurrence
    (the suffix [.fastq] and everything after it is removed), and there is
    such an occurrence; when [.fastq] does not occur, the stub is the file
    name unchanged. *)
Theorem filestub_strips_fastq fl path qc :
  fastqc_report_init fl path = Ok qc →
  (∀ p q, rep_filename qc = p +:+ ".fastq" +:+ q → ¬ has_fastq q → rep_filestub qc = p)
  ∧ (has_fastq (rep_filename qc) →
     ∃ p q, rep_filename qc = p +:+ ".fastq" +:+ q ∧ ¬ has_fastq q ∧ rep_filestub qc = p)
  ∧ (¬ has_fastq (rep_filename qc) → rep_filestub qc = rep_filename qc).
Proof.
  intros Hinit. pose proof (report_fields_nonl _ _ _ Hinit) as [_ Hnl].
  apply fastqc_report_init_inv in Hinit as (_ & _ & _ & Hstats).
  apply _process_basic_stats_inv in Hstats as (_ & _ & -> & _).
  assert (∀ p q, rep_filename qc = p +:+ ".fastq" +:+ q → ¬ has_fastq q →
                 Re.sub_fastq (rep_filename qc) = p) as Hcut.
  { intros p q E Hno. rewrite E in Hnl |- *.
    apply nonl_app in Hnl as [Hp [_ Hq]%nonl_app]. by apply sub_fastq_last. }
  split_and!.
  - exact Hcut.
  - intros (p & q & E & Hq)%last_fastq. exists p, q.
    split; [done|]. split; [done|]. by apply (Hcut p q).
  - apply sub_fastq_unchanged.
Qed.

Ltac no_fastq :=
  let p := fresh "p" in let q := fresh "q" in let E := fresh "E" in
  intros (p & q & E);
  repeat (destruct p as [|? p]; [discriminate E|rewrite sapp_cons in E; injection E as _ E]);
  destruct p; discriminate E.

Lemma filestub_strips_fastq_witness :
  fastqc_report_init sample_files "/p/A/fastqc_data.txt"
  = Ok (sample_qc "/p/A/fastqc_data.txt" "sample1.fastq.gz" "sample1")
  ∧ rep_filestub (sample_qc "/p/A/fastqc_data.txt" "sample1.fastq.gz" "sample1") = "sample1".
Proof.
  assert (fastqc_report_init sample_files "/p/A/fastqc_data.txt"
          = Ok (sample_qc "/p/A/fastqc_data.txt" "sample1.fastq.gz" "sample1")) as H
    by (vm_compute; reflexivity).
  split; [exact H|].
  apply (proj1 (filestub_strips_fastq _ _ _ H) "sample1" ".gz"); [reflexivity|no_fastq].
Defined.

(** * The parser *)

(** ** Stripping *)

Lemma ends_space_suffix p t : ends_space t = true → ends_space (p +:+ t) = true.
Proof.
  intros Ht. induction p as [|c p IH]; [done|]. rewrite sapp_cons. cbn [ends_space].
  rewrite IH. apply orb_true_r.
Qed.

Lemma one_space_head w t : one_space w = true → Py.space_head (w +:+ t) = Some t.
Proof.
  unfold one_space. destruct (Py.space_head w) as [[|? ?]|] eqn:E; [|done..]. intros _.
  by rewrite (space_head_app _ _ _ E).
Qed.

Lemma lstrip_nil : Py.lstrip "" = "".
Proof. reflexivity. Qed.

Lemma all_space_ends s : s ≠ "" → Py.lstrip s = "" → ends_space s = true.
Proof.
  induction s as [s H|s t H IH] using space_ind.
  - intros Hs. by rewrite lstrip_none.
  - intros Hs. rewrite (lstrip_some _ _ H). intros Ht.
    destruct t as [|d t].
    + destruct s as [|c s]; [done|]. cbn [ends_space]. unfold one_space. by rewrite H.
    + apply space_head_spec in H as (w & _ & ->). apply ends_space_suffix. by apply IH.
Qed.

Lemma rstrip_ends s : ends_space (Py.rstrip s) = false.
Proof.
  induction s as [|c s IH]; [done|]. cbn [Py.rstrip].
  destruct (Py.lstrip (String c s)) as [|d r] eqn:E; [done|].
  cbn [ends_space]. rewrite IH, orb_false_r.
  destruct (one_space (String c (Py.rstrip s))) eqn:Hone; [|done].
  destruct (rstrip_split s) as (q & Hs & Hq).
  rewrite Hs, <-sapp_cons, lstrip_unfold, (one_space_head _ _ Hone), Hq in E. done.
Qed.

Lemma rstrip_id s : ends_space s = false → Py.rstrip s = s.
Proof.
  induction s as [|c s IH]; [done|]. intros H. pose proof H as H'. cbn [ends_space] in H'.
  apply orb_false_elim in H' as [_ Hs]. cbn [Py.rstrip]. rewrite (IH Hs).
  destruct (Py.lstrip (String c s)) eqn:E; [|done].
  apply all_space_ends in E; [congruence|done].
Qed.

Lemma lstrip_starts s : starts_space (Py.lstrip s) = false.
Proof.
  induction s as [s H|s t H IH] using space_ind.
  - rewrite lstrip_none by done. unfold starts_space. by rewrite H.
  - by rewrite (lstrip_some _ _ H).
Qed.

Lemma lstrip_id s : starts_space s = false → Py.lstrip s = s.
Proof.
  unfold starts_space. destruct (Py.space_head s) eqn:E; [done|]. intros _.
  by apply lstrip_none.
Qed.

Lemma lstrip_ends s : ends_space s = false → ends_space (Py.lstrip s) = false.
Proof.
  intros H. destruct (ends_space (Py.lstrip s)) eqn:E; [|done].
  destruct (lstrip_suffix s) as [p Hp].
  rewrite Hp, (ends_space_suffix _ _ E) in H. done.
Qed.

Lemma strip_starts s : starts_space (Py.strip s) = false.
Proof. apply lstrip_starts. Qed.

Lemma strip_ends s : ends_space (Py.strip s) = false.
Proof. apply lstrip_ends, rstrip_ends. Qed.

Lemma strip_idemp s : Py.strip (Py.strip s) = Py.strip s.
Proof.
  unfold Py.strip at 1. rewrite (rstrip_id _ (strip_ends s)).
  apply lstrip_id, strip_starts.
Qed.

Lemma rstrip_all_space s : all_space s = true → Py.rstrip s = "".
Proof.
  unfold all_space. intros H%String.eqb_eq. destruct s as [|c s]; [done|].
  cbn [Py.rstrip]. by rewrite H.
Qed.

Lemma strip_all_space s : all_space s = true → Py.strip s = "".
Proof. intros H. unfold Py.strip. by rewrite rstrip_all_space. Qed.

Lemma drop_suffix n s : ∃ p, s = p +:+ Py.drop n s.
Proof.
  revert s. induction n as [|n IH]; intros [|c s]; try by exists "".
  destruct (IH s) as [p Hp]. exists (String c p). cbn [Py.drop]. rewrite sapp_cons.
  by f_equal.
Qed.

Lemma drop_ends n s : ends_space s = false → ends_space (Py.drop n s) = false.
Proof.
  intros H. destruct (ends_space (Py.drop n s)) eqn:E; [|done].
  destruct (drop_suffix n s) as [p Hp].
  rewrite Hp, (ends_space_suffix _ _ E) in H. done.
Qed.

(** ** Splitting *)

Lemma split_nonempty sep s : Py.split sep s ≠ [].
Proof.
  destruct s as [|c s]; [done|]. simpl.
  destruct (Ascii.eqb c sep); [done|]. by destruct (Py.split sep s).
Qed.

Lemma split_single_empty sep s : Py.split sep s = [""] → s = "".
Proof.
  destruct s as [|c s]; [done|]. simpl.
  destruct (Ascii.eqb c sep).
  - intros [= H]. by destruct (split_nonempty sep s).
  - by destruct (Py.split sep s).
Qed.

Lemma split_hd_prefix sep s : ∃ t, s = List.hd "" (Py.split sep s) +:+ t.
Proof.
  induction s as [|c s [t IH]]; [by exists ""|]. cbn [Py.split].
  destruct (Ascii.eqb c sep); [by eexists|].
  destruct (Py.split sep s) as [|x xs]; cbn [List.hd] in *.
  - by exists s.
  - exists t. rewrite sapp_cons. by f_equal.
Qed.

Lemma split_single sep s x : Py.split sep s = [x] → s = x.
Proof.
  revert x. induction s as [|c s IH]; intros x; cbn [Py.split]; [by intros [= <-]|].
  pose proof (split_nonempty sep s) as Hne.
  destruct (Ascii.eqb c sep).
  - intros [= _ H]. done.
  - destruct (Py.split sep s) as [|y [|z ys]]; [done| |done].
    intros [= <-]. by rewrite (IH y).
Qed.

Lemma split_last_suffix sep s : ∃ p, s = p +:+ List.last (Py.split sep s) "".
Proof.
  induction s as [|c s [p IH]]; [by exists ""|]. cbn [Py.split].
  pose proof (split_nonempty sep s) as Hne. pose proof (split_single sep s) as Hone.
  destruct (Ascii.eqb c sep).
  - exists (String c p). destruct (Py.split sep s) as [|x xs]; [done|].
    rewrite sapp_cons. by f_equal.
  - destruct (Py.split sep s) as [|x [|y xs]]; [done| |].
    + exists "". cbn [List.last]. by rewrite (Hone x).
    + exists (String c p). rewrite sapp_cons. by f_equal.
Qed.

Lemma split_hd sep s :
  starts_space s = false → starts_space (List.hd "" (Py.split sep s)) = false.
Proof.
  intros H. destruct (split_hd_prefix sep s) as [t Ht]. unfold starts_space in *.
  destruct (Py.space_head (List.hd "" (Py.split sep s))) eqn:E; [|done].
  rewrite Ht, (space_head_app _ _ _ E) in H. done.
Qed.

Lemma split_last sep s :
  ends_space s = false → ends_space (List.last (Py.split sep s) "") = false.
Proof.
  intros H. destruct (ends_space (List.last (Py.split sep s) "")) eqn:E; [|done].
  destruct (split_last_suffix sep s) as [p Hp].
  rewrite Hp, (ends_space_suffix _ _ E) in H. done.
Qed.

Lemma split_row_trimmed raw : row_trimmed (Py.split Py.tab (Py.strip raw)).
Proof. split; [apply split_hd, strip_starts|apply split_last, strip_ends]. Qed.

Lemma split_cols_trimmed raw : cols_trimmed (Py.split Py.tab (Py.drop 1 (Py.strip raw))).
Proof. apply split_last, drop_ends, strip_ends. Qed.

(** ** Module data are built from trimmed rows *)

Lemma last_pad w r : List.last (Pd.pad w r) "" = List.last r "" ∨ List.last (Pd.pad w r) "" = "".
Proof.
  unfold Pd.pad. destruct (w - length r) as [|n]; [left; by rewrite app_nil_r|].
  right. replace (replicate (S n) "") with (replicate n "" ++ [""]).
  - by rewrite app_assoc, List.last_last.
  - clear. induction n as [|n IH]; [done|]. simpl. by rewrite IH.
Qed.

Lemma pad_row_trimmed w r : r ≠ [] → row_trimmed r → row_trimmed (Pd.pad w r).
Proof.
  intros Hr [Hhd Hlast]. split.
  - destruct r; [done|]. done.
  - by destruct (last_pad w r) as [-> | ->].
Qed.

Lemma built_from_trimmed m :
  cols_trimmed (mod_cols m) → built_from (λ r, r ≠ [] ∧ row_trimmed r) m →
  data_trimmed (mod_data m).
Proof.
  intros Hcols (lines & Hlines & Hinit). unfold fastqc_module_init in Hinit.
  destruct (String.eqb _ _).
  - unfold Pd.Series_init in Hinit. destruct lines as [|r rs]; [done|].
    destruct (forallb _ _); [|done]. destruct (2 <=? _); [|done].
    cbn [rbind] in Hinit. injection Hinit as Hm.
    apply (f_equal mod_data) in Hm. rewrite <-Hm. cbn [mod_data data_trimmed].
    change (Pd.key_value r :: _) with (Pd.key_value <$> (r :: rs)).
    apply Forall_fmap. eapply Forall_impl; [exact Hlines|].
    intros r' [Hne [Hhd _]]. simpl. by destruct r'.
  - unfold Pd.DataFrame_init in Hinit. destruct lines as [|r rs].
    { cbn [rbind] in Hinit. injection Hinit as Hm.
      apply (f_equal mod_data) in Hm. rewrite <-Hm. simpl. by split. }
    destruct (_ =? _); [|done]. cbn [rbind] in Hinit. injection Hinit as Hm.
    apply (f_equal mod_data) in Hm. rewrite <-Hm.
    cbn [mod_data data_trimmed]. split; [done|].
    change (Forall row_trimmed (Pd.pad (max_list (length <$> r :: rs)) <$> (r :: rs))).
    apply Forall_fmap. eapply Forall_impl; [exact Hlines|].
    intros r' [? ?]. by apply pad_row_trimmed.
Qed.

Lemma parsed_data_trimmed content modules :
  _process_fastqc_report content = Ok modules →
  Forall (λ km, data_trimmed (mod_data km.2)) modules.
Proof.
  intros Hparse.
  eapply (_process_fastqc_report_ok (λ _, True)
            (λ r, r ≠ [] ∧ row_trimmed r) cols_trimmed) in Hparse.
  - eapply Forall_impl; [exact Hparse|]. intros [k m] [Hc Hb]. simpl in *.
    by apply built_from_trimmed.
  - intros raw _. split; [apply split_nonempty|apply split_row_trimmed].
  - intros raw _. apply split_cols_trimmed.
  - by apply Forall_true.
Qed.

(** ** Classification *)

Lemma scan_line_strip st raw : scan_line st (Py.strip raw) = scan_line st raw.
Proof. unfold scan_line. by rewrite strip_idemp. Qed.

Lemma scan_line_data st raw :
  is_data_line raw = true →
  scan_line st raw = Ok (buffer st (Py.split Py.tab (Py.strip raw))).
Proof.
  unfold is_data_line, scan_line.
  intros [[Ho Hh]%andb_true_iff He]%andb_true_iff.
  apply negb_true_iff in Ho, Hh, He. by rewrite Ho, Hh, He.
Qed.

(** ** Rows are buffered whether or not a module is open *)

Lemma scan_lines_app st raws1 raws2 :
  scan_lines st (raws1 ++ raws2)
  = (st1 ←r scan_lines st raws1; scan_lines st1 raws2).
Proof.
  revert st. induction raws1 as [|raw raws1 IH]; intros st; [done|]. simpl.
  destruct (scan_line st raw); [|done]. simpl. apply IH.
Qed.

Lemma scan_line_not_end st raw st' :
  Py.strip raw ≠ end_module → scan_line st raw = Ok st' →
  sc_lines st' = sc_lines st ++ data_rows [raw] ∧ sc_modules st' = sc_modules st.
Proof.
  intros Hne. destruct (is_data_line raw) eqn:Hd.
  { rewrite (scan_line_data _ _ Hd). intros [= <-]. unfold data_rows.
    by rewrite filter_cons_True by done. }
  assert (data_rows [raw] = []) as ->.
  { unfold data_rows. rewrite filter_cons_False; [done|]. by rewrite Hd. }
  rewrite app_nil_r. revert Hd.
  unfold is_data_line, scan_line.
  destruct (is_open_line _).
  { intros _. destruct (Py.split _ _) as [|module [|status [|? ?]]]; try done.
    by intros [= <-]. }
  destruct (is_header_line _).
  { intros _. by intros [= <-]. }
  destruct (String.eqb_spec (Py.strip raw) end_module); [done|]. done.
Qed.

Lemma data_rows_cons raw raws : data_rows (raw :: raws) = data_rows [raw] ++ data_rows raws.
Proof.
  unfold data_rows. rewrite !filter_cons, filter_nil.
  by destruct (decide (is_data_line raw = true)).
Qed.

Lemma scan_segment seg st st1 :
  Forall (λ raw, Py.strip raw ≠ end_module) seg → scan_lines st seg = Ok st1 →
  sc_lines st1 = sc_lines st ++ data_rows seg ∧ sc_modules st1 = sc_modules st.
Proof.
  intros Hseg. revert st. induction Hseg as [|raw seg Hraw _ IH]; intros st; simpl.
  { intros [= <-]. by rewrite app_nil_r. }
  destruct (scan_line st raw) as [st0|] eqn:E0; [|done]. simpl. intros E1.
  destruct (scan_line_not_end _ _ _ Hraw E0) as [Hl Hm].
  destruct (IH _ E1) as [Hl' Hm']. rewrite Hl', Hm', Hl, Hm.
  by rewrite (data_rows_cons raw seg), app_assoc.
Qed.

Lemma scan_line_end st closing st' :
  Py.strip closing = end_module → scan_line st closing = Ok st' →
  ∃ module status cols m,
    sc_module st = Some module ∧ sc_status st = Some status ∧ sc_cols st = Some cols
    ∧ fastqc_module_init module status cols (sc_lines st) = Ok m
    ∧ sc_modules st' = Py.dict_set module m (sc_modules st)
    ∧ sc_lines st' = [].
Proof.
  intros Hend. unfold scan_line. rewrite Hend.
  change (is_open_line end_module) with false.
  change (is_header_line end_module) with false.
  change (String.eqb end_module end_module) with true. cbv iota.
  destruct (sc_module st) as [module|]; [|done].
  destruct (sc_status st) as [status|]; [|done].
  destruct (sc_cols st) as [cols|]; [|done].
  destruct (fastqc_module_init module status cols (sc_lines st)) as [m|] eqn:Em; [|done].
  simpl. intros [= <-]. by exists module, status, cols, m.
Qed.

(** C4, as the code has it. A line that is no marker is buffered as a data
    row in every state, whether or not a module has been opened; and the
    module stored at an end marker is built from all the rows buffered since
    the previous end marker (or the start of the file), those of lines that
    precede its opening line included. *)
Theorem rows_since_previous_end :
  (∀ st raw, is_data_line raw = true →
     scan_line st raw = Ok (buffer st (Py.split Py.tab (Py.strip raw))))
  ∧ (∀ st seg closing st',
       Forall (λ raw, Py.strip raw ≠ end_module) seg →
       Py.strip closing = end_module →
       scan_lines st (seg ++ [closing]) = Ok st' →
       ∃ st1 module status cols m,
         scan_lines st seg = Ok st1
         ∧ sc_module st1 = Some module ∧ sc_status st1 = Some status
         ∧ sc_cols st1 = Some cols
         ∧ fastqc_module_init module status cols (sc_lines st ++ data_rows seg) = Ok m
         ∧ sc_modules st' = Py.dict_set module m (sc_modules st)
         ∧ sc_lines st' = []).
Proof.
  split; [apply scan_line_data|].
  intros st seg closing st' Hseg Hend. rewrite scan_lines_app.
  destruct (scan_lines st seg) as [st1|] eqn:E1; [|done]. simpl.
  destruct (scan_line st1 closing) as [st2|] eqn:E2; [|done]. simpl. intros [= <-].
  destruct (scan_segment _ _ _ Hseg E1) as [Hl Hm].
  destruct (scan_line_end _ _ _ Hend E2) as (module & status & cols & m & ? & ? & ? & Hinit & ? & ?).
  exists st1, module, status, cols, m. rewrite <-Hl, <-Hm. done.
Qed.

Lemma rows_since_previous_end_witness :
  ∃ st' m,
    scan_lines scan_start (stray_segment ++ [end_module]) = Ok st'
    ∧ sc_modules st' = [("Per base N content", m)]
    ∧ mod_data m = DataFrame ["Base"; "N-Count"] [["stray"; "line"]; ["1"; "0.0"]].
Proof.
  assert (∃ st', scan_lines scan_start (stray_segment ++ [end_module]) = Ok st')
    as [st' Hst'] by (eexists; vm_compute; reflexivity).
  destruct (proj2 rows_since_previous_end scan_start stray_segment end_module st')
    as (st1 & module & status & cols & m & H1 & Hmod & Hstat & Hcols & Hinit & Hmods & _).
  - repeat constructor; vm_compute; discriminate.
  - reflexivity.
  - exact Hst'.
  - vm_compute in H1. injection H1 as <-.
    injection Hmod as <-. injection Hstat as <-. injection Hcols as <-.
    vm_compute in Hinit. injection Hinit as <-.
    exists st', (Build_module "Per base N content" "pass" ["Base"; "N-Count"]
                   (DataFrame ["Base"; "N-Count"] [["stray"; "line"]; ["1"; "0.0"]])).
    split; [exact Hst'|]. split; [exact Hmods|reflexivity].
Defined.

(** C4, as stated, fails: the line between the end marker of the first
    module and the opening line of the second one becomes the first data
    row of the second module. *)
Lemma stray_line_becomes_row :
  ∃ modules,
    _process_fastqc_report stray_report = Ok modules
    ∧ (mod_data <$> Py.dict_get "Per base N content" modules)
      = Some (DataFrame ["Base"; "N-Count"]
                [["stray"; "line"]; ["1"; "0.0"]; ["2"; "0.1"]])
    ∧ _process_fastqc_report stray_report
      ≠ _process_fastqc_report (sample_report "sample1.fastq.gz").
Proof.
  eexists. split; [vm_compute; reflexivity|]. split; [reflexivity|].
  vm_compute. discriminate.
Qed.

(** ** Whitespace at the ends of the lines *)

Lemma scan_lines_strip st raws : scan_lines st (Py.strip <$> raws) = scan_lines st raws.
Proof.
  revert st. induction raws as [|raw raws IH]; intros st; [done|].
  rewrite fmap_cons. cbn [scan_lines]. rewrite scan_line_strip.
  destruct (scan_line st raw) as [st1|]; [|done]. cbn [rbind]. apply IH.
Qed.

Lemma row_entry_trimmed r : row_trimmed r → entry_trimmed r.
Proof.
  intros [Hhd Hlast]. split.
  - by destruct r.
  - intros Hlen. destruct r as [|k [|v [|? ?]]]; try done.
Qed.

Lemma scan_lines_buffer_trimmed raws st :
  scan_lines scan_start raws = Ok st → Forall row_trimmed (sc_lines st).
Proof.
  intros Hscan.
  eapply (scan_lines_ok (λ _, True) row_trimmed (λ _, True)) in Hscan as [Hlines _].
  - exact Hlines.
  - intros raw _. apply split_row_trimmed.
  - done.
  - by apply Forall_true.
  - split_and!; [constructor|done|constructor].
Qed.

(** C9. Every line is stripped of leading and trailing white space, the
    white space of [str.strip], before it is classified: the loop body
    depends on the stripped line only, and so do the parsed modules of a
    whole file, key-value module included; a line of white space only is
    buffered, whatever the state, as the row whose single field is the
    empty string; in every parsed module the first field of each row has
    no leading white space and the last field no trailing white space (for
    the key-value module: no key has leading white space); and wherever in
    a file the key-value module is closed by an end marker, it holds the
    entries of the rows buffered since the previous end marker, where no
    key has leading white space and no value that ends its line has
    trailing white space. *)
Theorem strip_before_classify :
  (∀ st raw, scan_line st raw = scan_line st (Py.strip raw))
  ∧ (∀ st raw, all_space raw = true → scan_line st raw = Ok (buffer st [""]))
  ∧ (∀ raw, row_trimmed (Py.split Py.tab (Py.strip raw)))
  ∧ (∀ content modules,
       _process_fastqc_report content = Ok modules →
       Forall (λ km, data_trimmed (mod_data km.2)) modules)
  ∧ (∀ content content',
       Py.strip <$> Py.readlines content = Py.strip <$> Py.readlines content' →
       _process_fastqc_report content = _process_fastqc_report content')
  ∧ (∀ before st seg closing st1 st',
       scan_lines scan_start before = Ok st →
       Forall (λ raw, Py.strip raw ≠ end_module) seg →
       Py.strip closing = end_module →
       scan_lines st seg = Ok st1 →
       sc_module st1 = Some basic_statistics →
       scan_lines st (seg ++ [closing]) = Ok st' →
       ∃ m, Py.dict_get basic_statistics (sc_modules st') = Some m
            ∧ mod_data m = Series (Pd.key_value <$> (sc_lines st ++ data_rows seg))
            ∧ Forall entry_trimmed (sc_lines st ++ data_rows seg)).
Proof.
  split_and!.
  - intros st raw. by rewrite scan_line_strip.
  - intros st raw Hsp. rewrite scan_line_data.
    + by rewrite (strip_all_space _ Hsp).
    + unfold is_data_line. by rewrite (strip_all_space _ Hsp).
  - apply split_row_trimmed.
  - apply parsed_data_trimmed.
  - intros content content' Heq. unfold _process_fastqc_report.
    by rewrite <-(scan_lines_strip _ (Py.readlines content)), Heq, scan_lines_strip.
  - intros before st seg closing st1 st' Hbefore Hseg Hend E1 Hbs.
    rewrite scan_lines_app, E1.
    cbn [rbind scan_lines].
    destruct (scan_line st1 closing) as [st2|] eqn:E2; [|done]. cbn [rbind]. intros [= <-].
    destruct (scan_segment _ _ _ Hseg E1) as [Hl Hm].
    destruct (scan_line_end _ _ _ Hend E2)
      as (module & status & cols & m & Hmod & _ & _ & Hinit & Hmods & _).
    rewrite Hbs in Hmod. injection Hmod as <-. exists m. split_and!.
    + rewrite Hmods. clear. induction (sc_modules st1) as [|[k v] d IH]; [done|].
      cbn [Py.dict_set]. destruct (String.eqb k basic_statistics) eqn:E;
        cbn [Py.dict_get]; by rewrite E.
    + revert Hinit. unfold fastqc_module_init. rewrite String.eqb_refl, Hl.
      unfold Pd.Series_init. destruct (sc_lines st ++ data_rows seg) as [|r rs]; [done|].
      destruct (forallb _ _); [|done]. destruct (2 <=? _); [|done].
      cbn [rbind]. by intros [= <-].
    + apply Forall_app_2.
      * eapply Forall_impl; [by eapply scan_lines_buffer_trimmed|].
        apply row_entry_trimmed.
      * unfold data_rows. apply Forall_fmap, Forall_forall. intros raw _.
        apply row_entry_trimmed, split_row_trimmed.
Qed.

Lemma strip_before_classify_witness :
  scan_line scan_start blank_line = Ok (buffer scan_start [""])
  ∧ (∃ modules,
       _process_fastqc_report spaced_report = Ok modules
       ∧ (mod_data <$> Py.dict_get "Per base N content" modules)
         = Some (DataFrame ["Base"; "N-Count"] [["1"; "0.0"]; [""; ""]])
       ∧ Forall (λ km, data_trimmed (mod_data km.2)) modules)
  ∧ _process_fastqc_report spaced_report = _process_fastqc_report unspaced_report
  ∧ ∃ st' m,
      scan_lines scan_start (spaced_statistics ++ [end_module]) = Ok st'
      ∧ Py.dict_get basic_statistics (sc_modules st') = Some m
      ∧ mod_data m = Series [("Filename", "sample1.fastq.gz"); ("Total Sequences", "1000")]
      ∧ Forall entry_trimmed (sc_lines scan_start ++ data_rows spaced_statistics).
Proof.
  split_and!.
  - apply (proj1 (proj2 strip_before_classify)). vm_compute. reflexivity.
  - eexists. split; [vm_compute; reflexivity|]. split; [reflexivity|].
    apply (proj1 (proj2 (proj2 (proj2 strip_before_classify))) spaced_report).
    vm_compute. reflexivity.
  - apply (proj1 (proj2 (proj2 (proj2 (proj2 strip_before_classify))))).
    vm_compute. reflexivity.
  - assert (∃ st', scan_lines scan_start (spaced_statistics ++ [end_module]) = Ok st')
      as [st' Hst'] by (eexists; vm_compute; reflexivity).
    assert (∃ st1, scan_lines scan_start spaced_statistics = Ok st1
                   ∧ sc_module st1 = Some basic_statistics)
      as (st1 & Hst1 & Hbs) by (eexists; split; vm_compute; reflexivity).
    destruct (proj2 (proj2 (proj2 (proj2 (proj2 strip_before_classify))))
                [] scan_start spaced_statistics end_module st1 st')
      as (m & Hget & Hdata & Hrows).
    + reflexivity.
    + repeat constructor; vm_compute; discriminate.
    + reflexivity.
    + exact Hst1.
    + exact Hbs.
    + exact Hst'.
    + exists st', m. split; [exact Hst'|]. split; [exact Hget|]. split; [|exact Hrows].
      rewrite Hdata. vm_compute. reflexivity.
Defined.

(** * Discovery of the report files *)

Section discovery.
Variable fastqc_filename : string.

Lemma elem_of_matching root files p :
  p ∈ matching fastqc_filename root files ↔
  fastqc_filename ∈ files ∧ p = Py.path_join root fastqc_filename.
Proof.
  unfold matching. rewrite list_elem_of_bind. split.
  - intros (name & Hp & Hname).
    destruct (String.eqb_spec name fastqc_filename) as [Heq|]; [|by inv Hp].
    apply list_elem_of_singleton in Hp. split; [by rewrite <-Heq|done].
  - intros [Hin ->]. exists fastqc_filename. split; [|done].
    rewrite String.eqb_refl. by apply list_elem_of_singleton.
Qed.

Lemma matching_Permutation root files1 files2 :
  files1 ≡ₚ files2 →
  matching fastqc_filename root files1 ≡ₚ matching fastqc_filename root files2.
Proof. intros E. unfold matching. by rewrite E. Qed.

Lemma elem_of_collect walk p :
  p ∈ collect fastqc_filename walk ↔
  ∃ root dirs files, (root, dirs, files) ∈ walk ∧ fastqc_filename ∈ files
                     ∧ p = Py.path_join root fastqc_filename.
Proof.
  unfold collect. rewrite list_elem_of_bind. split.
  - intros ([[root dirs] files] & Hp & Hin).
    apply elem_of_matching in Hp as [? ?]. eauto 6.
  - intros (root & dirs & files & Hin & Hfile & ->).
    exists (root, dirs, files). split; [|done]. by apply elem_of_matching.
Qed.

Lemma collect_same_tree w1 w2 :
  same_tree w1 w2 → collect fastqc_filename w1 ≡ₚ collect fastqc_filename w2.
Proof.
  intros (w & Hperm & Hall). unfold collect. rewrite Hperm. clear w1 Hperm.
  induction Hall as [|[[r1 d1] f1] [[r2 d2] f2] w w2 [Hr Hf] _ IH]; [done|].
  simpl in Hr, Hf. subst r2. rewrite !bind_cons.
  by rewrite IH, (matching_Permutation _ _ _ Hf).
Qed.

Lemma sort_sorted l : StronglySorted String.le (sort l).
Proof. apply StronglySorted_merge_sort; apply _. Qed.

Lemma sort_Permutation l : sort l ≡ₚ l.
Proof. apply merge_sort_Permutation. Qed.

(** The sorted list depends on the elements only. *)
Lemma sort_proper l1 l2 : l1 ≡ₚ l2 → sort l1 = sort l2.
Proof.
  intros E. apply (StronglySorted_unique String.le); [apply sort_sorted..|].
  by rewrite !sort_Permutation.
Qed.

Lemma find_same_tree w1 w2 :
  same_tree w1 w2 → find_fastqcfiles fastqc_filename w1 = find_fastqcfiles fastqc_filename w2.
Proof. intros E. apply sort_proper, collect_same_tree, E. Qed.

Lemma find_nil walk :
  (∀ root dirs files, (root, dirs, files) ∈ walk → fastqc_filename ∉ files) →
  find_fastqcfiles fastqc_filename walk = [].
Proof.
  intros Hnone. unfold find_fastqcfiles.
  assert (collect fastqc_filename walk = []) as ->; [|done].
  destruct (collect fastqc_filename walk) as [|p l] eqn:E; [done|].
  assert (p ∈ collect fastqc_filename walk) as Hp by (rewrite E; left).
  apply elem_of_collect in Hp as (root & dirs & files & Hin & Hfile & _).
  by destruct (Hnone _ _ _ Hin).
Qed.
End discovery.

Lemma init_fastqcfiles walk fl project_root out_dir fastqc_filename sep self :
  fastqc_collation_init walk fl project_root out_dir fastqc_filename sep = Ok self →
  col_fastqcfiles self = find_fastqcfiles fastqc_filename walk.
Proof.
  unfold fastqc_collation_init.
  destruct (find_fastqcfiles fastqc_filename walk) as [|first rest]; [done|].
  destruct (fastqc_report_init fl first); simpl; [|done]. by intros [= <-].
Qed.

(** C8. The report files that a collation processes are exactly the paths
    [root/fastqc_filename] of the directories whose file list holds the
    expected name, in ascending lexicographic order of the full path, and
    the same list (indeed the same collation object) is obtained from any
    other order in which the walk yields the directories and the names. *)
Theorem discovery_sorted_exact walk fl project_root out_dir fastqc_filename sep self :
  fastqc_collation_init walk fl project_root out_dir fastqc_filename sep = Ok self →
  StronglySorted String.le (col_fastqcfiles self)
  ∧ col_fastqcfiles self ≡ₚ collect fastqc_filename walk
  ∧ (∀ p, p ∈ col_fastqcfiles self ↔
          ∃ root dirs files, (root, dirs, files) ∈ walk ∧ fastqc_filename ∈ files
                             ∧ p = Py.path_join root fastqc_filename)
  ∧ (∀ walk', same_tree walk walk' →
       fastqc_collation_init walk' fl project_root out_dir fastqc_filename sep = Ok self).
Proof.
  intros Hinit. pose proof (init_fastqcfiles _ _ _ _ _ _ _ Hinit) as ->.
  split_and!.
  - apply sort_sorted.
  - apply sort_Permutation.
  - intros p. unfold find_fastqcfiles. rewrite sort_Permutation. apply elem_of_collect.
  - intros walk' E. rewrite <-Hinit. unfold fastqc_collation_init.
    by rewrite (find_same_tree _ _ _ E).
Qed.

Lemma discovery_sorted_exact_witness :
  col_fastqcfiles two_collation = ["/p/A/fastqc_data.txt"; "/p/B/fastqc_data.txt"]
  ∧ StronglySorted String.le (col_fastqcfiles two_collation).
Proof.
  split; [reflexivity|].
  refine (proj1 (discovery_sorted_exact two_walk two_files "/p" (Some "/out")
                   "fastqc_data.txt" "," two_collation _)).
  vm_compute. reflexivity.
Defined.

(** C3, as the code has it. When no directory of the walk lists a file
    with the expected name, constructing the collation fails: the lookup of
    the first report file in the empty list raises [IndexError], before
    anything is parsed. *)
Theorem no_reports_found walk fl project_root out_dir fastqc_filename sep :
  (∀ root dirs files, (root, dirs, files) ∈ walk → fastqc_filename ∉ files) →
  fastqc_collation_init walk fl project_root out_dir fastqc_filename sep = Raise IndexError.
Proof.
  intros Hnone. unfold fastqc_collation_init. by rewrite (find_nil _ _ Hnone).
Qed.

Lemma no_reports_found_witness :
  fastqc_collation_init two_walk two_files "/p" None "fastqc_data.csv" "," = Raise IndexError.
Proof.
  apply no_reports_found. intros root dirs files Hin Hfile.
  repeat (apply elem_of_cons in Hin as [Hin|Hin];
          [injection Hin as -> -> ->;
           repeat (apply elem_of_cons in Hfile as [Hfile|Hfile]; [discriminate Hfile|]);
           by apply elem_of_nil in Hfile|]).
  by apply elem_of_nil in Hin.
Defined.

(** C3, as stated, fails. In the tree of two samples no file is called
    [fastqc_data.csv]; constructing the collation for that name does not
    end with an error that says that something was not found: it ends with
    the [IndexError] of the lookup in the empty list. *)
Lemma no_reports_is_index_error :
  (∀ root dirs files, (root, dirs, files) ∈ two_walk → "fastqc_data.csv" ∉ files)
  ∧ ¬ (∃ e, fastqc_collation_init two_walk two_files "/p" None "fastqc_data.csv" ","
            = Raise e
            ∧ not_found_error e = true).
Proof.
  split.
  - intros root dirs files Hin Hfile.
    repeat (apply elem_of_cons in Hin as [Hin|Hin];
            [injection Hin as -> -> ->;
             repeat (apply elem_of_cons in Hfile as [Hfile|Hfile]; [discriminate Hfile|]);
             by apply elem_of_nil in Hfile|]).
    by apply elem_of_nil in Hin.
  - intros (e & Hinit & Hnot). vm_compute in Hinit. injection Hinit as <-.
    discriminate Hnot.
Qed.

(** * The collation engine *)

(** A report is a function of the content of its file. *)
Lemma fastqc_report_init_ext (fl1 fl2 : files) f :
  fl1 !! f = fl2 !! f → fastqc_report_init fl1 f = fastqc_report_init fl2 f.
Proof. unfold fastqc_report_init. by intros ->. Qed.

(** ** Footprints *)

Lemma touches_mono {A} paths1 paths2 (c : M A) :
  paths1 ⊆ paths2 → touches paths1 c → touches paths2 c.
Proof. intros Hsub Hc fl p Hp. apply Hc. intros ?. by apply Hp, Hsub. Qed.

Lemma touches_mret {A} paths (a : A) : touches paths (mret a).
Proof. done. Qed.

Lemma touches_mraise {A} paths e : touches paths (mraise (A:=A) e).
Proof. done. Qed.

Lemma touches_mbind {A B} paths (c : M A) (k : A → M B) :
  touches paths c → (∀ a, touches paths (k a)) → touches paths (mbind' c k).
Proof.
  intros Hc Hk fl p Hp. unfold mbind'. specialize (Hc fl p Hp).
  destruct (c fl) as [fl' [a|e]]; simpl in *; [|done].
  by rewrite (Hk a fl' p Hp).
Qed.

Lemma touches_if {A} paths (b : files → bool) (c1 c2 : M A) :
  touches paths c1 → touches paths c2 →
  touches paths (λ fl, if b fl then c1 fl else c2 fl).
Proof. intros H1 H2 fl p Hp. destruct (b fl); auto. Qed.

Lemma touches_remove path : touches [path] (remove path).
Proof.
  intros fl p Hp. simpl. apply lookup_delete_ne. intros ->. apply Hp. left.
Qed.

Lemma touches_open_file path mode : touches [path] (open_file path mode).
Proof.
  intros fl p Hp. unfold open_file. destruct (_ || _); [|done]. simpl.
  apply lookup_insert_ne. intros ->. apply Hp. left.
Qed.

Lemma touches_write path s : touches [path] (write path s).
Proof.
  intros fl p Hp. unfold write. destruct (fl !! path); [|done]. simpl.
  apply lookup_insert_ne. intros ->. apply Hp. left.
Qed.

Lemma touches_to_csv cols rows out sep header mode :
  touches [out] (to_csv cols rows out sep header mode).
Proof.
  unfold to_csv. apply touches_mbind; [apply touches_open_file|]. intros _.
  destruct (Py.one_char sep); auto using touches_mraise, touches_write.
Qed.

Lemma touches_write_data self module data out mode :
  touches [out] (write_data self module data out mode).
Proof.
  unfold write_data. destruct (String.eqb module basic_statistics).
  - destruct data; [|apply touches_mraise].
    repeat (apply touches_mbind; [|intros _]);
      try (destruct (String.eqb mode "w"));
      repeat (apply touches_mbind; [|intros _]);
      auto using touches_open_file, touches_write, touches_mret.
  - destruct data; [apply touches_mraise|]. apply touches_to_csv.
Qed.

Lemma touches__process_mod self f qc module out mode :
  touches [out] (_process_mod self f qc module out mode).
Proof.
  unfold _process_mod.
  destruct (negb _); [apply touches_mraise|].
  destruct (negb _); [apply touches_mraise|].
  destruct (Py.dict_get _ _) as [m|]; [|apply touches_mraise].
  apply touches_mbind; [apply touches_write_data|intros; apply touches_mret].
Qed.

Lemma touches_process_one self f qc module :
  touches [out_file self module] (process_one self f qc module).
Proof. apply touches_if; apply touches__process_mod. Qed.

Lemma touches_process_modules self f qc modules :
  touches (out_files self modules) (process_modules self f qc modules).
Proof.
  revert qc. induction modules as [|module rest IH]; intros qc; [apply touches_mret|].
  cbn [process_modules]. apply touches_mbind.
  - eapply touches_mono; [|apply touches_process_one].
    intros p ->%list_elem_of_singleton; left.
  - intros qc'. eapply touches_mono; [|apply IH]. intros p Hp. by right.
Qed.

(** The loops, one iteration at a time. *)
Lemma process_modules_cons self f qc module rest fl :
  process_modules self f qc (module :: rest) fl
  = match process_one self f qc module fl with
    | (fl', Ok qc') => process_modules self f qc' rest fl'
    | (fl', Raise e) => (fl', Raise e)
    end.
Proof. done. Qed.

Lemma process_files_cons self f rest modules fl :
  process_files self (f :: rest) modules fl
  = match fastqc_report_init fl f with
    | Ok qc =>
        match process_modules self f qc modules fl with
        | (fl', Ok _) => process_files self rest modules fl'
        | (fl', Raise e) => (fl', Raise e)
        end
    | Raise e => (fl, Raise e)
    end.
Proof.
  cbn [process_files]. unfold mbind'. by destruct (fastqc_report_init fl f).
Qed.

Lemma process_modules_reparse_cons self f module rest fl :
  process_modules_reparse self f (module :: rest) fl
  = match fastqc_report_init fl f with
    | Ok qc =>
        match process_one self f qc module fl with
        | (fl', Ok _) => process_modules_reparse self f rest fl'
        | (fl', Raise e) => (fl', Raise e)
        end
    | Raise e => (fl, Raise e)
    end.
Proof.
  cbn [process_modules_reparse]. unfold mbind'. by destruct (fastqc_report_init fl f).
Qed.

Lemma process_files_reparse_cons self f rest modules fl :
  process_files_reparse self (f :: rest) modules fl
  = match process_modules_reparse self f modules fl with
    | (fl', Ok _) => process_files_reparse self rest modules fl'
    | (fl', Raise e) => (fl', Raise e)
    end.
Proof. done. Qed.

Lemma touches_process_files self fastqcfiles modules :
  touches (out_files self modules) (process_files self fastqcfiles modules).
Proof.
  induction fastqcfiles as [|f rest IH]; [apply touches_mret|].
  cbn [process_files]. apply touches_mbind; [done|]. intros qc.
  apply touches_mbind; [apply touches_process_modules|]. by intros _.
Qed.

(** ** Removal of the old files *)

Lemma lookup_without paths (fl : files) p :
  without paths fl !! p = if decide (p ∈ paths) then None else fl !! p.
Proof.
  unfold without. revert fl. induction paths as [|q paths IH]; intros fl; cbn [foldl].
  { by rewrite decide_False by apply not_elem_of_nil. }
  rewrite IH. destruct (decide (p ∈ paths)) as [Hin|Hnot].
  - rewrite decide_True; [done|by right].
  - destruct (decide (p = q)) as [->|Hne].
    + rewrite decide_True by left. apply lookup_delete_eq.
    + rewrite decide_False; [by apply lookup_delete_ne|].
      by intros [?|?]%elem_of_cons.
Qed.

Lemma without_ext paths (fl1 fl2 : files) :
  (∀ p, p ∉ paths → fl1 !! p = fl2 !! p) → without paths fl1 = without paths fl2.
Proof.
  intros H. apply map_eq. intros p. rewrite !lookup_without.
  destruct (decide (p ∈ paths)); auto.
Qed.

Lemma remove_old_spec self modules fl :
  remove_old self modules fl = (without (out_files self modules) fl, Ok tt).
Proof.
  revert fl. induction modules as [|module rest IH]; intros fl; [done|].
  cbn [remove_old]. unfold mbind', isfile, remove.
  case_bool_decide as Hsome; rewrite IH; [done|].
  unfold out_files, without. cbn [fmap list_fmap foldl].
  rewrite delete_id; [done|]. by apply eq_None_not_Some.
Qed.

Lemma collate_unfold self modules fl :
  collate self modules fl
  = process_files self (col_fastqcfiles self) modules (without (out_files self modules) fl).
Proof. unfold collate, mbind'. by rewrite remove_old_spec. Qed.

Lemma touches_collate self modules :
  touches (out_files self modules) (collate self modules).
Proof.
  intros fl p Hp. rewrite collate_unfold, touches_process_files by done.
  rewrite lookup_without. by rewrite decide_False.
Qed.

(** The result of the two loops does not depend on what the output paths
    held before. *)
Lemma collate_ext self modules fl1 fl2 :
  (∀ p, p ∉ out_files self modules → fl1 !! p = fl2 !! p) →
  collate self modules fl1 = collate self modules fl2.
Proof. intros H. rewrite !collate_unfold. by rewrite (without_ext _ _ _ H). Qed.

(** ** The output directory *)

Example parents_ex :
  Py.parents "/out/x/y" = ["/out/x"; "/out"; "/"] ∧ Py.parents "a/b/" = ["a"]
  ∧ Py.parents "out" = [] ∧ Py.parents "/" = [].
Proof. vm_compute. done. Qed.

Example makedirs_ex :
  (makedirs "/p/out/x" two_fs).2 = Ok tt
  ∧ "/p/out" ∈ fs_dirs (makedirs "/p/out/x" two_fs).1
  ∧ "/p/out/x" ∈ fs_dirs (makedirs "/p/out/x" two_fs).1
  ∧ (makedirs "/p/A" two_fs).2 = Raise (OSError EEXIST)
  ∧ makedirs "/p/A/fastqc_data.txt/x" two_fs = (two_fs, Raise (OSError ENOTDIR)).
Proof.
  split_and!; try (vm_compute; reflexivity);
    apply (bool_decide_unpack _); vm_compute; exact I.
Qed.

Lemma makedirs_files name fs : fs_files (makedirs name fs).1 = fs_files fs.
Proof.
  unfold makedirs. destruct (String.eqb name ""); [done|].
  destruct (blocked fs (Py.parents name)); [done|]. by destruct (exists_path fs name).
Qed.

Lemma _make_sure_path_exists_files self fs :
  fs_files (_make_sure_path_exists self fs).1 = fs_files fs.
Proof.
  unfold _make_sure_path_exists. pose proof (makedirs_files (col_out_dir self) fs) as H.
  destruct (makedirs (col_out_dir self) fs) as [fs' [[]|[]]]; try done.
  by destruct (_ =? _).
Qed.

(** When the output directory cannot be made, nothing has been made. *)
Lemma _make_sure_path_exists_raise self fs e :
  (_make_sure_path_exists self fs).2 = Raise e →
  _make_sure_path_exists self fs = (fs, Raise e).
Proof.
  unfold _make_sure_path_exists, makedirs.
  destruct (String.eqb (col_out_dir self) ""); [cbn; by intros [= <-]|].
  destruct (blocked fs (Py.parents (col_out_dir self))); [cbn; by intros [= <-]|].
  by destruct (exists_path fs (col_out_dir self)).
Qed.

Lemma _make_sure_path_exists_empty self fs :
  col_out_dir self = "" → _make_sure_path_exists self fs = (fs, Raise (OSError ENOENT)).
Proof. intros H. unfold _make_sure_path_exists, makedirs. by rewrite H. Qed.

Lemma elem_of_missing fs chain p : p ∈ missing fs chain → p ∈ chain.
Proof.
  induction chain as [|q chain IH]; [done|]. cbn [missing].
  destruct (exists_path fs q); [by intros ?%elem_of_nil|].
  intros [->|?]%elem_of_cons; [left|right; auto].
Qed.

(** The directories after the output directory was made or found. *)
Lemma _make_sure_path_exists_dirs self fs :
  (_make_sure_path_exists self fs).2 = Ok tt →
  (col_out_dir self ∈ fs_dirs (_make_sure_path_exists self fs).1
   ∨ isfile (fs_files fs) (col_out_dir self) = true)
  ∧ fs_dirs fs ⊆ fs_dirs (_make_sure_path_exists self fs).1
  ∧ fs_dirs (_make_sure_path_exists self fs).1
    ⊆ {[ col_out_dir self ]} ∪ list_to_set (Py.parents (col_out_dir self)) ∪ fs_dirs fs.
Proof.
  unfold _make_sure_path_exists, makedirs.
  destruct (String.eqb (col_out_dir self) ""); [done|].
  destruct (blocked fs (Py.parents (col_out_dir self))); [done|].
  assert (list_to_set (missing fs (Py.parents (col_out_dir self)))
          ⊆@{gset string} list_to_set (Py.parents (col_out_dir self))) as Hsub.
  { intros p. rewrite !elem_of_list_to_set. apply elem_of_missing. }
  unfold exists_path.
  destruct (bool_decide (col_out_dir self ∈ fs_dirs fs)) eqn:Hdir; cbn [orb].
  { intros _. cbn. apply bool_decide_eq_true in Hdir. split_and!.
    - left. apply elem_of_union. by right.
    - apply union_subseteq_r.
    - apply union_least; [|apply union_subseteq_r].
      etrans; [exact Hsub|]. etrans; [apply union_subseteq_r|apply union_subseteq_l]. }
  destruct (isfile (fs_files fs) (col_out_dir self)); cbn.
  - intros _. split_and!.
    + by right.
    + apply union_subseteq_r.
    + apply union_least; [|apply union_subseteq_r].
      etrans; [exact Hsub|]. etrans; [apply union_subseteq_r|apply union_subseteq_l].
  - intros _. split_and!.
    + left. apply elem_of_union. left. by apply elem_of_singleton.
    + etrans; [apply union_subseteq_r|apply union_subseteq_r].
    + apply union_least.
      * etrans; [apply union_subseteq_l|apply union_subseteq_l].
      * apply union_least; [|apply union_subseteq_r].
        etrans; [exact Hsub|]. etrans; [apply union_subseteq_r|apply union_subseteq_l].
Qed.

Lemma _make_sure_path_exists_state self fs :
  (_make_sure_path_exists self fs).1 = (makedirs (col_out_dir self) fs).1.
Proof.
  unfold _make_sure_path_exists.
  destruct (makedirs (col_out_dir self) fs) as [fs' [[]|[]]]; try done.
  by destruct (_ =? _).
Qed.

Lemma _make_sure_path_exists_cases self fs :
  (_make_sure_path_exists self fs).2 = Ok tt →
  (makedirs (col_out_dir self) fs).2 = Ok tt
  ∨ (makedirs (col_out_dir self) fs).2 = Raise (OSError EEXIST).
Proof.
  unfold _make_sure_path_exists.
  destruct (makedirs (col_out_dir self) fs) as [fs' [[]|[| | | | |errno]]]; try done;
    [by left|].
  destruct (Nat.eqb_spec errno EEXIST) as [->|]; [by right|done].
Qed.

(** After [makedirs], whether it made [name] or found it, the parent of
    [name] is a directory. *)
Lemma makedirs_parent name fs p rest :
  Py.parents name = p :: rest →
  (makedirs name fs).2 = Ok tt ∨ (makedirs name fs).2 = Raise (OSError EEXIST) →
  p ∈ fs_dirs (makedirs name fs).1.
Proof.
  intros Hchain. unfold makedirs.
  destruct (String.eqb name ""); [by intros [|]|]. rewrite Hchain.
  cbn [blocked missing]. destruct (exists_path fs p) eqn:Hp.
  - destruct (bool_decide (p ∈ fs_dirs fs)) eqn:Hdir.
    + apply bool_decide_eq_true in Hdir. rewrite andb_false_r. intros _.
      destruct (exists_path fs name); cbn [fst fs_dirs].
      * apply elem_of_union. by right.
      * apply elem_of_union. right. apply elem_of_union. by right.
    + unfold exists_path in Hp. rewrite Hdir in Hp. cbn [orb] in Hp. rewrite Hp.
      cbn. by intros [|].
  - destruct (blocked fs rest); [by intros [|]|]. intros _.
    destruct (exists_path fs name); cbn [fst fs_dirs].
    + apply elem_of_union. left. apply elem_of_list_to_set. left.
    + apply elem_of_union. right. apply elem_of_union. left.
      apply elem_of_list_to_set. left.
Qed.

(** Once the output directory was made or found, it is found again,
    whatever the files have become. *)
Lemma _make_sure_path_exists_again self fs (fl : files) :
  (_make_sure_path_exists self fs).2 = Ok tt →
  (_make_sure_path_exists self
     (Build_fs fl (fs_dirs (_make_sure_path_exists self fs).1))).2 = Ok tt.
Proof.
  intros Hmade.
  assert (col_out_dir self ≠ "") as Hne.
  { intros Hempty. by rewrite _make_sure_path_exists_empty in Hmade. }
  pose proof (λ p rest H, makedirs_parent (col_out_dir self) fs p rest H
                            (_make_sure_path_exists_cases _ _ Hmade)) as Hnear.
  rewrite <-_make_sure_path_exists_state in Hnear.
  set (dirs1 := fs_dirs (_make_sure_path_exists self fs).1) in *.
  unfold _make_sure_path_exists, makedirs.
  destruct (String.eqb_spec (col_out_dir self) ""); [done|].
  assert (blocked (Build_fs fl dirs1) (Py.parents (col_out_dir self)) = false) as ->.
  { destruct (Py.parents (col_out_dir self)) as [|p rest]; [done|].
    cbn [blocked]. unfold exists_path. cbn [fs_dirs fs_files].
    rewrite (bool_decide_eq_true_2 _ (Hnear p rest eq_refl)). cbn [orb negb].
    by rewrite andb_false_r. }
  by destruct (exists_path _ _).
Qed.

Lemma process_unfold self modules fs :
  process self modules fs
  = match (_make_sure_path_exists self fs).2 with
    | Ok _ => on_files (collate self (requested self modules)) (_make_sure_path_exists self fs).1
    | Raise e => ((_make_sure_path_exists self fs).1, Raise e)
    end.
Proof. unfold process. by destruct (_make_sure_path_exists self fs) as [fs' [[]|e]]. Qed.

Lemma process_raise self modules fs e :
  (_make_sure_path_exists self fs).2 = Raise e → process self modules fs = (fs, Raise e).
Proof.
  intros H. rewrite process_unfold, H. by rewrite (_make_sure_path_exists_raise _ _ _ H).
Qed.

Lemma process_made self modules fs :
  (_make_sure_path_exists self fs).2 = Ok tt →
  process self modules fs
  = on_files (collate self (requested self modules)) (_make_sure_path_exists self fs).1.
Proof. intros H. by rewrite process_unfold, H. Qed.

Lemma process_files_result self modules fs :
  (_make_sure_path_exists self fs).2 = Ok tt →
  fs_files (process self modules fs).1
  = (collate self (requested self modules) (fs_files fs)).1
  ∧ (process self modules fs).2 = (collate self (requested self modules) (fs_files fs)).2.
Proof.
  intros H. rewrite (process_made _ _ _ H). unfold on_files.
  rewrite _make_sure_path_exists_files. by destruct (collate _ _ _).
Qed.

Lemma fastqc_collation_init_ext walk (fl1 fl2 : files) project_root out_dir
    fastqc_filename sep :
  (∀ f, f ∈ find_fastqcfiles fastqc_filename walk → fl1 !! f = fl2 !! f) →
  fastqc_collation_init walk fl1 project_root out_dir fastqc_filename sep
  = fastqc_collation_init walk fl2 project_root out_dir fastqc_filename sep.
Proof.
  intros H. unfold fastqc_collation_init.
  destruct (find_fastqcfiles fastqc_filename walk) as [|first rest]; [done|].
  rewrite (fastqc_report_init_ext fl1 fl2 first); [done|]. apply H. left.
Qed.

(** C6. A second run of [process] with the same arguments, on the file
    system that the first run left, ends with the same files, byte for
    byte, and the same outcome. More generally the outcome of a run does
    not depend on what the output paths of the requested modules held
    before, nor do the files once the output directory is there: an old
    output file is removed before anything is written, so nothing is ever
    appended to the data of an earlier run. (A run that cannot make its
    output directory stops there and leaves every file as it was.) When the
    report files are not themselves output paths, constructing the
    collation anew after the first run gives the same collation object, so
    the whole second run, construction included, repeats the first. *)
Theorem rerun_is_idempotent self modules fs :
  fs_files (process self modules (process self modules fs).1).1
  = fs_files (process self modules fs).1
  ∧ (process self modules (process self modules fs).1).2 = (process self modules fs).2
  ∧ (∀ fs0,
       (∀ p, p ∉ out_files self (requested self modules) →
             fs_files fs0 !! p = fs_files fs !! p) →
       (_make_sure_path_exists self fs0).2 = (_make_sure_path_exists self fs).2 →
       (process self modules fs0).2 = (process self modules fs).2
       ∧ (∀ p, p ∉ out_files self (requested self modules) →
               fs_files (process self modules fs0).1 !! p
               = fs_files (process self modules fs).1 !! p)
       ∧ ((_make_sure_path_exists self fs).2 = Ok tt →
          fs_files (process self modules fs0).1 = fs_files (process self modules fs).1))
  ∧ (∀ walk project_root out_dir fastqc_filename sep,
       fastqc_collation_init walk (fs_files fs) project_root out_dir fastqc_filename sep
       = Ok self →
       (∀ f m, f ∈ col_fastqcfiles self → m ∈ requested self modules →
               out_file self m ≠ f) →
       fastqc_collation_init walk (fs_files (process self modules fs).1)
         project_root out_dir fastqc_filename sep = Ok self).
Proof.
  destruct ((_make_sure_path_exists self fs).2) as [[]|e] eqn:Hmade; cycle 1.
  { rewrite !(process_raise _ _ _ _ Hmade). cbn [fst snd].
    rewrite ?(process_raise _ _ _ _ Hmade). cbn [fst snd].
    split_and!; [done|done| |done].
    intros fs0 Hagree Hsame. rewrite (process_raise _ _ _ _ Hsame). cbn [fst snd].
    split_and!; [done|done|done]. }
  assert (∀ fs0,
       (∀ p, p ∉ out_files self (requested self modules) →
             fs_files fs0 !! p = fs_files fs !! p) →
       (_make_sure_path_exists self fs0).2 = Ok tt →
       fs_files (process self modules fs0).1 = fs_files (process self modules fs).1
       ∧ (process self modules fs0).2 = (process self modules fs).2) as Hext.
  { intros fs0 Hagree Hmade0.
    destruct (process_files_result self modules fs0 Hmade0) as [-> ->].
    destruct (process_files_result self modules fs Hmade) as [-> ->].
    by rewrite (collate_ext _ _ _ _ Hagree). }
  assert (∀ p, p ∉ out_files self (requested self modules) →
               fs_files (process self modules fs).1 !! p = fs_files fs !! p) as Hframe.
  { intros p Hp. destruct (process_files_result self modules fs Hmade) as [-> _].
    by apply touches_collate. }
  assert ((_make_sure_path_exists self (process self modules fs).1).2 = Ok tt) as Hagain.
  { rewrite (process_made _ _ _ Hmade). unfold on_files.
    destruct (collate _ _ _) as [fl r]. cbn [fst].
    by apply _make_sure_path_exists_again. }
  split_and!; [by apply Hext|by apply Hext| |].
  { intros fs0 Hagree Hsame. destruct (Hext fs0 Hagree Hsame) as [Hfl Hres].
    split_and!; [done| |done]. intros p _. by rewrite Hfl. }
  intros walk project_root out_dir fastqc_filename sep Hinit Hout.
  rewrite <-Hinit. apply fastqc_collation_init_ext. intros f Hf.
  rewrite <-(init_fastqcfiles _ _ _ _ _ _ _ Hinit) in Hf. apply Hframe.
  intros (m & Heq & Hm)%list_elem_of_fmap. by apply (Hout f m).
Qed.

Lemma rerun_is_idempotent_witness :
  fs_files (process two_collation NoModules stale_fs).1
  = fs_files (process two_collation NoModules two_fs).1
  ∧ fs_files (process two_collation NoModules stale_fs).1
      !! "/out/Basic Statistics_fastqc_collation.csv" = Some basic_statistics_out.
Proof.
  split; [|vm_compute; reflexivity].
  refine (proj2 (proj2 (proj1 (proj2 (proj2 (rerun_is_idempotent two_collation NoModules
                                               two_fs)))
                          stale_fs _ _)) _); [|reflexivity|reflexivity].
  intros p Hp. unfold stale_fs, fs_files.
  apply lookup_insert_ne. intros <-. apply Hp, list_elem_of_In. vm_compute. auto.
Defined.

(** ** A requested module outside the universe *)








(** * Parsing once and parsing again *)

Lemma dict_get_set_ne {V} k k' (v : V) d :
  k ≠ k' → Py.dict_get k' (Py.dict_set k v d) = Py.dict_get k' d.
Proof.
  intros Hne. induction d as [|[k0 v0] d IH]; simpl.
  - destruct (String.eqb_spec k k'); [done|done].
  - destruct (String.eqb_spec k0 k) as [->|]; simpl.
    + destruct (String.eqb_spec k k'); [done|done].
    + destruct (String.eqb_spec k0 k'); [done|apply IH].
Qed.

(** What [_process_mod] does to the files depends on the report object
    through the sample stub and the entry of the module only. *)
Lemma _process_mod_ext self f qc1 qc2 module out mode fl :
  rep_filestub qc1 = rep_filestub qc2 →
  Py.dict_get module (rep_modules qc1) = Py.dict_get module (rep_modules qc2) →
  (_process_mod self f qc1 module out mode fl).1 = (_process_mod self f qc2 module out mode fl).1
  ∧ void (_process_mod self f qc1 module out mode fl).2
    = void (_process_mod self f qc2 module out mode fl).2.
Proof.
  intros Hstub Hget. unfold _process_mod. rewrite Hstub, Hget. clear Hget.
  destruct (negb _); [done|]. destruct (negb _); [done|].
  destruct (Py.dict_get _ _) as [m|]; [|done].
  unfold mbind'. by destruct (write_data _ _ _ _ _ _) as [fl' [[]|e]].
Qed.

Lemma _process_mod_report self f qc module out mode fl fl' qc' :
  _process_mod self f qc module out mode fl = (fl', Ok qc') →
  rep_filestub qc' = rep_filestub qc
  ∧ ∀ k, k ≠ module →
         Py.dict_get k (rep_modules qc') = Py.dict_get k (rep_modules qc).
Proof.
  unfold _process_mod.
  destruct (negb _); [done|]. destruct (negb _); [done|].
  destruct (Py.dict_get _ _) as [m|]; [|done].
  unfold mbind'. destruct (write_data _ _ _ _ _ _) as [fl1 [[]|e]]; [|done].
  intros [= _ <-]. split; [done|]. intros k Hk. simpl. by apply dict_get_set_ne.
Qed.

Lemma process_one_ext self f qc1 qc2 module fl :
  rep_filestub qc1 = rep_filestub qc2 →
  Py.dict_get module (rep_modules qc1) = Py.dict_get module (rep_modules qc2) →
  (process_one self f qc1 module fl).1 = (process_one self f qc2 module fl).1
  ∧ void (process_one self f qc1 module fl).2 = void (process_one self f qc2 module fl).2.
Proof.
  intros Hstub Hget. unfold process_one. destruct (isfile _ _); by apply _process_mod_ext.
Qed.

Lemma process_one_report self f qc module fl fl' qc' :
  process_one self f qc module fl = (fl', Ok qc') →
  rep_filestub qc' = rep_filestub qc
  ∧ ∀ k, k ≠ module →
         Py.dict_get k (rep_modules qc') = Py.dict_get k (rep_modules qc).
Proof. unfold process_one. destruct (isfile _ _); apply _process_mod_report. Qed.

Lemma process_modules_reparse_eq self f modules :
  NoDup modules →
  (∀ m, m ∈ modules → out_file self m ≠ f) →
  ∀ qc qc0 fl,
    fastqc_report_init fl f = Ok qc0 →
    rep_filestub qc = rep_filestub qc0 →
    (∀ m, m ∈ modules →
          Py.dict_get m (rep_modules qc) = Py.dict_get m (rep_modules qc0)) →
    (process_modules self f qc modules fl).1 = (process_modules_reparse self f modules fl).1
    ∧ void (process_modules self f qc modules fl).2
      = (process_modules_reparse self f modules fl).2.
Proof.
  induction modules as [|module rest IH]; intros Hnodup Hout qc qc0 fl Hparse Hstub Hget.
  { done. }
  apply NoDup_cons in Hnodup as [Hnotin Hnodup].
  rewrite process_modules_cons, process_modules_reparse_cons, Hparse.
  destruct (process_one_ext self f qc qc0 module fl Hstub (Hget _ (list_elem_of_here _ _)))
    as [Hfl Hres].
  destruct (process_one self f qc module fl) as [fl1 [qc1|e1]] eqn:E1,
           (process_one self f qc0 module fl) as [fl2 [qc2|e2]] eqn:E2;
    simpl in Hfl, Hres; subst; try done.
  assert (fl2 !! f = fl !! f) as Hf.
  { replace fl2 with (process_one self f qc module fl).1 by (by rewrite E1).
    apply touches_process_one. intros Hin%list_elem_of_singleton.
    by apply (Hout module); [left|]. }
  destruct (process_one_report _ _ _ _ _ _ _ E1) as [Hs Hg].
  apply (IH Hnodup (λ m Hm, Hout m (list_elem_of_further _ _ _ Hm)) qc1 qc0 fl2).
  - by rewrite (fastqc_report_init_ext _ _ _ Hf).
  - congruence.
  - intros m Hm. rewrite Hg; [apply Hget; by right|]. by intros ->.
Qed.

Lemma process_files_nil self fastqcfiles fl :
  (process_files self fastqcfiles [] fl).1 = fl
  ∧ (process_files_reparse self fastqcfiles [] fl) = (fl, Ok tt).
Proof.
  revert fl. induction fastqcfiles as [|f rest IH]; intros fl; [done|].
  rewrite process_files_cons, process_files_reparse_cons.
  cbn [process_modules process_modules_reparse]. unfold mret.
  destruct (IH fl) as [IH1 IH2]. rewrite IH2.
  by destruct (fastqc_report_init fl f).
Qed.

Lemma process_files_reparse_eq self fastqcfiles modules :
  NoDup modules → modules ≠ [] →
  (∀ f m, f ∈ fastqcfiles → m ∈ modules → out_file self m ≠ f) →
  ∀ fl, process_files self fastqcfiles modules fl
        = process_files_reparse self fastqcfiles modules fl.
Proof.
  intros Hnodup Hne. induction fastqcfiles as [|f rest IH]; intros Hout fl; [done|].
  rewrite process_files_cons, process_files_reparse_cons.
  destruct (fastqc_report_init fl f) as [qc0|e] eqn:Hparse.
  - destruct (process_modules_reparse_eq self f modules Hnodup
                (λ m Hm, Hout f m (list_elem_of_here _ _) Hm) qc0 qc0 fl Hparse eq_refl
                (λ _ _, eq_refl)) as [Hfl Hres].
    destruct (process_modules self f qc0 modules fl) as [fl1 [qc1|e1]],
             (process_modules_reparse self f modules fl) as [fl2 [[]|e2]];
      simpl in Hfl, Hres; subst; try done; [|by injection Hres as ->].
    apply IH. intros f' m Hf' Hm. apply Hout; [by right|done].
  - destruct modules as [|module others]; [done|].
    by rewrite process_modules_reparse_cons, Hparse.
Qed.

(** C7. When no module is requested twice and no output path is one of the
    report files, the loops of the source, which parse each report once and
    hand the same report object to every requested module, leave the same
    file system as the loops that parse the report again for every module;
    and they end with the same outcome as soon as one module is
    requested. *)
Theorem parse_once_equals_reparse self modules fs :
  NoDup (requested self modules) →
  (∀ f m, f ∈ col_fastqcfiles self → m ∈ requested self modules → out_file self m ≠ f) →
  (process self modules fs).1 = (process_reparse self modules fs).1
  ∧ (requested self modules ≠ [] →
     (process self modules fs).2 = (process_reparse self modules fs).2).
Proof.
  intros Hnodup Hout. unfold process, process_reparse.
  pose proof (_make_sure_path_exists_files self fs) as Hfl.
  destruct (_make_sure_path_exists self fs) as [[fl1 dirs1] [[]|e]]; [|done].
  cbn [fst fs_files] in Hfl. subst fl1.
  unfold on_files, collate, collate_reparse, mbind'.
  cbn [fs_files fs_dirs]. rewrite remove_old_spec.
  destruct (requested self modules) as [|module others] eqn:Hreq.
  - destruct (process_files_nil self (col_fastqcfiles self)
                (without (out_files self []) (fs_files fs))) as [H1 H2].
    rewrite H2. destruct (process_files _ _ _ _) as [fl r]. simpl in *. by subst.
  - rewrite (process_files_reparse_eq self _ (module :: others)) by done. done.
Qed.

Lemma parse_once_equals_reparse_witness :
  process two_collation NoModules stale_fs = process_reparse two_collation NoModules stale_fs.
Proof.
  assert (NoDup (requested two_collation NoModules)) as H1.
  { apply (bool_decide_unpack _). vm_compute. exact I. }
  assert (∀ f m, f ∈ col_fastqcfiles two_collation → m ∈ requested two_collation NoModules →
                 out_file two_collation m ≠ f) as H2.
  { intros f m Hf Hm. apply list_elem_of_In in Hf, Hm. simpl in Hf, Hm.
    destruct Hf as [<-|[<-|[]]], Hm as [<-|[<-|[]]]; vm_compute; discriminate. }
  destruct (parse_once_equals_reparse two_collation NoModules stale_fs H1 H2) as [Hfs Hres].
  apply injective_projections; [exact Hfs|]. by apply Hres.
Defined.

(** * The output files *)

(** ** Lines *)


Lemma unlines_cons l ls : unlines (l :: ls) = l +:+ NL +:+ unlines ls.
Proof. done. Qed.

Lemma readlines_line l rest :
  nonl l → Py.readlines (l +:+ NL +:+ rest) = (l +:+ NL) :: Py.readlines rest.
Proof.
  induction l as [|c l IH]; intros Hl.
  { done. }
  apply nonl_cons in Hl as [Hc Hl]. rewrite !sapp_cons. cbn [Py.readlines].
  apply ascii_eqb_false in Hc as ->. by rewrite (IH Hl).
Qed.

Lemma readlines_unlines ls :
  Forall nonl ls → Py.readlines (unlines ls) = (λ l, l +:+ NL) <$> ls.
Proof.
  induction 1 as [|l ls Hl _ IH]; [done|].
  rewrite unlines_cons, readlines_line by done. by rewrite IH.
Qed.

(** ** The lines hold no line feed *)











(** ** The number of data lines *)




(** ** One write *)

Lemma open_file_spec out mode (fl : files) :
  open_file out mode fl
  = (<[ out := if String.eqb mode "w" then "" else default "" (fl !! out) ]> fl, Ok tt).
Proof.
  unfold open_file, isfile. destruct (String.eqb mode "w"); [done|]. cbn [orb].
  case_bool_decide as Hsome; cbn [negb].
  - destruct Hsome as [c Hc]. rewrite Hc. simpl. by rewrite insert_id.
  - apply eq_None_not_Some in Hsome. by rewrite Hsome.
Qed.

Lemma write_insert out s c (fl : files) :
  write out s (<[ out := c ]> fl) = (<[ out := c +:+ s ]> fl, Ok tt).
Proof. unfold write. by rewrite lookup_insert_eq, insert_insert_eq. Qed.

Lemma sapp_char a c b : (a +:+ String c "") +:+ b = a +:+ String c b.
Proof. by rewrite sapp_assoc. Qed.

Lemma write_data_spec self module data out mode (fl : files) h ds :
  data_lines self module data = Ok (h, ds) →
  write_data self module data out mode fl
  = (<[ out := (if String.eqb mode "w" then "" else default "" (fl !! out))
               +:+ unlines ((if String.eqb mode "w" then [h] else []) ++ ds) ]> fl, Ok tt).
Proof.
  unfold data_lines, write_data. destruct (String.eqb module basic_statistics).
  - destruct data as [items|]; [|done]. intros [= <- <-].
    unfold mbind'. rewrite open_file_spec.
    destruct (String.eqb mode "w"); unfold mbind', mret;
      repeat rewrite write_insert; cbn [app unlines foldr];
      by rewrite ?sapp_char, ?sapp_assoc.
  - destruct data as [|cols rows]; [done|].
    destruct (Py.one_char (col_sep self)) eqn:Hsep; [|done]. intros [= <- <-].
    unfold to_csv, mbind'. rewrite open_file_spec, Hsep, write_insert. unfold csv_text.
    rewrite fmap_app. by destruct (String.eqb mode "w").
Qed.

Lemma write_data_error self module data out mode (fl : files) e :
  data_lines self module data = Raise e →
  ∃ e', (write_data self module data out mode fl).2 = Raise e'.
Proof.
  unfold data_lines, write_data. destruct (String.eqb module basic_statistics).
  - destruct data; [done|]. simpl. eauto.
  - destruct data as [|cols rows]; [simpl; eauto|].
    unfold to_csv, mbind'. rewrite open_file_spec.
    destruct (Py.one_char (col_sep self)); try done; simpl; eauto.
Qed.

Lemma _process_mod_ok self f qc module out mode (fl fl' : files) qc' :
  _process_mod self f qc module out mode fl = (fl', Ok qc') →
  ∃ m t,
    Py.dict_get module (rep_modules qc) = Some m
    ∧ data_lines self module (annotate (rep_filestub qc) f (mod_data m)) = Ok t
    ∧ fl' !! out
      = Some ((if String.eqb mode "w" then "" else default "" (fl !! out))
              +:+ unlines ((if String.eqb mode "w" then [t.1] else []) ++ t.2)).
Proof.
  unfold _process_mod.
  destruct (negb _); [done|]. destruct (negb _); [done|].
  destruct (Py.dict_get _ _) as [m|]; [|done].
  destruct (data_lines self module (annotate (rep_filestub qc) f (mod_data m)))
    as [[h ds]|e] eqn:Hlines.
  - unfold mbind'. rewrite (write_data_spec _ _ _ _ _ _ _ _ Hlines).
    intros [= <- _]. exists m, (h, ds). by rewrite lookup_insert_eq.
  - destruct (write_data_error self module _ out mode fl e Hlines) as [e' He'].
    unfold mbind'. destruct (write_data _ _ _ _ _ _) as [fl1 [[]|e1]]; simpl in He'; done.
Qed.

Lemma process_one_ok self f qc module (fl fl' : files) qc' :
  process_one self f qc module fl = (fl', Ok qc') →
  ∃ m t,
    Py.dict_get module (rep_modules qc) = Some m
    ∧ data_lines self module (annotate (rep_filestub qc) f (mod_data m)) = Ok t
    ∧ fl' !! out_file self module = appended (fl !! out_file self module) t.
Proof.
  unfold process_one, isfile. case_bool_decide as Hsome.
  - destruct Hsome as [old Hold]. intros H.
    apply _process_mod_ok in H as (m & t & ? & ? & Hfl).
    exists m, t. split_and!; [done..|]. rewrite Hfl, Hold. done.
  - apply eq_None_not_Some in Hsome. intros H.
    apply _process_mod_ok in H as (m & t & ? & ? & Hfl).
    exists m, t. split_and!; [done..|]. rewrite Hfl, Hsome. done.
Qed.

(** ** The loop over the modules *)


(** ** The loop over the report files *)




(** ** The finished file *)





Lemma process_made_ok self modules fs fs' :
  process self modules fs = (fs', Ok tt) → (_make_sure_path_exists self fs).2 = Ok tt.
Proof.
  rewrite process_unfold. by destruct (_make_sure_path_exists self fs) as [fs1 [[]|e]].
Qed.

Lemma process_collate self modules fs fs' :
  process self modules fs = (fs', Ok tt) →
  collate self (requested self modules) (fs_files fs) = (fs_files fs', Ok tt).
Proof.
  intros H.
  destruct (process_files_result self modules fs (process_made_ok _ _ _ _ H)) as [H1 H2].
  rewrite H in H1, H2. simpl in H1, H2. rewrite H1, H2.
  by destruct (collate _ _ _).
Qed.




(** * The argument of [process] *)

Lemma keeps_mret {A} (a : A) : keeps (mret a).
Proof. by intros fl p. Qed.

Lemma keeps_mraise {A} e : keeps (mraise (A:=A) e).
Proof. by intros fl p. Qed.

Lemma keeps_mbind {A B} (c : M A) (k : A → M B) :
  keeps c → (∀ a, keeps (k a)) → keeps (mbind' c k).
Proof.
  intros Hc Hk fl p Hp. unfold mbind'. specialize (Hc fl p Hp).
  destruct (c fl) as [fl' [a|e]]; simpl in *; [|done]. by apply Hk.
Qed.

Lemma keeps_open_file path mode : keeps (open_file path mode).
Proof.
  intros fl p Hp. rewrite open_file_spec. simpl.
  destruct (decide (path = p)) as [->|Hne].
  - by rewrite lookup_insert_eq.
  - by rewrite lookup_insert_ne.
Qed.

Lemma keeps_write path s : keeps (write path s).
Proof.
  intros fl p Hp. unfold write. destruct (fl !! path) as [c|] eqn:E; [|done]. simpl.
  destruct (decide (path = p)) as [->|Hne].
  - by rewrite lookup_insert_eq.
  - by rewrite lookup_insert_ne.
Qed.

Lemma keeps_write_data self module data out mode :
  keeps (write_data self module data out mode).
Proof.
  unfold write_data, to_csv. destruct (String.eqb module basic_statistics).
  - destruct data; [|apply keeps_mraise].
    repeat (apply keeps_mbind; [|intros _]);
      try (destruct (String.eqb mode "w"));
      repeat (apply keeps_mbind; [|intros _]);
      auto using keeps_open_file, keeps_write, keeps_mret.
  - destruct data; [apply keeps_mraise|].
    apply keeps_mbind; [apply keeps_open_file|]. intros _.
    destruct (Py.one_char (col_sep self)); auto using keeps_mraise, keeps_write.
Qed.

Lemma keeps_process_one self f qc module : keeps (process_one self f qc module).
Proof.
  assert (∀ mode, keeps (_process_mod self f qc module (out_file self module) mode)) as H.
  { intros mode. unfold _process_mod.
    destruct (negb _); [apply keeps_mraise|].
    destruct (negb _); [apply keeps_mraise|].
    destruct (Py.dict_get _ _) as [m|]; [|apply keeps_mraise].
    apply keeps_mbind; [apply keeps_write_data|intros; apply keeps_mret]. }
  intros fl p Hp. unfold process_one. destruct (isfile _ _); by apply H.
Qed.

Lemma keeps_process_modules self f qc modules : keeps (process_modules self f qc modules).
Proof.
  revert qc. induction modules as [|module rest IH]; intros qc; [apply keeps_mret|].
  cbn [process_modules]. apply keeps_mbind; [apply keeps_process_one|done].
Qed.

Lemma keeps_process_files self fastqcfiles modules :
  keeps (process_files self fastqcfiles modules).
Proof.
  induction fastqcfiles as [|f rest IH]; [apply keeps_mret|].
  cbn [process_files]. apply keeps_mbind; [by intros fl p|]. intros qc.
  apply keeps_mbind; [apply keeps_process_modules|done].
Qed.

Lemma process_modules_written self f modules qc (fl fl' : files) qc' :
  process_modules self f qc modules fl = (fl', Ok qc') →
  ∀ module, module ∈ modules → is_Some (fl' !! out_file self module).
Proof.
  revert qc fl. induction modules as [|first rest IH]; intros qc fl Hrun module Hin.
  { by apply elem_of_nil in Hin. }
  rewrite process_modules_cons in Hrun.
  destruct (process_one self f qc first fl) as [fl1 [qc1|e]] eqn:E1; [|done].
  apply elem_of_cons in Hin as [->|Hin]; [|by eapply IH].
  destruct (process_one_ok _ _ _ _ _ _ _ E1) as (m & t & _ & _ & Hfl).
  replace fl' with (process_modules self f qc1 rest fl1).1 by (by rewrite Hrun).
  apply keeps_process_modules. by rewrite Hfl.
Qed.

Lemma process_files_written self f rest modules (fl fl' : files) :
  process_files self (f :: rest) modules fl = (fl', Ok tt) →
  ∀ module, module ∈ modules → is_Some (fl' !! out_file self module).
Proof.
  intros Hrun module Hin. rewrite process_files_cons in Hrun.
  destruct (fastqc_report_init fl f) as [qc|e]; [|done].
  destruct (process_modules self f qc modules fl) as [fl1 [qc1|e]] eqn:E1; [|done].
  replace fl' with (process_files self rest modules fl1).1 by (by rewrite Hrun).
  apply keeps_process_files. by eapply process_modules_written.
Qed.

(** C10. The argument of [process]: a bare string stands for the list that
    holds just that name, and no argument stands for the list of all
    modules of the universe: each run is, on every file system, the run on
    that list. In particular a run without argument that completes leaves
    an output file for every module of the universe, and a run on a bare
    string one for that module. *)
Theorem process_modules_argument self name :
  process self (OneModule name) = process self (ModuleList [name])
  ∧ process self NoModules = process self (ModuleList (col_modules self))
  ∧ (∀ fs fs',
       col_fastqcfiles self ≠ [] →
       process self NoModules fs = (fs', Ok tt) →
       ∀ module, module ∈ col_modules self →
                 isfile (fs_files fs') (out_file self module) = true)
  ∧ (∀ fs fs',
       col_fastqcfiles self ≠ [] →
       process self (OneModule name) fs = (fs', Ok tt) →
       isfile (fs_files fs') (out_file self name) = true).
Proof.
  assert (∀ modules fs fs',
       col_fastqcfiles self ≠ [] →
       process self modules fs = (fs', Ok tt) →
       ∀ module, module ∈ requested self modules →
                 isfile (fs_files fs') (out_file self module) = true) as Hwritten.
  { intros modules fs fs' Hfiles Hrun module Hin.
    apply process_collate in Hrun. rewrite collate_unfold in Hrun.
    destruct (col_fastqcfiles self) as [|f rest]; [done|].
    apply bool_decide_eq_true. by eapply process_files_written. }
  split_and!; [done|done|..].
  - intros fs fs' Hfiles Hrun module Hin. by eapply (Hwritten NoModules).
  - intros fs fs' Hfiles Hrun. eapply (Hwritten (OneModule name)); [done..|left].
Qed.

Lemma process_modules_argument_witness :
  process two_collation (OneModule "Basic Statistics") two_fs
  = process two_collation (ModuleList ["Basic Statistics"]) two_fs
  ∧ isfile (fs_files (process two_collation NoModules two_fs).1)
      (out_file two_collation "Per base N content") = true
  ∧ isfile (fs_files (process two_collation (OneModule "Basic Statistics") two_fs).1)
      (out_file two_collation "Basic Statistics") = true.
Proof.
  pose proof (process_modules_argument two_collation "Basic Statistics")
    as (Hone & _ & Hall & Hname).
  split; [by rewrite Hone|]. split.
  - apply (Hall two_fs); [done| |right; left].
    apply injective_projections; [reflexivity|vm_compute; reflexivity].
  - apply (Hname two_fs); [done|].
    apply injective_projections; [reflexivity|vm_compute; reflexivity].
Defined.

(** * More on the parser *)

(** ** Lines without their terminators *)

Lemma lstrip_line x : Py.lstrip (x +:+ NL) = "" ↔ Py.lstrip x = "".
Proof.
  induction x as [x H|x t H IH] using space_ind.
  - rewrite (lstrip_none x) by done. split.
    + destruct x as [|c x]; [done|]. intros Hnl.
      destruct (Py.space_head (String c x +:+ NL)) as [u|] eqn:E.
      * apply space_head_boundary in E as (u' & E' & _); [congruence|done|done].
      * by rewrite lstrip_none in Hnl.
    + by intros ->.
  - by rewrite (lstrip_some _ _ H), (lstrip_some _ _ (space_head_app _ NL _ H)).
Qed.

Lemma rstrip_line l : Py.rstrip (l +:+ NL) = Py.rstrip l.
Proof.
  induction l as [|c l IH]; [done|]. rewrite sapp_cons. cbn [Py.rstrip].
  rewrite IH, <-sapp_cons. pose proof (lstrip_line (String c l)) as Hiff.
  destruct (Py.lstrip (String c l +:+ NL)), (Py.lstrip (String c l)); try done.
  - destruct Hiff as [H1 _]. by specialize (H1 eq_refl).
  - destruct Hiff as [_ H2]. by specialize (H2 eq_refl).
Qed.

Lemma strip_line l : Py.strip (l +:+ NL) = Py.strip l.
Proof. unfold Py.strip. by rewrite rstrip_line. Qed.

Lemma scan_line_terminated st l : scan_line st (l +:+ NL) = scan_line st l.
Proof. unfold scan_line. by rewrite strip_line. Qed.

Lemma scan_lines_terminated st ls :
  scan_lines st ((λ l, l +:+ NL) <$> ls) = scan_lines st ls.
Proof.
  revert st. induction ls as [|l ls IH]; intros st; [done|].
  rewrite fmap_cons. cbn [scan_lines]. rewrite scan_line_terminated.
  destruct (scan_line st l); [|done]. apply IH.
Qed.

Lemma parse_unlines ls :
  Forall nonl ls →
  _process_fastqc_report (unlines ls)
  = (st ←r scan_lines scan_start ls; Ok (sc_modules st)).
Proof.
  intros Hls. unfold _process_fastqc_report.
  by rewrite readlines_unlines, scan_lines_terminated.
Qed.

(** ** Lines that are no end marker *)









(** ** Lines after the last end marker *)

Lemma scan_line_well_opened st raw :
  Py.strip raw ≠ end_module → well_opened raw →
  ∃ st', scan_line st raw = Ok st' ∧ sc_modules st' = sc_modules st.
Proof.
  intros Hend Hopen. unfold well_opened in Hopen. unfold scan_line.
  destruct (is_open_line (Py.strip raw)).
  { specialize (Hopen eq_refl).
    destruct (Py.split _ _) as [|module [|status [|? ?]]]; try done. by eexists. }
  destruct (is_header_line _); [by eexists|].
  destruct (String.eqb_spec (Py.strip raw) end_module); [done|]. by eexists.
Qed.

Lemma scan_segment_well_opened seg st :
  Forall (λ raw, Py.strip raw ≠ end_module) seg → Forall well_opened seg →
  ∃ st', scan_lines st seg = Ok st' ∧ sc_modules st' = sc_modules st.
Proof.
  intros Hseg. revert st. induction Hseg as [|raw seg Hend _ IH]; intros st Hopen.
  { by exists st. }
  apply Forall_cons in Hopen as [Hraw Hopen].
  destruct (scan_line_well_opened st raw Hend Hraw) as (st1 & E1 & Hm).
  destruct (IH st1 Hopen) as (st2 & E2 & Hm2).
  exists st2. cbn [scan_lines]. rewrite E1. simpl. split; [done|]. by rewrite Hm2.
Qed.

Lemma scan_line_ill_opened st bad :
  is_open_line (Py.strip bad) = true →
  length (Py.split Py.tab (Py.drop 2 (Py.strip bad))) ≠ 2 →
  scan_line st bad = Raise (ValueError "unpack").
Proof.
  intros Hopen Hbad. unfold scan_line. rewrite Hopen.
  by destruct (Py.split _ _) as [|module [|status [|? ?]]].
Qed.

Lemma text_lines_nonl ls : Forall text_line ls → Forall nonl ls.
Proof. intros H. eapply Forall_impl; [exact H|]. by intros l [? _]. Qed.

(** X2. Text after the last end marker is dropped without notice. Lines
    that are no end marker, appended to a report, change neither the parsed
    modules nor the error, as long as those of them that open a module
    hold a name and a status: so a module that lacks its end marker is
    lost, with its header line and its rows. The first appended opening
    line that does not hold exactly a name and a status makes the parser
    fail with [ValueError], unless the report failed before. *)
Theorem unterminated_tail_is_dropped ls seg :
  Forall text_line (ls ++ seg) →
  Forall (λ raw, Py.strip raw ≠ end_module) seg →
  (Forall well_opened seg →
   _process_fastqc_report (unlines (ls ++ seg)) = _process_fastqc_report (unlines ls))
  ∧ (∀ seg1 bad seg2,
       seg = seg1 ++ bad :: seg2 → Forall well_opened seg1 → ¬ well_opened bad →
       _process_fastqc_report (unlines (ls ++ seg))
       = (_ ←r _process_fastqc_report (unlines ls); Raise (ValueError "unpack"))).
Proof.
  intros Htext%text_lines_nonl Hseg. pose proof Htext as [Hls _]%Forall_app.
  rewrite (parse_unlines _ Htext), (parse_unlines _ Hls), scan_lines_app.
  destruct (scan_lines scan_start ls) as [st1|e]; [|done]. cbn [rbind]. split.
  - intros Hopen.
    destruct (scan_segment_well_opened seg st1 Hseg Hopen) as (st2 & E & Hm).
    rewrite E. cbn [rbind]. by rewrite Hm.
  - intros seg1 bad seg2 -> Hopen Hbad.
    apply Forall_app in Hseg as [Hseg1 _].
    destruct (scan_segment_well_opened seg1 st1 Hseg1 Hopen) as (st2 & E & _).
    rewrite scan_lines_app, E. cbn [rbind scan_lines].
    rewrite scan_line_ill_opened; [done| |].
    + destruct (is_open_line (Py.strip bad)) eqn:Ho; [done|]. destruct Hbad.
      unfold well_opened. by rewrite Ho.
    + intros Hlen. apply Hbad. by intros _.
Qed.

Lemma unterminated_tail_is_dropped_witness :
  _process_fastqc_report
    (unlines (section_lines gc_section
              ++ [">>Per base N content" +:+ TAB +:+ "pass"; "#Base" +:+ TAB +:+ "N-Count";
                  "1" +:+ TAB +:+ "0.0"]))
  = _process_fastqc_report (unlines (section_lines gc_section))
  ∧ _process_fastqc_report
      (unlines (section_lines gc_section ++ ["#Base"; ">>Per base N content"; "1"]))
    = Raise (ValueError "unpack").
Proof.
  split.
  - apply (proj1 (unterminated_tail_is_dropped (section_lines gc_section)
                    [">>Per base N content" +:+ TAB +:+ "pass"; "#Base" +:+ TAB +:+ "N-Count";
                     "1" +:+ TAB +:+ "0.0"]
                    ltac:(repeat constructor)
                    ltac:(repeat constructor; vm_compute; discriminate))).
    repeat (apply Forall_cons_2;
            [first [ intros _; vm_compute; reflexivity
                   | intros Hopen; vm_compute in Hopen; discriminate Hopen ]|]).
    constructor.
  - apply (proj2 (unterminated_tail_is_dropped (section_lines gc_section)
                    ["#Base"; ">>Per base N content"; "1"]
                    ltac:(repeat constructor)
                    ltac:(repeat constructor; vm_compute; discriminate))
             ["#Base"] ">>Per base N content" ["1"] eq_refl).
    + apply Forall_cons_2; [|constructor].
      intros Hopen. vm_compute in Hopen. discriminate Hopen.
    + intros Hbad. specialize (Hbad eq_refl). vm_compute in Hbad. discriminate Hbad.
Defined.

(** * From report text to modules and back *)

(** ** Splitting a joined row *)

Lemma split_notab x : Py.mem Py.tab x = false → Py.split Py.tab x = [x].
Proof.
  induction x as [|c x IH]; [done|]. cbn [Py.mem Py.split].
  intros [Hc Hx]%orb_false_iff. by rewrite Hc, (IH Hx).
Qed.

Lemma split_app_tab x rest :
  Py.mem Py.tab x = false → Py.split Py.tab (x +:+ TAB +:+ rest) = x :: Py.split Py.tab rest.
Proof.
  induction x as [|c x IH]; [done|]. cbn [Py.mem].
  intros [Hc Hx]%orb_false_iff. rewrite sapp_cons. cbn [Py.split].
  by rewrite Hc, (IH Hx).
Qed.

Lemma join_cons2 sep x y l :
  Py.join sep (x :: y :: l) = x +:+ sep +:+ Py.join sep (y :: l).
Proof. done. Qed.

Lemma split_join fields :
  fields ≠ [] → Forall (λ x, Py.mem Py.tab x = false) fields →
  Py.split Py.tab (Py.join TAB fields) = fields.
Proof.
  intros Hne Hall. induction Hall as [|x fields Hx Hall IH]; [done|].
  destruct fields as [|y fields]; [by apply split_notab|].
  rewrite join_cons2, split_app_tab by done. by rewrite IH.
Qed.

(** ** A joined row is already stripped *)

Lemma starts_space_app s t :
  s ≠ EmptyString → starts_low t = true → starts_space (s +:+ t) = starts_space s.
Proof.
  intros Hs Ht. unfold starts_space. destruct (Py.space_head s) as [u|] eqn:E.
  { by rewrite (space_head_app _ t _ E). }
  destruct (Py.space_head (s +:+ t)) as [u|] eqn:E'; [|done].
  apply space_head_boundary in E' as (u' & E'' & _); [congruence|done|done].
Qed.

Lemma one_space_across s t :
  s ≠ EmptyString → t ≠ EmptyString → starts_low t = true → one_space (s +:+ t) = false.
Proof.
  intros Hs Ht Hlow. unfold one_space.
  destruct (Py.space_head (s +:+ t)) as [[|c u]|] eqn:E; [|done..].
  apply space_head_boundary in E as (u' & _ & Hu); [|done..].
  by destruct u', t.
Qed.

(** A low byte is never inside a white space character, so what comes
    before it does not matter for the end of the string. *)
Lemma ends_space_app s t :
  t ≠ EmptyString → starts_low t = true → ends_space (s +:+ t) = ends_space t.
Proof.
  intros Ht Hlow. induction s as [|c s IH]; [done|]. rewrite sapp_cons. cbn [ends_space].
  by rewrite IH, <-sapp_cons, one_space_across.
Qed.

Lemma ends_space_low c t :
  low c = true → t ≠ EmptyString → ends_space (String c t) = ends_space t.
Proof.
  intros Hc Ht. cbn [ends_space]. unfold one_space.
  destruct (Py.space_head (String c t)) as [[|d u]|] eqn:E; [|done..].
  apply space_head_low in E as [<- _]; done.
Qed.

Lemma sapp_not_nil_l s t : s ≠ EmptyString → s +:+ t ≠ EmptyString.
Proof. by destruct s. Qed.

Lemma join_not_nil x fields : x ≠ EmptyString → Py.join TAB (x :: fields) ≠ EmptyString.
Proof. intros Hx. destruct fields; [done|]. rewrite join_cons2. by apply sapp_not_nil_l. Qed.

Lemma join_starts x fields :
  x ≠ EmptyString → starts_space (Py.join TAB (x :: fields)) = starts_space x.
Proof. intros Hx. destruct fields; [done|]. rewrite join_cons2. by apply starts_space_app. Qed.

Lemma join_ends fields :
  fields ≠ [] → Forall plain fields → ends_space (Py.join TAB fields) = false.
Proof.
  intros Hne Hall. induction Hall as [|x fields Hx Hall IH]; [done|].
  destruct fields as [|y fields]; [apply Hx|].
  assert (Py.join TAB (y :: fields) ≠ EmptyString) as HJ.
  { apply join_not_nil. apply Forall_cons in Hall as [Hy _]. apply Hy. }
  rewrite join_cons2, ends_space_app; [|done|done].
  change (TAB +:+ ?t) with (String Py.tab t). rewrite ends_space_low; [|done|done].
  by apply IH.
Qed.

Lemma strip_trimmed s :
  starts_space s = false → ends_space s = false → Py.strip s = s.
Proof. intros Hs He. unfold Py.strip. rewrite (rstrip_id _ He). by apply lstrip_id. Qed.

Lemma plain_fields_notab fields :
  Forall plain fields → Forall (λ x, Py.mem Py.tab x = false) fields.
Proof. intros H. eapply Forall_impl; [exact H|]. by intros x (_ & ? & _). Qed.

Lemma plain_fields_nonl fields : Forall plain fields → Forall nonl fields.
Proof. intros H. eapply Forall_impl; [exact H|]. by intros x (_ & _ & ? & _). Qed.

Lemma strip_join fields :
  fields ≠ [] → Forall plain fields → Py.strip (Py.join TAB fields) = Py.join TAB fields.
Proof.
  intros Hne Hall. apply strip_trimmed; [|by apply join_ends].
  destruct fields as [|x fields]; [done|]. apply Forall_cons in Hall as [Hx _].
  rewrite join_starts; apply Hx.
Qed.

(** ** The tests of the loop as prefix tests *)

Lemma take_eqb_startswith p s :
  String.eqb (Py.take (String.length p) s) p = Py.startswith p s.
Proof.
  revert s. induction p as [|a p IH]; intros s.
  { by destruct s. }
  destruct s as [|c s]; [done|]. cbn [String.length Py.startswith].
  change (Py.take (S (String.length p)) (String c s))
    with (String c (Py.take (String.length p) s)).
  cbn [String.eqb]. rewrite IH, (Ascii.eqb_sym c a). by destruct (Ascii.eqb a c).
Qed.

Lemma is_open_line_startswith l :
  is_open_line l = Py.startswith ">>" l && negb (Py.startswith end_module l).
Proof.
  unfold is_open_line.
  by rewrite <-(take_eqb_startswith ">>"), <-(take_eqb_startswith end_module).
Qed.

Lemma is_header_line_startswith l : is_header_line l = Py.startswith "#" l.
Proof. unfold is_header_line. by rewrite <-(take_eqb_startswith "#"). Qed.

Lemma startswith_char_app c s t :
  s ≠ EmptyString →
  Py.startswith (String c EmptyString) (s +:+ t) = Py.startswith (String c EmptyString) s.
Proof.
  intros Hs. destruct s as [|d s]; [done|]. rewrite sapp_cons. by destruct s, t.
Qed.

Lemma startswith_before_tab p n t :
  Py.mem Py.tab p = false →
  Py.startswith p (n +:+ TAB +:+ t) = true → Py.startswith p n = true.
Proof.
  revert n. induction p as [|a p IH]; intros n Hp; [done|].
  cbn [Py.mem] in Hp. apply orb_false_iff in Hp as [Ha Hp].
  destruct n as [|b n].
  - change (EmptyString +:+ TAB +:+ t) with (String Py.tab t). cbn [Py.startswith].
    by rewrite Ha.
  - rewrite sapp_cons. cbn [Py.startswith].
    intros [-> ?]%andb_true_iff. simpl. by apply IH.
Qed.

(** ** The lines of a section, one at a time *)

Lemma startswith_2_1 s : Py.startswith ">>" s = true → Py.startswith ">" s = true.
Proof.
  destruct s as [|c s]; [done|]. cbn [Py.startswith].
  intros [-> _]%andb_true_iff. by destruct s.
Qed.

Lemma join_startswith_char c x fields :
  x ≠ EmptyString →
  Py.startswith (String c EmptyString) (Py.join TAB (x :: fields))
  = Py.startswith (String c EmptyString) x.
Proof.
  intros Hx. destruct fields; [done|]. rewrite join_cons2. by apply startswith_char_app.
Qed.

Lemma row_is_data r :
  plain_row r →
  Py.strip (Py.join TAB r) = Py.join TAB r
  ∧ is_data_line (Py.join TAB r) = true
  ∧ Py.split Py.tab (Py.join TAB r) = r.
Proof.
  intros (Hne & Hall & Hopen & Hhead).
  assert (Py.strip (Py.join TAB r) = Py.join TAB r) as Hstrip by by apply strip_join.
  split; [done|]. split; [|by apply split_join, plain_fields_notab].
  destruct r as [|x r]; [done|]. apply Forall_cons in Hall as [Hx _].
  destruct Hx as (Hx & _). cbn [List.hd] in Hopen, Hhead.
  assert (Py.startswith ">" (Py.join TAB (x :: r)) = false) as H1
    by by rewrite join_startswith_char.
  unfold is_data_line. rewrite Hstrip, is_open_line_startswith, is_header_line_startswith.
  rewrite join_startswith_char, Hhead by done.
  destruct (Py.startswith ">>" (Py.join TAB (x :: r))) eqn:H2.
  { apply startswith_2_1 in H2. congruence. }
  destruct (String.eqb_spec (Py.join TAB (x :: r)) end_module) as [E|]; [|done].
  by rewrite E in H1.
Qed.

Lemma scan_rows st rows :
  Forall plain_row rows →
  scan_lines st (Py.join TAB <$> rows)
  = Ok (Build_scan (sc_module st) (sc_status st) (sc_cols st) (sc_lines st ++ rows)
          (sc_modules st)).
Proof.
  intros Hrows. revert st. induction Hrows as [|r rows Hr _ IH]; intros st.
  { rewrite app_nil_r. by destruct st. }
  destruct (row_is_data r Hr) as (Hstrip & Hdata & Hsplit).
  rewrite fmap_cons. cbn [scan_lines]. rewrite (scan_line_data _ _ Hdata), Hstrip, Hsplit.
  cbn [rbind]. rewrite IH. unfold buffer. simpl. by rewrite <-app_assoc.
Qed.

Lemma scan_opening st name status :
  plain name → Py.startswith "END_MODULE" name = false → plain status →
  scan_line st (">>" +:+ name +:+ TAB +:+ status)
  = Ok (Build_scan (Some name) (Some status) (sc_cols st) (sc_lines st) (sc_modules st)).
Proof.
  intros (Hn & Hntab & _) Hend (Hs & Hstab & _ & _ & Hsend & _).
  set (l := ">>" +:+ name +:+ TAB +:+ status).
  assert (Py.strip l = l) as Hstrip.
  { apply strip_trimmed; [done|]. unfold l.
    rewrite <-(sapp_assoc ">>" name), ends_space_app; [|done|done].
    change (TAB +:+ status) with (String Py.tab status).
    by rewrite ends_space_low. }
  assert (is_open_line l = true) as Hopen.
  { rewrite is_open_line_startswith. apply andb_true_iff. split; [done|].
    apply negb_true_iff. destruct (Py.startswith end_module l) eqn:E; [|done].
    change (Py.startswith end_module l)
      with (Py.startswith "END_MODULE" (name +:+ TAB +:+ status)) in E.
    apply startswith_before_tab in E; [congruence|done]. }
  unfold scan_line. rewrite Hstrip, Hopen.
  change (Py.drop 2 l) with (name +:+ TAB +:+ status).
  by rewrite split_app_tab, split_notab.
Qed.

Lemma scan_header st cols :
  cols ≠ [] → Forall plain cols →
  scan_line st ("#" +:+ Py.join TAB cols)
  = Ok (Build_scan (sc_module st) (sc_status st) (Some cols) (sc_lines st) (sc_modules st)).
Proof.
  intros Hne Hcols. set (l := "#" +:+ Py.join TAB cols).
  assert (Py.join TAB cols ≠ EmptyString) as HJ.
  { destruct cols as [|c cols]; [done|]. apply join_not_nil.
    apply Forall_cons in Hcols as [Hc _]. apply Hc. }
  assert (Py.strip l = l) as Hstrip.
  { apply strip_trimmed; [done|]. unfold l.
    change ("#" +:+ ?t) with (String "#"%char t). rewrite ends_space_low; [|done|done].
    by apply join_ends. }
  unfold scan_line. rewrite Hstrip, is_open_line_startswith, is_header_line_startswith.
  change (Py.startswith ">>" l) with false. change (Py.startswith "#" l) with true.
  cbn [andb]. cbv iota.
  change (Py.drop 1 l) with (Py.join TAB cols).
  rewrite split_join; [done|done|by apply plain_fields_notab].
Qed.

(** ** The constructor on regular rows *)

Lemma pad_full w r : length r = w → Pd.pad w r = r.
Proof. intros <-. unfold Pd.pad. by rewrite Nat.sub_diag, app_nil_r. Qed.

Lemma max_list_constant (w : nat) (ns : list nat) :
  ns ≠ [] → Forall (λ n, n = w) ns → max_list ns = w.
Proof.
  intros Hne Hall. induction Hall as [|n ns -> Hall IH]; [done|].
  destruct ns as [|m ns]; [simpl; lia|]. simpl in *. rewrite IH by done. lia.
Qed.

Lemma fastqc_module_init_regular x :
  regular x →
  fastqc_module_init (sec_name x) (sec_status x) (sec_cols x) (sec_rows x)
  = Ok (section_module x).
Proof.
  unfold regular, fastqc_module_init, section_module.
  destruct (String.eqb (sec_name x) basic_statistics).
  - intros [Hne Hrows]. unfold Pd.Series_init.
    destruct (sec_rows x) as [|r rs]; [done|].
    apply Forall_cons in Hrows as [Hr Hrs]. rewrite Hr.
    assert (forallb (λ r', length r' =? 2) rs = true) as ->; [|done].
    clear Hne. induction Hrs as [|r' rs Hr' _ IH]; [done|]. simpl. by rewrite Hr', IH.
  - intros Hrows. unfold Pd.DataFrame_init.
    destruct (sec_rows x) as [|r rs] eqn:E; [done|].
    rewrite (max_list_constant (length (sec_cols x))); [|done|by apply Forall_fmap].
    rewrite Nat.eqb_refl. cbn [rbind]. do 3 f_equal.
    apply list_eq. intros i. rewrite list_lookup_fmap.
    destruct ((r :: rs) !! i) as [r'|] eqn:Ei; [|done]. simpl. f_equal.
    apply pad_full. rewrite Forall_forall in Hrows. apply Hrows.
    by eapply list_elem_of_lookup_2.
Qed.

(** ** A whole section, a whole report *)

Lemma nonl_section_lines x : plain_section x → Forall nonl (section_lines x).
Proof.
  intros (Hn & _ & Hs & _ & Hcols & Hrows). unfold section_lines.
  assert (∀ fields, Forall plain fields → nonl (Py.join TAB fields)) as Hjoin.
  { intros fields Hf. apply nonl_join; [done|]. by apply plain_fields_nonl. }
  repeat apply Forall_cons_2; [| |apply Forall_app_2; [|by repeat constructor]].
  - rewrite !nonl_app. split_and!; [done|apply Hn|done|apply Hs].
  - apply nonl_app. split; [done|]. by apply Hjoin.
  - apply Forall_fmap. eapply Forall_impl; [exact Hrows|]. intros r (_ & Hr & _).
    by apply Hjoin.
Qed.

Lemma scan_section st x :
  plain_section x → sc_lines st = [] →
  scan_lines st (section_lines x)
  = (m ←r fastqc_module_init (sec_name x) (sec_status x) (sec_cols x) (sec_rows x);
     Ok (Build_scan (Some (sec_name x)) (Some (sec_status x)) (Some (sec_cols x)) []
           (Py.dict_set (sec_name x) m (sc_modules st)))).
Proof.
  intros (Hn & Hend & Hs & Hne & Hcols & Hrows) Hlines. unfold section_lines.
  cbn [app scan_lines]. rewrite scan_opening by done. cbn [rbind].
  rewrite scan_header by done. cbn [rbind].
  rewrite scan_lines_app, scan_rows by done. cbn [rbind scan_lines].
  rewrite Hlines. cbn [app sc_lines].
  unfold scan_line. change (Py.strip end_module) with end_module.
  change (is_open_line end_module) with false.
  change (is_header_line end_module) with false.
  change (String.eqb end_module end_module) with true. cbv iota. cbn [sc_module sc_status sc_cols sc_lines sc_modules].
  by destruct (fastqc_module_init _ _ _ _).
Qed.

Lemma dict_set_fresh {V} k (v : V) d :
  k ∉ Py.dict_keys d → Py.dict_set k v d = d ++ [(k, v)].
Proof.
  unfold Py.dict_keys. induction d as [|[k' v'] d IH]; [done|].
  rewrite fmap_cons. intros [Hne Hd]%not_elem_of_cons. simpl.
  destruct (String.eqb_spec k' k) as [->|]; [done|]. by rewrite IH.
Qed.

Lemma scan_sections xs st :
  Forall plain_section xs → Forall regular xs →
  NoDup (Py.dict_keys (sc_modules st) ++ (sec_name <$> xs)) →
  sc_lines st = [] →
  ∃ st', scan_lines st (xs ≫= section_lines) = Ok st'
         ∧ sc_modules st' = sc_modules st ++ ((λ x, (sec_name x, section_module x)) <$> xs).
Proof.
  intros Hplain. revert st. induction Hplain as [|x xs Hx _ IH]; intros st Hreg Hnodup Hlines.
  { exists st. by rewrite app_nil_r. }
  apply Forall_cons in Hreg as [Hrx Hreg].
  rewrite bind_cons, scan_lines_app, scan_section, fastqc_module_init_regular by done.
  cbn [rbind].
  assert (sec_name x ∉ Py.dict_keys (sc_modules st)) as Hfresh.
  { apply NoDup_app in Hnodup as (_ & Hdisj & _). intros Hin.
    apply (Hdisj _ Hin). rewrite fmap_cons. left. }
  rewrite dict_set_fresh by done.
  edestruct (IH (Build_scan (Some (sec_name x)) (Some (sec_status x)) (Some (sec_cols x)) []
                   (sc_modules st ++ [(sec_name x, section_module x)])))
    as (st' & E & Hm); [done| |done|].
  - cbn [sc_modules]. unfold Py.dict_keys in *. rewrite fmap_app, <-app_assoc. exact Hnodup.
  - exists st'. split; [done|]. rewrite Hm. cbn [sc_modules]. by rewrite <-app_assoc.
Qed.

Lemma parse_report_text xs :
  Forall plain_section xs → Forall regular xs → NoDup (sec_name <$> xs) →
  _process_fastqc_report (report_text xs)
  = Ok ((λ x, (sec_name x, section_module x)) <$> xs).
Proof.
  intros Hplain Hreg Hnodup. unfold report_text. rewrite parse_unlines.
  - destruct (scan_sections xs scan_start Hplain Hreg Hnodup eq_refl) as (st' & -> & Hm).
    cbn [rbind]. by rewrite Hm.
  - apply Forall_bind. eapply Forall_impl; [exact Hplain|]. apply nonl_section_lines.
Qed.

(** X3. Round trip on the content of a report. The text of modules with
    distinct names, written with plain fields in the layout of a report
    (opening line, header line, one line per row, end marker), parses to
    exactly these modules, in their order: each under its name, with its
    status and column labels, and with its rows unchanged as the rows of
    the table (for the key-value module, as the record of its keys and
    values). *)
Theorem report_text_round_trip xs :
  Forall plain_section xs → Forall regular xs → NoDup (sec_name <$> xs) →
  _process_fastqc_report (report_text xs)
  = Ok ((λ x, (sec_name x, section_module x)) <$> xs).
Proof. apply parse_report_text. Qed.

Ltac plain_concrete :=
  repeat first [ split | constructor ]; first [ discriminate | reflexivity ].

Lemma report_text_round_trip_witness :
  _process_fastqc_report (report_text [basic_section "sample1.fastq.gz"; gc_section])
  = Ok [ ("Basic Statistics",
          Build_module "Basic Statistics" "pass" ["Measure"; "Value"]
            (Series [("Filename", "sample1.fastq.gz"); ("Total Sequences", "1000");
                     ("Filtered Sequences", "0"); ("Sequence length", "36");
                     ("%GC", "47")]));
         ("Per sequence GC content",
          Build_module "Per sequence GC content" "warn" ["GC Content"; "Count"]
            (DataFrame ["GC Content"; "Count"] [["0"; "12.0"]; ["1"; "30.5"]; ["2"; "48.0"]])) ].
Proof.
  apply (report_text_round_trip [basic_section "sample1.fastq.gz"; gc_section]).
  - plain_concrete.
  - plain_concrete.
  - apply (bool_decide_unpack _). vm_compute. exact I.
Defined.

(** * The parsed modules *)

(** ** The dict of modules *)

Lemma dict_get_set_eq {V} k (v : V) d : Py.dict_get k (Py.dict_set k v d) = Some v.
Proof.
  induction d as [|[k' v'] d IH]; simpl.
  - by rewrite String.eqb_refl.
  - destruct (String.eqb k' k) eqn:E; simpl; by rewrite E.
Qed.

Lemma dict_keys_set {V} k (v : V) d :
  Py.dict_keys (Py.dict_set k v d)
  = if decide (k ∈ Py.dict_keys d) then Py.dict_keys d else Py.dict_keys d ++ [k].
Proof.
  unfold Py.dict_keys. induction d as [|[k' v'] d IH]; [done|].
  cbn [Py.dict_set]. destruct (String.eqb_spec k' k) as [->|Hne]; rewrite !fmap_cons.
  - rewrite decide_True; [done|left].
  - rewrite IH. cbn [fst]. destruct (decide (k ∈ d.*1)) as [Hin|Hnot].
    + rewrite decide_True; [done|by right].
    + rewrite decide_False; [done|]. by intros [?|?]%elem_of_cons.
Qed.

Lemma dict_keys_set_NoDup {V} k (v : V) d :
  NoDup (Py.dict_keys d) → NoDup (Py.dict_keys (Py.dict_set k v d)).
Proof.
  intros Hd. rewrite dict_keys_set. destruct (decide _) as [|Hnot]; [done|].
  apply NoDup_app. split_and!; [done| |apply NoDup_singleton].
  intros x Hx ->%list_elem_of_singleton. done.
Qed.

Lemma Forall_dict_set_key {V} (P : string * V → Prop) k v (d : list (string * V)) :
  P (k, v) → Forall P d → Forall P (Py.dict_set k v d).
Proof.
  intros Hv. induction 1 as [|[k' v'] d Hx Hd IH]; simpl.
  { by repeat constructor. }
  destruct (String.eqb_spec k' k) as [->|]; constructor; auto.
Qed.

Lemma dict_get_keys {V} k (d : list (string * V)) :
  is_Some (Py.dict_get k d) ↔ k ∈ Py.dict_keys d.
Proof.
  unfold Py.dict_keys. induction d as [|[k' v'] d IH]; simpl.
  { split; [by intros [? ?]|by intros ?%elem_of_nil]. }
  destruct (String.eqb_spec k' k) as [->|Hne].
  - split; [left|by eexists].
  - rewrite IH. split; [by right|]. by intros [?|?]%elem_of_cons.
Qed.

(** ** The constructor *)

Lemma length_pad w r : length r ≤ w → length (Pd.pad w r) = w.
Proof. intros H. unfold Pd.pad. rewrite length_app, length_replicate. lia. Qed.

Lemma fastqc_module_init_shape module status cols lines m :
  fastqc_module_init module status cols lines = Ok m → module_shape module m.
Proof.
  unfold fastqc_module_init, module_shape.
  destruct (String.eqb module basic_statistics).
  - unfold Pd.Series_init. destruct lines as [|r rs]; [done|].
    destruct (forallb _ _); [|done]. destruct (2 <=? _); [|done].
    cbn [rbind]. intros [= <-]. split; [done|]. by eexists.
  - unfold Pd.DataFrame_init. destruct lines as [|r rs].
    { cbn [rbind]. intros [= <-]. split; [done|]. by eexists. }
    destruct (Nat.eqb_spec (max_list (length <$> r :: rs)) (length cols)) as [Hw|]; [|done].
    cbn [rbind]. intros [= <-]. split; [done|]. eexists. split; [done|].
    cbn [mod_cols]. rewrite <-Hw.
    change (Forall (λ r0, length r0 = max_list (length <$> r :: rs))
              (Pd.pad (max_list (length <$> r :: rs)) <$> (r :: rs))).
    apply Forall_fmap, Forall_forall. intros r' Hr'. cbv beta.
    apply length_pad, max_list_elem_of_le. by apply list_elem_of_fmap_2.
Qed.

(** ** The invariant of the loop *)

Lemma scan_line_modules st raw st' :
  scan_line st raw = Ok st' →
  NoDup (Py.dict_keys (sc_modules st)) →
  Forall (λ km, module_shape km.1 km.2) (sc_modules st) →
  NoDup (Py.dict_keys (sc_modules st'))
  ∧ Forall (λ km, module_shape km.1 km.2) (sc_modules st').
Proof.
  intros Hstep Hnodup Hshape.
  destruct (String.eqb_spec (Py.strip raw) end_module) as [Hend|Hend].
  - destruct (scan_line_end _ _ _ Hend Hstep)
      as (module & status & cols & m & _ & _ & _ & Hinit & -> & _).
    split; [by apply dict_keys_set_NoDup|].
    apply Forall_dict_set_key; [|done]. by eapply fastqc_module_init_shape.
  - destruct (scan_line_not_end _ _ _ Hend Hstep) as [_ ->]. done.
Qed.

Lemma scan_lines_modules raws st st' :
  scan_lines st raws = Ok st' →
  NoDup (Py.dict_keys (sc_modules st)) →
  Forall (λ km, module_shape km.1 km.2) (sc_modules st) →
  NoDup (Py.dict_keys (sc_modules st'))
  ∧ Forall (λ km, module_shape km.1 km.2) (sc_modules st').
Proof.
  revert st. induction raws as [|raw raws IH]; intros st; cbn [scan_lines].
  { by intros [= <-]. }
  destruct (scan_line st raw) as [st1|] eqn:E1; [|done]. cbn [rbind].
  intros Hrest Hnodup Hshape.
  destruct (scan_line_modules _ _ _ E1 Hnodup Hshape). by apply (IH st1).
Qed.

Lemma _process_fastqc_report_shape content modules :
  _process_fastqc_report content = Ok modules →
  NoDup (Py.dict_keys modules) ∧ Forall (λ km, module_shape km.1 km.2) modules.
Proof.
  unfold _process_fastqc_report.
  destruct (scan_lines scan_start (Py.readlines content)) as [st|] eqn:E; [|done].
  cbn [rbind]. intros [= <-].
  eapply scan_lines_modules; [exact E|constructor|constructor].
Qed.

(** X4. Whatever the content of the file, when it parses, the names of the
    modules are distinct keys, each module is stored under its own name,
    the module named Basic Statistics holds a key-value record with at
    least one entry, and every other module holds a table under the
    module's own column labels, each row as wide as the labels. *)
Theorem parsed_modules_shape content modules :
  _process_fastqc_report content = Ok modules →
  NoDup (Py.dict_keys modules) ∧ Forall (λ km, module_shape km.1 km.2) modules.
Proof. apply _process_fastqc_report_shape. Qed.

Lemma parsed_modules_shape_witness :
  NoDup (Py.dict_keys (rep_modules (sample_qc "/p/A/fastqc_data.txt" "sample1.fastq.gz" "sample1")))
  ∧ Forall (λ km, module_shape km.1 km.2)
      (rep_modules (sample_qc "/p/A/fastqc_data.txt" "sample1.fastq.gz" "sample1")).
Proof.
  apply (parsed_modules_shape (sample_report "sample1.fastq.gz")
           (rep_modules (sample_qc "/p/A/fastqc_data.txt" "sample1.fastq.gz" "sample1"))).
  vm_compute. reflexivity.
Defined.

(** ** Sections with the same name *)

Lemma scan_sections_store xs st :
  Forall plain_section xs → Forall regular xs → sc_lines st = [] →
  ∃ st', scan_lines st (xs ≫= section_lines) = Ok st'
         ∧ sc_modules st' = store_sections xs (sc_modules st).
Proof.
  intros Hplain. revert st. induction Hplain as [|x xs Hx _ IH]; intros st Hreg Hlines.
  { by exists st. }
  apply Forall_cons in Hreg as [Hrx Hreg].
  rewrite bind_cons, scan_lines_app, scan_section, fastqc_module_init_regular by done.
  cbn [rbind].
  destruct (IH (Build_scan (Some (sec_name x)) (Some (sec_status x)) (Some (sec_cols x)) []
                  (Py.dict_set (sec_name x) (section_module x) (sc_modules st))) Hreg eq_refl)
    as (st' & E & Hm).
  exists st'. by rewrite E, Hm.
Qed.

Lemma store_sections_cons x xs d :
  store_sections (x :: xs) d
  = store_sections xs (Py.dict_set (sec_name x) (section_module x) d).
Proof. done. Qed.

Lemma store_sections_app xs ys d :
  store_sections (xs ++ ys) d = store_sections ys (store_sections xs d).
Proof. apply foldl_app. Qed.

Lemma dict_get_store xs k d :
  k ∉ sec_name <$> xs → Py.dict_get k (store_sections xs d) = Py.dict_get k d.
Proof.
  revert d. induction xs as [|x xs IH]; intros d; [done|].
  rewrite fmap_cons. intros [Hne Hxs]%not_elem_of_cons.
  rewrite store_sections_cons, IH by done. by apply dict_get_set_ne.
Qed.

Lemma dict_keys_store xs k d :
  k ∈ Py.dict_keys (store_sections xs d) ↔ k ∈ Py.dict_keys d ∨ k ∈ sec_name <$> xs.
Proof.
  revert d. induction xs as [|x xs IH]; intros d.
  { rewrite fmap_nil, elem_of_nil. cbn. tauto. }
  rewrite store_sections_cons, IH, dict_keys_set, fmap_cons, elem_of_cons.
  destruct (decide _) as [Hin|Hnot].
  - split; [tauto|]. intros [?|[->|?]]; tauto.
  - rewrite elem_of_app, list_elem_of_singleton. tauto.
Qed.

(** X5. Module names are not checked for repetition while a report is
    read: of several sections with the same name, the one met last in the
    file is the one the report holds under that name, and the report has a
    key for exactly the names met. *)
Theorem repeated_module_last_wins xs x ys :
  Forall plain_section (xs ++ x :: ys) → Forall regular (xs ++ x :: ys) →
  sec_name x ∉ sec_name <$> ys →
  ∃ modules,
    _process_fastqc_report (report_text (xs ++ x :: ys)) = Ok modules
    ∧ Py.dict_get (sec_name x) modules = Some (section_module x)
    ∧ ∀ k, k ∈ Py.dict_keys modules ↔ k ∈ sec_name <$> (xs ++ x :: ys).
Proof.
  intros Hplain Hreg Hlast. unfold report_text. rewrite parse_unlines.
  - destruct (scan_sections_store _ scan_start Hplain Hreg eq_refl) as (st' & -> & Hm).
    cbn [rbind]. eexists. split; [done|]. rewrite Hm. split.
    + rewrite store_sections_app, store_sections_cons.
      rewrite dict_get_store by done. apply dict_get_set_eq.
    + intros k. rewrite dict_keys_store. cbn. rewrite elem_of_nil. tauto.
  - apply Forall_bind. eapply Forall_impl; [exact Hplain|]. apply nonl_section_lines.
Qed.

Lemma repeated_module_last_wins_witness :
  ∃ modules,
    _process_fastqc_report
      (report_text ([basic_section "first.fastq"] ++ basic_section "second.fastq" :: [gc_section]))
    = Ok modules
    ∧ Py.dict_get "Basic Statistics" modules = Some (section_module (basic_section "second.fastq"))
    ∧ ∀ k, k ∈ Py.dict_keys modules
           ↔ k ∈ sec_name <$> ([basic_section "first.fastq"] ++ basic_section "second.fastq" :: [gc_section]).
Proof.
  apply (repeated_module_last_wins [basic_section "first.fastq"] (basic_section "second.fastq")
           [gc_section]).
  - plain_concrete.
  - plain_concrete.
  - apply (bool_decide_unpack _). vm_compute. exact I.
Defined.

(** * The report object *)

Lemma report_getitem_spec qc key :
  report_getitem qc key
  = match Py.dict_get key (rep_modules qc) with
    | Some m => Ok (mod_data m)
    | None => Raise (KeyError key)
    end.
Proof. unfold report_getitem, dict_item. by destruct (Py.dict_get _ _). Qed.

(** X7. Item access on a report that was built from a file: the key
    Basic Statistics yields a key-value record that is not empty, any other
    key of the report yields a table whose rows are as wide as its column
    labels, and a key the report does not hold raises the key error for
    this key. *)
Theorem getitem_by_key fl path qc key :
  fastqc_report_init fl path = Ok qc →
  match report_getitem qc key with
  | Ok (Series items) => key = basic_statistics ∧ items ≠ []
  | Ok (DataFrame cols rows) =>
      key ≠ basic_statistics ∧ key ∈ Py.dict_keys (rep_modules qc)
      ∧ Forall (λ r, length r = length cols) rows
  | Raise e => e = KeyError key ∧ key ∉ Py.dict_keys (rep_modules qc)
  end.
Proof.
  intros (content & _ & Hparse & _)%fastqc_report_init_inv.
  apply _process_fastqc_report_shape in Hparse as [_ Hshape].
  rewrite report_getitem_spec.
  destruct (Py.dict_get key (rep_modules qc)) as [m|] eqn:Em.
  - assert (key ∈ Py.dict_keys (rep_modules qc)) as Hkey.
    { apply dict_get_keys. by rewrite Em. }
    apply dict_get_elem_of in Em.
    rewrite Forall_forall in Hshape. destruct (Hshape _ Em) as [_ Hm]. cbn [fst snd] in Hm.
    destruct (String.eqb_spec key basic_statistics) as [->|Hne].
    + destruct Hm as (items & -> & Hitems). done.
    + destruct Hm as (rows & -> & Hrows). done.
  - split; [done|]. rewrite <-dict_get_keys, Em. by intros [? ?].
Qed.

Lemma getitem_by_key_witness :
  match report_getitem (sample_qc "/p/A/fastqc_data.txt" "sample1.fastq.gz" "sample1")
          "Per base N content" with
  | Ok (Series items) => "Per base N content" = basic_statistics ∧ items ≠ []
  | Ok (DataFrame cols rows) =>
      "Per base N content" ≠ basic_statistics
      ∧ "Per base N content"
        ∈ Py.dict_keys (rep_modules (sample_qc "/p/A/fastqc_data.txt" "sample1.fastq.gz" "sample1"))
      ∧ Forall (λ r, length r = length cols) rows
  | Raise e =>
      e = KeyError "Per base N content"
      ∧ "Per base N content"
        ∉ Py.dict_keys (rep_modules (sample_qc "/p/A/fastqc_data.txt" "sample1.fastq.gz" "sample1"))
  end.
Proof.
  apply (getitem_by_key two_files "/p/A/fastqc_data.txt"
           (sample_qc "/p/A/fastqc_data.txt" "sample1.fastq.gz" "sample1")
           "Per base N content").
  vm_compute. reflexivity.
Defined.

(** ** The numbers of the report object *)











(** * The collation object and a run *)

(** ** What a run leaves alone *)



(** ** The constructor *)

Lemma sorted_head_le (first : string) rest f :
  StronglySorted String.le (first :: rest) → f ∈ first :: rest → String.le first f.
Proof.
  intros Hs [->|Hin]%elem_of_cons.
  - reflexivity.
  - apply StronglySorted_inv in Hs as [_ Hall]. rewrite Forall_forall in Hall. auto.
Qed.

(** X10. A collation object that was built holds the arguments it was given,
    the output directory being the project root when none was given; its
    list of report files is not empty and its first entry is the least
    path; the module names of the object are the keys of the report at this
    first path: they are distinct and Basic Statistics is one of them. *)
Theorem collation_universe walk fl project_root out_dir fastqc_filename sep self :
  fastqc_collation_init walk fl project_root out_dir fastqc_filename sep = Ok self →
  col_project_root self = project_root
  ∧ col_out_dir self = default project_root out_dir
  ∧ col_fastqc_filename self = fastqc_filename
  ∧ col_sep self = sep
  ∧ ∃ first rest qc,
      col_fastqcfiles self = first :: rest
      ∧ (∀ f, f ∈ col_fastqcfiles self → String.le first f)
      ∧ fastqc_report_init fl first = Ok qc
      ∧ col_modules self = Py.dict_keys (rep_modules qc)
      ∧ NoDup (col_modules self)
      ∧ basic_statistics ∈ col_modules self.
Proof.
  unfold fastqc_collation_init.
  pose proof (sort_sorted (collect fastqc_filename walk)) as Hsorted.
  fold (find_fastqcfiles fastqc_filename walk) in Hsorted.
  destruct (find_fastqcfiles fastqc_filename walk) as [|first rest]; [done|].
  destruct (fastqc_report_init fl first) as [qc|] eqn:Hqc; [|done]. cbn [rbind].
  intros [= <-]. cbn. split_and!; [done..|].
  exists first, rest, qc. split_and!; [done| |done|done| |].
  - intros f. by apply sorted_head_le.
  - apply fastqc_report_init_inv in Hqc as (content & _ & Hparse & _).
    by apply _process_fastqc_report_shape in Hparse as [? _].
  - apply fastqc_report_init_inv in Hqc as (content & _ & _ & Hstats).
    apply _process_basic_stats_inv in Hstats as (_ & _ & _ & bs & stats & Hbs & _).
    apply dict_get_keys. by rewrite Hbs.
Qed.

Lemma collation_universe_witness :
  col_project_root two_collation = "/p"
  ∧ col_out_dir two_collation = default "/p" (Some "/out")
  ∧ col_fastqc_filename two_collation = "fastqc_data.txt"
  ∧ col_sep two_collation = ","
  ∧ ∃ first rest qc,
      col_fastqcfiles two_collation = first :: rest
      ∧ (∀ f, f ∈ col_fastqcfiles two_collation → String.le first f)
      ∧ fastqc_report_init two_files first = Ok qc
      ∧ col_modules two_collation = Py.dict_keys (rep_modules qc)
      ∧ NoDup (col_modules two_collation)
      ∧ basic_statistics ∈ col_modules two_collation.
Proof.
  apply (collation_universe two_walk two_files "/p" (Some "/out") "fastqc_data.txt" ",").
  vm_compute. reflexivity.
Defined.

(** ** A run that completes *)

Lemma dict_keys_set_present {V} k (v v' : V) d :
  Py.dict_get k d = Some v' → Py.dict_keys (Py.dict_set k v d) = Py.dict_keys d.
Proof.
  intros Hget. rewrite dict_keys_set, decide_True; [done|].
  apply dict_get_keys. by rewrite Hget.
Qed.

Lemma _process_mod_keys self f qc module out mode (fl fl' : files) qc' :
  _process_mod self f qc module out mode fl = (fl', Ok qc') →
  Py.contains module (col_modules self) = true
  ∧ module ∈ Py.dict_keys (rep_modules qc)
  ∧ Py.dict_keys (rep_modules qc') = Py.dict_keys (rep_modules qc).
Proof.
  unfold _process_mod.
  destruct (Py.contains module (col_modules self)); [|done]. cbn [negb].
  destruct (negb _); [done|].
  destruct (Py.dict_get _ _) as [m|] eqn:Hget; [|done].
  unfold mbind'. destruct (write_data _ _ _ _ _ _) as [fl1 [[]|e]]; [|done].
  intros [= _ <-]. split; [done|]. split.
  - apply dict_get_keys. by rewrite Hget.
  - cbn [set_data rep_modules]. by eapply dict_keys_set_present.
Qed.

Lemma process_one_keys self f qc module (fl fl' : files) qc' :
  process_one self f qc module fl = (fl', Ok qc') →
  Py.contains module (col_modules self) = true
  ∧ module ∈ Py.dict_keys (rep_modules qc)
  ∧ Py.dict_keys (rep_modules qc') = Py.dict_keys (rep_modules qc).
Proof. unfold process_one. destruct (isfile _ _); apply _process_mod_keys. Qed.

Lemma process_modules_keys self f modules qc (fl fl' : files) qc' :
  process_modules self f qc modules fl = (fl', Ok qc') →
  ∀ m, m ∈ modules →
       Py.contains m (col_modules self) = true ∧ m ∈ Py.dict_keys (rep_modules qc).
Proof.
  revert qc fl. induction modules as [|module rest IH]; intros qc fl Hrun m Hin.
  { by apply elem_of_nil in Hin. }
  rewrite process_modules_cons in Hrun.
  destruct (process_one self f qc module fl) as [fl1 [qc1|e]] eqn:Hone; [|done].
  apply process_one_keys in Hone as (Hknown & Hkey & Hkeys).
  apply elem_of_cons in Hin as [->|Hin]; [done|].
  destruct (IH _ _ Hrun m Hin) as [? ?]. by rewrite <-Hkeys.
Qed.

Lemma process_files_reports self fastqcfiles modules (fl fl' : files) :
  (∀ f m, f ∈ fastqcfiles → m ∈ modules → out_file self m ≠ f) →
  process_files self fastqcfiles modules fl = (fl', Ok tt) →
  ∀ f, f ∈ fastqcfiles →
    ∃ qc, fastqc_report_init fl f = Ok qc
          ∧ ∀ m, m ∈ modules →
                 Py.contains m (col_modules self) = true
                 ∧ m ∈ Py.dict_keys (rep_modules qc).
Proof.
  revert fl. induction fastqcfiles as [|f0 rest IH]; intros fl Hout Hrun f Hin.
  { by apply elem_of_nil in Hin. }
  rewrite process_files_cons in Hrun.
  destruct (fastqc_report_init fl f0) as [qc0|] eqn:Hqc0; [|done].
  destruct (process_modules self f0 qc0 modules fl) as [fl1 [qc1|e]] eqn:Hmods; [|done].
  apply elem_of_cons in Hin as [->|Hin].
  - exists qc0. split; [done|]. by eapply process_modules_keys.
  - destruct (IH fl1) with (f := f) as (qc & Hqc & Hall); [| done | done |].
    { intros f' m Hf' Hm. apply Hout; [by right|done]. }
    exists qc. split; [|done]. rewrite <-Hqc. apply fastqc_report_init_ext.
    pose proof (touches_process_modules self f0 qc0 modules fl f) as Hframe.
    rewrite Hmods in Hframe. symmetry. apply Hframe.
    intros (m & Hf & Hm)%list_elem_of_fmap. by apply (Hout f m); [right| |].
Qed.

(** X11. When no report file is itself an output path, a run completes only
    if every discovered report file, as it was before the run, could be
    loaded and holds every requested module, and every requested module
    is one of the module names of the collation object; the output
    directory then exists or is a file. *)
Theorem completed_run_reports self modules fs fs' :
  (∀ f m, f ∈ col_fastqcfiles self → m ∈ requested self modules → out_file self m ≠ f) →
  process self modules fs = (fs', Ok tt) →
  (col_out_dir self ∈ fs_dirs fs' ∨ isfile (fs_files fs) (col_out_dir self) = true)
  ∧ ∀ f, f ∈ col_fastqcfiles self →
      ∃ qc, fastqc_report_init (fs_files fs) f = Ok qc
            ∧ ∀ m, m ∈ requested self modules →
                   Py.contains m (col_modules self) = true
                   ∧ m ∈ Py.dict_keys (rep_modules qc).
Proof.
  intros Hout Hrun. split.
  - pose proof (process_made_ok _ _ _ _ Hrun) as Hmade.
    destruct (_make_sure_path_exists_dirs self fs Hmade) as ([Hdir|Hfile] & _);
      [left|by right].
    rewrite (process_made _ _ _ Hmade) in Hrun. unfold on_files in Hrun.
    destruct (collate _ _ _) as [fl r]. by injection Hrun as <- _.
  - intros f Hf. apply process_collate in Hrun. rewrite collate_unfold in Hrun.
    destruct (process_files_reports _ _ _ _ _ Hout Hrun f Hf) as (qc & Hqc & Hall).
    exists qc. split; [|done]. rewrite <-Hqc. apply fastqc_report_init_ext.
    rewrite lookup_without, decide_False; [done|].
    intros (m & Hfm & Hm)%list_elem_of_fmap. by apply (Hout f m).
Qed.

Lemma completed_run_reports_witness :
  ("/out" ∈ fs_dirs (process two_collation NoModules two_fs).1
   ∨ isfile two_files "/out" = true)
  ∧ ∀ f, f ∈ col_fastqcfiles two_collation →
      ∃ qc, fastqc_report_init two_files f = Ok qc
            ∧ ∀ m, m ∈ requested two_collation NoModules →
                   Py.contains m (col_modules two_collation) = true
                   ∧ m ∈ Py.dict_keys (rep_modules qc).
Proof.
  apply (completed_run_reports two_collation NoModules two_fs
           (process two_collation NoModules two_fs).1).
  - intros f m Hf Hm. apply list_elem_of_In in Hf, Hm. simpl in Hf, Hm.
    destruct Hf as [<-|[<-|[]]], Hm as [<-|[<-|[]]]; vm_compute; discriminate.
  - vm_compute. reflexivity.
Defined.

(** ** The command line entry point *)

(** X12. The entry point builds the collation object and runs it over all
    modules of the first report. When no file of the tree has the report
    file name, it fails with an index error and the file system is as
    before: not even the output directory is made. When it completes, the
    object was built from the files as they were, and an output file exists
    for every module of the first report, among them the one for
    Basic Statistics, in the output directory, which is the project root
    when none was given. *)
Theorem main_outcome walk project_root out_dir fastqc_filename sep fs :
  ((∀ root dirs files, (root, dirs, files) ∈ walk → fastqc_filename ∉ files) →
   main walk project_root out_dir fastqc_filename sep fs = (fs, Raise IndexError))
  ∧ (∀ fs',
       main walk project_root out_dir fastqc_filename sep fs = (fs', Ok tt) →
       ∃ self,
         fastqc_collation_init walk (fs_files fs) project_root out_dir fastqc_filename sep
         = Ok self
         ∧ isfile (fs_files fs')
             (Py.path_join (default project_root out_dir)
                ("Basic Statistics_fastqc_collation"
                 +:+ (if String.eqb sep "," then ".csv" else ".txt"))) = true
         ∧ ∀ module, module ∈ col_modules self →
                     isfile (fs_files fs') (out_file self module) = true).
Proof.
  unfold main. split.
  - intros Hnone. unfold fastqc_collation_init. by rewrite (find_nil _ _ Hnone).
  - intros fs'.
    destruct (fastqc_collation_init walk (fs_files fs) project_root out_dir
                fastqc_filename sep) as [self|e] eqn:Hinit; [|done].
    intros Hrun. exists self. split; [done|].
    assert (∀ module, module ∈ col_modules self →
                      isfile (fs_files fs') (out_file self module) = true) as Hall.
    { intros module Hmodule. apply process_collate in Hrun. rewrite collate_unfold in Hrun.
      revert Hinit Hrun. unfold fastqc_collation_init.
      destruct (find_fastqcfiles fastqc_filename walk) as [|first rest] eqn:Hfiles; [done|].
      destruct (fastqc_report_init (fs_files fs) first) as [qc|]; [|done]. cbn [rbind].
      intros [= <-]. cbn [col_fastqcfiles requested]. intros Hrun.
      apply bool_decide_eq_true. by eapply process_files_written. }
    split; [|done].
    revert Hinit. unfold fastqc_collation_init.
    destruct (find_fastqcfiles fastqc_filename walk) as [|first rest]; [done|].
    destruct (fastqc_report_init (fs_files fs) first) as [qc|] eqn:Hqc; [|done]. cbn [rbind].
    intros [= Hself].
    assert (basic_statistics ∈ col_modules self) as Hbs.
    { rewrite <-Hself. cbn [col_modules].
      apply fastqc_report_init_inv in Hqc as (content & _ & _ & Hstats).
      apply _process_basic_stats_inv in Hstats as (_ & _ & _ & bs & stats & Hbs & _).
      apply dict_get_keys. by rewrite Hbs. }
    specialize (Hall _ Hbs). rewrite <-Hself in Hall. exact Hall.
Qed.

Lemma main_outcome_witness :
  main [("/p", ["A"], ["readme.txt"]); ("/p/A", [], ["fastqc_report.html"])]
    "/p" None "fastqc_data.txt" "," two_fs = (two_fs, Raise IndexError)
  ∧ ∃ self,
      fastqc_collation_init two_walk (fs_files two_fs) "/p" (Some "/out") "fastqc_data.txt" ","
      = Ok self
      ∧ isfile (fs_files (main two_walk "/p" (Some "/out") "fastqc_data.txt" "," two_fs).1)
          (Py.path_join (default "/p" (Some "/out"))
             ("Basic Statistics_fastqc_collation"
              +:+ (if String.eqb "," "," then ".csv" else ".txt"))) = true
      ∧ ∀ module, module ∈ col_modules self →
                  isfile (fs_files (main two_walk "/p" (Some "/out") "fastqc_data.txt" ","
                                      two_fs).1)
                    (out_file self module) = true.
Proof.
  split.
  - apply (proj1 (main_outcome
                    [("/p", ["A"], ["readme.txt"]); ("/p/A", [], ["fastqc_report.html"])]
                    "/p" None "fastqc_data.txt" "," two_fs)).
    intros root dirs files Hin. apply list_elem_of_In in Hin. simpl in Hin.
    destruct Hin as [[= <- <- <-]|[[= <- <- <-]|[]]];
      intros Hf; apply list_elem_of_In in Hf; simpl in Hf;
      repeat (destruct Hf as [Hf|Hf]; [discriminate|]); destruct Hf.
  - apply (proj2 (main_outcome two_walk "/p" (Some "/out") "fastqc_data.txt" "," two_fs)).
    vm_compute. reflexivity.
Defined.

(** * The provenance fields *)

(** ** Cells of a row *)

Lemma set_cells_overwrite k v1 v2 cols r :
  Pd.set_cells k v2 cols (Pd.set_cells k v1 cols r) = Pd.set_cells k v2 cols r.
Proof.
  revert r. induction cols as [|c cols IH]; intros [|x r]; cbn [Pd.set_cells]; try done.
  rewrite IH. by destruct (String.eqb c k).
Qed.

Lemma set_cells_comm k1 k2 v1 v2 cols r :
  k1 ≠ k2 →
  Pd.set_cells k1 v1 cols (Pd.set_cells k2 v2 cols r)
  = Pd.set_cells k2 v2 cols (Pd.set_cells k1 v1 cols r).
Proof.
  intros Hne. revert r.
  induction cols as [|c cols IH]; intros [|x r]; cbn [Pd.set_cells]; try done.
  rewrite IH. destruct (String.eqb_spec c k1), (String.eqb_spec c k2); congruence.
Qed.

Lemma contains_cons k c cols :
  Py.contains k (c :: cols) = String.eqb k c || Py.contains k cols.
Proof. done. Qed.

Lemma contains_snoc k cols c :
  Py.contains k (cols ++ [c]) = Py.contains k cols || String.eqb k c.
Proof. unfold Py.contains. rewrite existsb_app. cbn [existsb]. by rewrite orb_false_r. Qed.

Lemma contains_elem_of k cols : Py.contains k cols = true ↔ k ∈ cols.
Proof.
  induction cols as [|c cols IH].
  { split; [done|by intros ?%elem_of_nil]. }
  rewrite contains_cons, orb_true_iff, IH, elem_of_cons.
  by destruct (String.eqb_spec k c); split; intros [?|?]; auto.
Qed.

Lemma set_cells_absent k v cols r :
  Py.contains k cols = false → Pd.set_cells k v cols r = r.
Proof.
  revert r. induction cols as [|c cols IH]; intros [|x r]; cbn [Pd.set_cells]; try done.
  rewrite contains_cons. intros [Hc Hcols]%orb_false_elim.
  rewrite String.eqb_sym, Hc. by rewrite IH.
Qed.

Lemma set_cells_snoc k v cols c r x :
  length r = length cols →
  Pd.set_cells k v (cols ++ [c]) (r ++ [x])
  = Pd.set_cells k v cols r ++ [if String.eqb c k then v else x].
Proof.
  revert r. induction cols as [|c' cols IH]; intros [|y r]; try done.
  intros [= Hlen]. cbn [app Pd.set_cells]. by rewrite IH.
Qed.

Lemma length_set_cells k v cols r : length (Pd.set_cells k v cols r) = length r.
Proof.
  revert r. induction cols as [|c cols IH]; intros [|x r]; cbn [Pd.set_cells]; try done.
  cbn [length]. by rewrite IH.
Qed.

(** ** Entries of a record *)

Lemma series_keys_fmap k (f : string * string → string * string) items :
  (∀ kv, (f kv).1 = kv.1) →
  existsb (λ kv, String.eqb kv.1 k) (f <$> items)
  = existsb (λ kv, String.eqb kv.1 k) items.
Proof.
  intros Hf. induction items as [|kv items IH]; [done|].
  rewrite fmap_cons. cbn [existsb]. by rewrite Hf, IH.
Qed.

Lemma series_fmap_absent k v (items : list (string * string)) :
  existsb (λ kv, String.eqb kv.1 k) items = false →
  (λ kv : string * string, if String.eqb kv.1 k then (kv.1, v) else kv) <$> items = items.
Proof.
  induction items as [|kv items IH]; [done|]. cbn [existsb].
  intros [Hkv Hitems]%orb_false_elim. rewrite fmap_cons, Hkv. by rewrite IH.
Qed.

Lemma series_set_overwrite k v1 v2 items :
  Pd.series_set k v2 (Pd.series_set k v1 items) = Pd.series_set k v2 items.
Proof.
  unfold Pd.series_set at 2 3.
  destruct (existsb (λ kv, String.eqb kv.1 k) items) eqn:Hk.
  - unfold Pd.series_set. rewrite series_keys_fmap, Hk.
    2:{ intros kv. by destruct (String.eqb kv.1 k). }
    rewrite <-list_fmap_compose. apply list_fmap_ext. intros _ [k' v'] _. cbn.
    destruct (String.eqb k' k) eqn:E; cbn; by rewrite E.
  - unfold Pd.series_set. rewrite existsb_app, Hk. cbn [existsb fst].
    rewrite String.eqb_refl. cbn [orb]. rewrite fmap_app, series_fmap_absent by done.
    cbn. by rewrite String.eqb_refl.
Qed.

Lemma series_set_comm k1 k2 v1 v2 items :
  k1 ≠ k2 → existsb (λ kv, String.eqb kv.1 k1) items = true →
  Pd.series_set k1 v1 (Pd.series_set k2 v2 items)
  = Pd.series_set k2 v2 (Pd.series_set k1 v1 items).
Proof.
  intros Hne Hk1.
  assert (∀ v (l : list (string * string)) k,
            existsb (λ kv, String.eqb kv.1 k)
              ((λ kv : string * string, if String.eqb kv.1 k1 then (kv.1, v) else kv) <$> l)
            = existsb (λ kv, String.eqb kv.1 k) l) as Hkeys1.
  { intros v l k. apply series_keys_fmap. intros kv. by destruct (String.eqb kv.1 k1). }
  assert (∀ v (l : list (string * string)) k,
            existsb (λ kv, String.eqb kv.1 k)
              ((λ kv : string * string, if String.eqb kv.1 k2 then (kv.1, v) else kv) <$> l)
            = existsb (λ kv, String.eqb kv.1 k) l) as Hkeys2.
  { intros v l k. apply series_keys_fmap. intros kv. by destruct (String.eqb kv.1 k2). }
  unfold Pd.series_set at 2 4. rewrite Hk1.
  destruct (existsb (λ kv, String.eqb kv.1 k2) items) eqn:Hk2.
  - unfold Pd.series_set. rewrite Hkeys2, Hkeys1, Hk1, Hk2.
    rewrite <-!list_fmap_compose. apply list_fmap_ext. intros _ [k' v'] _. cbn.
    destruct (String.eqb k' k1) eqn:E1, (String.eqb k' k2) eqn:E2; cbn;
      rewrite ?E1, ?E2; try done.
    apply String.eqb_eq in E1, E2. congruence.
  - unfold Pd.series_set. rewrite existsb_app, Hk1, Hkeys1, Hk2. cbn [orb].
    rewrite fmap_app. cbn. by destruct (String.eqb_spec k2 k1).
Qed.

(** ** Setting a label *)

Lemma rectangular_setitem k v d : rectangular d → rectangular (Pd.setitem k v d).
Proof.
  destruct d as [items|cols rows]; [done|]. cbn [Pd.setitem rectangular]. unfold Pd.frame_set.
  intros Hrows. destruct (Py.contains k cols); cbn [rectangular].
  - apply Forall_fmap. eapply Forall_impl; [exact Hrows|]. intros r Hr. cbn.
    by rewrite length_set_cells.
  - apply Forall_fmap. eapply Forall_impl; [exact Hrows|]. intros r Hr. cbn.
    rewrite !length_app, Hr. done.
Qed.

Lemma has_label_setitem k v d : has_label k (Pd.setitem k v d) = true.
Proof.
  destruct d as [items|cols rows]; cbn [Pd.setitem].
  - unfold Pd.series_set. destruct (existsb (λ kv, String.eqb kv.1 k) items) eqn:Hk.
    + cbn [has_label]. rewrite series_keys_fmap; [done|].
      intros kv. by destruct (String.eqb kv.1 k).
    + cbn [has_label]. rewrite existsb_app. cbn. rewrite String.eqb_refl.
      by rewrite orb_true_r.
  - unfold Pd.frame_set. destruct (Py.contains k cols) eqn:Hk; cbn [has_label]; [done|].
    rewrite contains_snoc, String.eqb_refl. by rewrite orb_true_r.
Qed.

Lemma setitem_overwrite k v1 v2 d :
  rectangular d → Pd.setitem k v2 (Pd.setitem k v1 d) = Pd.setitem k v2 d.
Proof.
  destruct d as [items|cols rows]; cbn [Pd.setitem rectangular].
  { intros _. by rewrite series_set_overwrite. }
  intros Hrows. unfold Pd.frame_set. destruct (Py.contains k cols) eqn:Hk;
    cbn [Pd.setitem]; unfold Pd.frame_set.
  - rewrite Hk. f_equal.
    rewrite <-list_fmap_compose. apply list_fmap_ext. intros _ r _. cbn.
    apply set_cells_overwrite.
  - rewrite contains_snoc, String.eqb_refl, orb_true_r. f_equal.
    rewrite <-list_fmap_compose. apply Forall_fmap_ext_1.
    eapply Forall_impl; [exact Hrows|]. intros r Hr. cbn.
    rewrite set_cells_snoc, String.eqb_refl by done. by rewrite set_cells_absent.
Qed.

Lemma setitem_comm k1 k2 v1 v2 d :
  rectangular d → k1 ≠ k2 → has_label k1 d = true →
  Pd.setitem k1 v1 (Pd.setitem k2 v2 d) = Pd.setitem k2 v2 (Pd.setitem k1 v1 d).
Proof.
  destruct d as [items|cols rows]; cbn [Pd.setitem rectangular has_label].
  { intros _ Hne Hk1. by rewrite series_set_comm. }
  intros Hrows Hne Hk1. unfold Pd.frame_set. rewrite Hk1.
  destruct (Py.contains k2 cols) eqn:Hk2; cbn [Pd.setitem]; unfold Pd.frame_set.
  - rewrite Hk1, Hk2. f_equal.
    rewrite <-!list_fmap_compose. apply list_fmap_ext. intros _ r _. cbn.
    by apply set_cells_comm.
  - rewrite contains_snoc, Hk1, Hk2. cbn [orb]. f_equal.
    rewrite <-!list_fmap_compose. apply Forall_fmap_ext_1.
    eapply Forall_impl; [exact Hrows|]. intros r Hr. cbn.
    rewrite set_cells_snoc by done. by destruct (String.eqb_spec k2 k1).
Qed.

Lemma annotate_overwrite stub1 path1 stub2 path2 d :
  rectangular d →
  annotate stub2 path2 (annotate stub1 path1 d) = annotate stub2 path2 d.
Proof.
  intros Hd. unfold annotate.
  rewrite (setitem_comm "Filestub" "Filepath") by
    (first [by apply rectangular_setitem | done | apply has_label_setitem]).
  rewrite (setitem_overwrite "Filestub") by done.
  by rewrite (setitem_overwrite "Filepath") by by apply rectangular_setitem.
Qed.

(** X14. Setting the provenance fields again replaces them: on a record, and
    on a table whose rows are as wide as its column labels, setting them
    after an earlier setting gives what setting them once gives, so doing
    it twice with the same values changes nothing; the rows of a table
    stay as wide as its labels. *)
Theorem provenance_fields_replaced stub1 path1 stub2 path2 d :
  rectangular d →
  annotate stub2 path2 (annotate stub1 path1 d) = annotate stub2 path2 d
  ∧ annotate stub1 path1 (annotate stub1 path1 d) = annotate stub1 path1 d
  ∧ rectangular (annotate stub1 path1 d).
Proof.
  intros Hd. split_and!; [by apply annotate_overwrite..|].
  unfold annotate. by do 2 apply rectangular_setitem.
Qed.

Lemma provenance_fields_replaced_witness :
  annotate "sample2" "/p/B/fastqc_data.txt"
    (annotate "sample1" "/p/A/fastqc_data.txt"
       (DataFrame ["Base"; "N-Count"] [["1"; "0.0"]; ["2"; "0.1"]]))
  = annotate "sample2" "/p/B/fastqc_data.txt"
      (DataFrame ["Base"; "N-Count"] [["1"; "0.0"]; ["2"; "0.1"]])
  ∧ annotate "sample1" "/p/A/fastqc_data.txt"
      (annotate "sample1" "/p/A/fastqc_data.txt"
         (DataFrame ["Base"; "N-Count"] [["1"; "0.0"]; ["2"; "0.1"]]))
    = annotate "sample1" "/p/A/fastqc_data.txt"
        (DataFrame ["Base"; "N-Count"] [["1"; "0.0"]; ["2"; "0.1"]])
  ∧ rectangular (annotate "sample1" "/p/A/fastqc_data.txt"
                   (DataFrame ["Base"; "N-Count"] [["1"; "0.0"]; ["2"; "0.1"]])).
Proof.
  apply (provenance_fields_replaced "sample1" "/p/A/fastqc_data.txt"
           "sample2" "/p/B/fastqc_data.txt"
           (DataFrame ["Base"; "N-Count"] [["1"; "0.0"]; ["2"; "0.1"]])).
  repeat constructor.
Defined.

(** ** The report object is updated in place *)

Lemma module_shape_rectangular k m : module_shape k m → rectangular (mod_data m).
Proof.
  intros [_ Hm]. destruct (String.eqb k basic_statistics).
  - by destruct Hm as (items & -> & _).
  - by destruct Hm as (rows & -> & Hrows).
Qed.

Lemma fastqc_report_init_rectangular fl path qc :
  fastqc_report_init fl path = Ok qc → report_rectangular qc.
Proof.
  intros (content & _ & Hparse & _)%fastqc_report_init_inv.
  apply _process_fastqc_report_shape in Hparse as [_ Hshape].
  eapply Forall_impl; [exact Hshape|]. intros [k m]. apply module_shape_rectangular.
Qed.

Lemma _process_mod_inv self f qc module out mode (fl fl' : files) qc' :
  _process_mod self f qc module out mode fl = (fl', Ok qc') →
  ∃ m, Py.dict_get module (rep_modules qc) = Some m
       ∧ qc' = set_data qc module m (annotate (rep_filestub qc) f (mod_data m)).
Proof.
  unfold _process_mod.
  destruct (negb _); [done|]. destruct (negb _); [done|].
  destruct (Py.dict_get _ _) as [m|]; [|done].
  unfold mbind'. destruct (write_data _ _ _ _ _ _) as [fl1 [[]|e]]; [|done].
  intros [= _ <-]. by exists m.
Qed.

(** X15. Writing a module updates the data of the report object in place.
    On a report whose tables have rows as wide as their labels, as every
    report loaded from a file has, this changes nothing for what comes
    after: any later writing of any module from the updated object, for
    any path, changes the files and succeeds or fails exactly as it would
    from the object before the update, and the updated object has such
    tables again. *)
Theorem in_place_update_is_harmless self f qc module out mode (fl fl' : files) qc' :
  report_rectangular qc →
  _process_mod self f qc module out mode fl = (fl', Ok qc') →
  report_rectangular qc'
  ∧ ∀ f2 module2 out2 mode2 (fl2 : files),
      (_process_mod self f2 qc' module2 out2 mode2 fl2).1
      = (_process_mod self f2 qc module2 out2 mode2 fl2).1
      ∧ void (_process_mod self f2 qc' module2 out2 mode2 fl2).2
        = void (_process_mod self f2 qc module2 out2 mode2 fl2).2.
Proof.
  intros Hrect Hrun. apply _process_mod_inv in Hrun as (m & Hget & ->).
  assert (rectangular (mod_data m)) as Hm.
  { apply dict_get_elem_of in Hget. unfold report_rectangular in Hrect.
    rewrite Forall_forall in Hrect. apply (Hrect _ Hget). }
  split.
  - unfold report_rectangular, set_data. cbn [rep_modules].
    apply Forall_dict_set_key; [|done]. cbn [snd mod_data].
    unfold annotate. by do 2 apply rectangular_setitem.
  - intros f2 module2 out2 mode2 fl2.
    destruct (decide (module2 = module)) as [->|Hne].
    + unfold _process_mod. cbn [set_data rep_modules rep_filestub].
      rewrite dict_get_set_eq, Hget. cbn [mod_data].
      rewrite annotate_overwrite by done.
      destruct (negb _); [done|]. destruct (negb _); [done|].
      unfold mbind'. by destruct (write_data _ _ _ _ _ _) as [fl1 [[]|e]].
    + apply _process_mod_ext; [done|]. cbn [set_data rep_modules].
      apply dict_get_set_ne. congruence.
Qed.

Lemma in_place_update_is_harmless_witness :
  ∃ fl' qc',
    _process_mod two_collation "/p/A/fastqc_data.txt"
      (sample_qc "/p/A/fastqc_data.txt" "sample1.fastq.gz" "sample1")
      "Per base N content" "/out/Per base N content_fastqc_collation.csv" "w" two_files
    = (fl', Ok qc')
    ∧ report_rectangular qc'
    ∧ ∀ f2 module2 out2 mode2 (fl2 : files),
        (_process_mod two_collation f2 qc' module2 out2 mode2 fl2).1
        = (_process_mod two_collation f2
             (sample_qc "/p/A/fastqc_data.txt" "sample1.fastq.gz" "sample1")
             module2 out2 mode2 fl2).1
        ∧ void (_process_mod two_collation f2 qc' module2 out2 mode2 fl2).2
          = void (_process_mod two_collation f2
                    (sample_qc "/p/A/fastqc_data.txt" "sample1.fastq.gz" "sample1")
                    module2 out2 mode2 fl2).2.
Proof.
  eexists _, _. split; [vm_compute; reflexivity|].
  eapply (in_place_update_is_harmless two_collation "/p/A/fastqc_data.txt"
            (sample_qc "/p/A/fastqc_data.txt" "sample1.fastq.gz" "sample1")
            "Per base N content" "/out/Per base N content_fastqc_collation.csv" "w"
            two_files).
  - repeat constructor.
  - vm_compute. reflexivity.
Defined.

(** * The output paths *)









(** * Several header lines in one module *)








(** * The separator *)

Lemma setitem_frame k v cols rows :
  ∃ cols' rows', Pd.setitem k v (DataFrame cols rows) = DataFrame cols' rows'.
Proof.
  cbn [Pd.setitem]. unfold Pd.frame_set. destruct (Py.contains k cols); by eexists _, _.
Qed.

Lemma annotate_frame stub path cols rows :
  ∃ cols' rows', annotate stub path (DataFrame cols rows) = DataFrame cols' rows'.
Proof.
  unfold annotate. destruct (setitem_frame "Filestub" stub cols rows) as (c1 & r1 & ->).
  apply setitem_frame.
Qed.

Lemma annotate_series stub path items :
  ∃ items', annotate stub path (Series items) = Series items'.
Proof. unfold annotate. cbn [Pd.setitem]. by eexists. Qed.

(** X18. Only the tables need a separator of one character, however many
    bytes the character takes. With a separator of no character or of
    several, writing a table module fails with a type error after the
    output file has been opened: a file that did not exist is left behind
    empty, and an existing one is left as it was. The key-value module is
    written with any separator. *)
Theorem separator_of_one_character self f qc module m (fl : files) :
  Py.contains module (col_modules self) = true →
  Py.dict_get module (rep_modules qc) = Some m →
  (∀ cols rows,
     mod_data m = DataFrame cols rows → module ≠ basic_statistics →
     Py.utf8 (col_sep self) = true → Py.one_char (col_sep self) = false →
     process_one self f qc module fl
     = (if isfile fl (out_file self module) then fl
        else <[ out_file self module := EmptyString ]> fl, Raise TypeError))
  ∧ (∀ items,
       mod_data m = Series items → module = basic_statistics →
       ∃ fl' qc', process_one self f qc module fl = (fl', Ok qc')).
Proof.
  intros Hknown Hget. split.
  - intros cols rows Hdata Hne _ Hsep.
    destruct (annotate_frame (rep_filestub qc) f cols rows) as (cols' & rows' & Hann).
    assert (String.eqb module basic_statistics = false) as Hmod.
    { by destruct (String.eqb_spec module basic_statistics). }
    assert (∀ mode, Py.contains mode ["w"; "a"] = true →
              _process_mod self f qc module (out_file self module) mode fl
              = (<[ out_file self module
                    := if String.eqb mode "w" then EmptyString
                       else default EmptyString (fl !! out_file self module) ]> fl,
                 Raise TypeError)) as Hrun.
    { intros mode Hmode. unfold _process_mod. rewrite Hknown, Hmode, Hget. cbn [negb].
      rewrite Hdata, Hann. unfold write_data. rewrite Hmod.
      unfold to_csv, mbind'. by rewrite open_file_spec, Hsep. }
    unfold process_one, isfile. case_bool_decide as Hfile.
    + rewrite Hrun by done. destruct Hfile as [content Hfile].
      rewrite Hfile. cbn. by rewrite insert_id.
    + by rewrite Hrun by done.
  - intros items Hdata ->.
    destruct (annotate_series (rep_filestub qc) f items) as (items' & Hann).
    assert (∀ mode, Py.contains mode ["w"; "a"] = true →
              ∃ fl' qc', _process_mod self f qc basic_statistics
                           (out_file self basic_statistics) mode fl = (fl', Ok qc')) as Hrun.
    { intros mode Hmode. unfold _process_mod. rewrite Hknown, Hmode, Hget. cbn [negb].
      rewrite Hdata, Hann. unfold mbind'.
      erewrite write_data_spec by done. by eexists _, _. }
    unfold process_one. destruct (isfile _ _); by apply Hrun.
Qed.

Lemma separator_of_one_character_witness :
  process_one wide_collation "/p/A/fastqc_data.txt"
    (sample_qc "/p/A/fastqc_data.txt" "sample1.fastq.gz" "sample1")
    "Per base N content" two_files
  = (if isfile two_files (out_file wide_collation "Per base N content") then two_files
     else <[ out_file wide_collation "Per base N content" := EmptyString ]> two_files,
     Raise TypeError).
Proof.
  eapply (proj1 (separator_of_one_character wide_collation "/p/A/fastqc_data.txt"
                   (sample_qc "/p/A/fastqc_data.txt" "sample1.fastq.gz" "sample1")
                   "Per base N content" _ two_files eq_refl eq_refl)).
  - reflexivity.
  - discriminate.
  - reflexivity.
  - reflexivity.
Defined.
